(** * PRISMA review scripts: a model of the kappa arithmetic, the study-selection
      simulation and the console scripts, with the properties checked on it.

    Python [int] is [Z].  Python [float] is IEEE binary64: a finite double is
    modelled by the rational it denotes, and every floating-point operation
    is the exact operation followed by rounding to nearest, ties to even
    ([rnd]).  Results outside the finite range are not given a value: the
    operation stops with [OutOfRange] (Python would continue with inf). *)

From Stdlib Require Import ZArith QArith Qround Qabs Qpower Lia Lqa.
From Stdlib Require Import List String Ascii Bool DecimalString.
Import ListNotations.

Set Warnings "-notation-for-abbreviation".
Local Open Scope Q_scope.

(* ================================================================== *)
(** ** Binary64 rounding *)
(* ================================================================== *)

Module Binary64.

(** [floor (log2 |x|)] for [x <> 0] (and [0] at zero): the difference of the
    bit lengths of numerator and denominator, or one less. *)
Definition ilog2 (x : Q) : Z :=
  let p := Z.abs (Qnum x) in
  let q := Zpos (Qden x) in
  let l := (Z.log2 p - Z.log2 q)%Z in
  if (p =? 0)%Z then 0%Z
  else if Qle_bool (2 ^ l) (Qabs x) then l else (l - 1)%Z.

(** Exponent of the unit in the last place: 53 significant bits, and no
    exponent below that of the subnormal numbers. *)
Definition cexp (x : Q) : Z := Z.max (ilog2 x - 52) (-1074).

(** Nearest integer, ties to the even one. *)
Definition ZnearestE (x : Q) : Z :=
  let f := Qfloor x in
  match Qcompare (x - inject_Z f) (1 # 2) with
  | Lt => f
  | Gt => (f + 1)%Z
  | Eq => if Z.even f then f else (f + 1)%Z
  end.

(** Round to nearest binary64, ties to even (no overflow check). *)
Definition rnd (x : Q) : Q :=
  let e := cexp x in
  Qred (inject_Z (ZnearestE (x / 2 ^ e)) * 2 ^ e).

(** Largest finite double is below [2^1024]. *)
Definition finite (x : Q) : bool := negb (Qle_bool (2 ^ 1024) (Qabs x)).

End Binary64.


(* ================================================================== *)
(** ** Python values and operations *)
(* ================================================================== *)

Module Py.
Import Binary64.

(** Exceptions the modelled code can raise. *)
Inductive exn : Type :=
| ZeroDivisionError
| OverflowError
| ValueError
| KeyError.

(** Result of evaluating Python code: a value, an exception, or a float
    operation whose result is not a finite double. *)
Inductive outcome (A : Type) : Type :=
| Returns (a : A)
| Raises (e : exn)
| OutOfRange.
Arguments Returns {A} a.
Arguments Raises {A} e.
Arguments OutOfRange {A}.

Definition bind {A B : Type} (m : outcome A) (k : A -> outcome B) : outcome B :=
  match m with
  | Returns a => k a
  | Raises e => Raises e
  | OutOfRange => OutOfRange
  end.

Definition Qlt_bool (x y : Q) : bool := negb (Qle_bool y x).

Definition fin (x : Q) : outcome Q :=
  if finite x then Returns x else OutOfRange.

(** [float + float], [float - float], [float * float], [float / float]. *)
Definition fadd (x y : Q) : outcome Q := fin (rnd (x + y)).
Definition fsub (x y : Q) : outcome Q := fin (rnd (x - y)).
Definition fmul (x y : Q) : outcome Q := fin (rnd (x * y)).
Definition fdiv (x y : Q) : outcome Q :=
  if Qeq_bool y 0 then Raises ZeroDivisionError else fin (rnd (x / y)).

(** [int / int]: the correctly rounded quotient. *)
Definition int_truediv (a b : Z) : outcome Q :=
  if (b =? 0)%Z then Raises ZeroDivisionError
  else let q := rnd (inject_Z a / inject_Z b) in
       if finite q then Returns q else Raises OverflowError.

(** A decimal float literal denotes the nearest double. *)
Definition lit (q : Q) : Q := rnd q.

(** [round(x, ndigits)] on a float, [ndigits >= 0]: the double nearest to the
    decimal with [ndigits] places nearest to [x], ties to even. *)
Definition round (x : Q) (ndigits : nat) : Q :=
  let p := inject_Z (10 ^ Z.of_nat ndigits) in
  rnd (inject_Z (ZnearestE (x * p)) / p).

End Py.

Declare Scope py_scope.
Delimit Scope py_scope with py.
Notation "x <- m ;; k" := (Py.bind m (fun x => k))
  (at level 61, m at next level, right associativity) : py_scope.

(* ================================================================== *)
(** ** scripts/prisma_study_methodology.py *)
(* ================================================================== *)

Module Methodology.
Import Binary64 Py.
Local Open Scope py_scope.

Record ConfusionMatrix : Type := {
  include_include : Z;
  include_exclude : Z;
  exclude_include : Z;
  exclude_exclude : Z
}.

(** The attributes set by [PRISMAStudySelection.__init__]. *)
Record PRISMAStudySelection : Type := {
  initial_records : Z;
  title_abstract_excluded : Z;
  full_text_excluded : Z;
  final_included : Z;
  after_title_abstract : Z;
  full_text_assessed : Z;
  title_abstract_exclusions : list (string * Z);
  full_text_exclusions : list (string * Z);
  databases : list string
}.

Definition init : PRISMAStudySelection :=
  let initial_records := 462%Z in
  let title_abstract_excluded := 60%Z in
  let after_title_abstract := (initial_records - title_abstract_excluded)%Z in
  {| initial_records := initial_records;
     title_abstract_excluded := title_abstract_excluded;
     full_text_excluded := 314;
     final_included := 88;
     after_title_abstract := after_title_abstract;
     full_text_assessed := after_title_abstract;
     title_abstract_exclusions :=
       [ ("duplicate_methodologies", 10); ("insufficient_deep_learning", 10);
         ("preliminary_results", 8); ("no_spatial_resolution", 7);
         ("non_cardiac_focus", 6); ("insufficient_methodology", 6);
         ("small_sample_sizes", 4); ("theoretical_only", 4);
         ("other_reasons", 5) ]%string%Z;
     full_text_exclusions :=
       [ ("not_cardiomyocyte_focused", 95);
         ("methodological_overlap_redundancy", 85);
         ("insufficient_reproducibility", 60);
         ("bulk_transcriptomics_only", 45);
         ("no_spatial_integration", 29) ]%string%Z;
     databases :=
       [ "PubMed"; "Web of Science"; "Embase"; "IEEE Xplore";
         "ACM Digital Library"; "Scopus"; "arXiv"; "bioRxiv"; "medRxiv" ]%string
  |}.

(** The matrix used when [confusion_matrix is None]. *)
Definition default_matrix : ConfusionMatrix :=
  let both_include := 75%Z in
  let both_exclude := 370%Z in
  let r1_include_r2_exclude := 8%Z in
  let r1_exclude_r2_include := 9%Z in
  {| include_include := both_include;
     include_exclude := r1_include_r2_exclude;
     exclude_include := r1_exclude_r2_include;
     exclude_exclude := both_exclude |}.

(** Landis and Koch bands, as the chain of comparisons tests them. *)
Definition interpret (kappa : Q) : string :=
  if Qlt_bool kappa (lit 0) then "Poor agreement"
  else if Qlt_bool kappa (lit (20 # 100)) then "Slight agreement"
  else if Qlt_bool kappa (lit (40 # 100)) then "Fair agreement"
  else if Qlt_bool kappa (lit (60 # 100)) then "Moderate agreement"
  else if Qlt_bool kappa (lit (80 # 100)) then "Substantial agreement"
  else "Almost perfect agreement".

(** The unrounded kappa of [calculate_cohens_kappa]. *)
Definition kappa_value (cm : ConfusionMatrix) : outcome Q :=
  let a := include_include cm in
  let b := include_exclude cm in
  let c := exclude_include cm in
  let d := exclude_exclude cm in
  let n := (a + b + c + d)%Z in
  po <- int_truediv (a + d) n ;;
  p1_include <- int_truediv (a + b) n ;;
  p1_exclude <- int_truediv (c + d) n ;;
  p2_include <- int_truediv (a + c) n ;;
  p2_exclude <- int_truediv (b + d) n ;;
  t1 <- fmul p1_include p2_include ;;
  t2 <- fmul p1_exclude p2_exclude ;;
  pe <- fadd t1 t2 ;;
  if Qeq_bool pe 1 then Returns 1
  else
    num <- fsub po pe ;;
    den <- fsub 1 pe ;;
    fdiv num den.

Definition calculate_cohens_kappa (self : PRISMAStudySelection)
  (confusion_matrix : option ConfusionMatrix) : outcome (Q * string) :=
  let confusion_matrix :=
    match confusion_matrix with
    | None => default_matrix
    | Some cm => cm
    end in
  kappa <- kappa_value confusion_matrix ;;
  let interpretation := interpret kappa in
  Returns (round kappa 3, interpretation).

(** The [quality_assessment] entry of the statistics. *)
Record QualityAssessment : Type := {
  acceptable_threshold : Q;
  meets_threshold : bool;
  confidence_level : string
}.

(** The dictionary returned by [generate_inter_rater_statistics]. *)
Record InterRaterStatistics : Type := {
  cohens_kappa : Q;
  interpretation : string;
  percent_agreement : Q;
  disagreement_rate : Q;
  total_assessed : Z;
  confusion_matrix : ConfusionMatrix;
  observed_agreement : Q;
  expected_agreement : Q;
  quality_assessment : QualityAssessment
}.

Definition generate_inter_rater_statistics (self : PRISMAStudySelection)
  : outcome InterRaterStatistics :=
  ki <- calculate_cohens_kappa self None ;;
  let kappa := fst ki in
  let interpretation := snd ki in
  let confusion_matrix :=
    {| include_include := 75; include_exclude := 8;
       exclude_include := 9; exclude_exclude := 370 |} in
  let a := include_include confusion_matrix in
  let b := include_exclude confusion_matrix in
  let c := exclude_include confusion_matrix in
  let d := exclude_exclude confusion_matrix in
  let total := (a + b + c + d)%Z in
  observed_agreement <- int_truediv (a + d) total ;;
  percent_agreement <- fmul observed_agreement 100 ;;
  let total_disagreements := (b + c)%Z in
  disagreement_fraction <- int_truediv total_disagreements total ;;
  disagreement_rate <- fmul disagreement_fraction 100 ;;
  e1 <- int_truediv ((a + b) * (a + c)) (total * total) ;;
  e2 <- int_truediv ((c + d) * (b + d)) (total * total) ;;
  expected <- fadd e1 e2 ;;
  Returns
    {| cohens_kappa := kappa;
       interpretation := interpretation;
       percent_agreement := round percent_agreement 1;
       disagreement_rate := round disagreement_rate 1;
       total_assessed := total;
       confusion_matrix := confusion_matrix;
       observed_agreement := round observed_agreement 3;
       expected_agreement := round expected 3;
       quality_assessment :=
         {| acceptable_threshold := lit (60 # 100);
            meets_threshold := Qle_bool (lit (60 # 100)) kappa;
            confidence_level :=
              if Qle_bool (lit (75 # 100)) kappa then "High"
              else if Qle_bool (lit (60 # 100)) kappa then "Moderate"
              else "Low" |} |}.


(** [round((count / self.initial_records) * 100, 2)]. *)
Definition percentage_of_initial_of (self : PRISMAStudySelection) (count : Z)
  : outcome Q :=
  fraction <- int_truediv count (initial_records self) ;;
  percentage <- fmul fraction 100 ;;
  Returns (round percentage 2).

(** The four columns of the summary table of [export_study_selection_data]. *)
Record SummaryData : Type := {
  records_count : list Z;
  excluded_count : list Z;
  cumulative_exclusion : list Z
}.

Definition summary_data (self : PRISMAStudySelection) : SummaryData :=
  {| records_count :=
       [initial_records self; after_title_abstract self;
        final_included self; final_included self];
     excluded_count :=
       [0; title_abstract_excluded self; full_text_excluded self; 0]%Z;
     cumulative_exclusion :=
       [0; title_abstract_excluded self;
        title_abstract_excluded self + full_text_excluded self;
        title_abstract_excluded self + full_text_excluded self]%Z |}.

End Methodology.

(* ================================================================== *)
(** ** The seeded generators ([random] and [numpy.random]) *)
(* ================================================================== *)

(** The two generators are library code.  A seed fixes a sequence of raw
    draws; the state of a generator is that sequence and a cursor into it.
    Each library call consumes one draw and decodes it.  Both generators are
    process-wide: every instance of the simulation reads and advances the
    same two states. *)
Module Rng.
Import Binary64 Py.

Record rng : Type := { draws : nat -> Z; cursor : nat }.

Definition seeded (stream : nat -> Z) : rng := {| draws := stream; cursor := 0 |}.

Definition next (g : rng) : Z * rng :=
  (draws g (cursor g), {| draws := draws g; cursor := S (cursor g) |}).

(** How a seed determines the draws of each generator. *)
Record Seeding : Type := {
  py_stream : Z -> nat -> Z;   (* random.seed *)
  np_stream : Z -> nat -> Z    (* numpy.random.seed *)
}.

(** The process-wide generator states. *)
Record World : Type := { py_random : rng; np_random : rng }.

(** [random.random()]: a multiple of [2^-53] in [[0, 1)]. *)
Definition unit_float (z : Z) : Q := inject_Z (z mod 2 ^ 53) / inject_Z (2 ^ 53).

(** [random.randint(a, b)]. *)
Definition decode_randint (a b z : Z) : Z := (a + z mod (b - a + 1))%Z.

(** [random.choice(seq)]. *)
Definition decode_choice {A : Type} (seq : list A) (default : A) (z : Z) : A :=
  nth (Z.to_nat (z mod Z.of_nat (List.length seq))) seq default.

(** [itertools.accumulate(weights)] on floats. *)
Fixpoint accumulate (acc : Q) (weights : list Q) : list Q :=
  match weights with
  | [] => []
  | w :: ws => let acc' := rnd (acc + w) in acc' :: accumulate acc' ws
  end.

Definition cum_weights (weights : list Q) : list Q :=
  match weights with
  | [] => []
  | w :: ws => w :: accumulate w ws
  end.

(** [bisect(a, x, 0, hi)] on a sorted list: the first position among the first
    [hi] whose element exceeds [x]. *)
Fixpoint bisect (a : list Q) (x : Q) (hi : nat) : nat :=
  match hi, a with
  | S hi', y :: ys => if Qlt_bool x y then 0%nat else S (bisect ys x hi')
  | _, _ => 0%nat
  end.

(** [random.choices(population, weights=weights)[0]]. *)
Definition decode_choices {A : Type} (population : list A) (weights : list Q)
  (default : A) (z : Z) : A :=
  let cw := cum_weights weights in
  let total := rnd (last cw 0 + 0) in
  let x := rnd (unit_float z * total) in
  nth (bisect cw x (List.length population - 1)) population default.

End Rng.

(* ================================================================== *)
(** ** scripts/prisma_study_selection.py *)
(* ================================================================== *)

Module Selection.
Import Binary64 Py Rng.

(** One row of the synthetic table.  [study_no] is [i + 1]; the columns
    [study_id], [title] and [authors] are format strings of it. *)
Record Study : Type := {
  study_no : Z;
  year : Z;
  journal : string;
  has_gnn : bool;
  has_rnn : bool;
  has_attention : bool;
  spatial_omics : bool;
  cardiac_focus : bool;
  full_text_available : bool;
  peer_reviewed : bool;
  language : string;
  publication_type : string;
  methodology_detail : string;
  sample_size : Z;
  has_spatial_resolution : bool;
  has_empirical_data : bool
}.

(** A dataframe: the rows with their index labels, in order. *)
Definition DataFrame : Type := list (Z * Study).

(** A [dict] with string keys, in insertion order. *)
Definition Dict : Type := list (string * Z).

Definition len (df : DataFrame) : Z := Z.of_nat (List.length df).

Definition values_sum (d : Dict) : Z := fold_right (fun kv s => (snd kv + s)%Z) 0%Z d.

Fixpoint dict_mem (k : string) (d : Dict) : bool :=
  match d with
  | [] => false
  | (k', _) :: d' => if String.eqb k k' then true else dict_mem k d'
  end.

(** [d[k] = v]. *)
Fixpoint dict_set (k : string) (v : Z) (d : Dict) : Dict :=
  match d with
  | [] => [(k, v)]
  | (k', v') :: d' =>
      if String.eqb k k' then (k', v) :: d' else (k', v') :: dict_set k v d'
  end.

(** [d[k] += n], for a key that is present. *)
Fixpoint dict_add (k : string) (n : Z) (d : Dict) : Dict :=
  match d with
  | [] => []
  | (k', v') :: d' =>
      if String.eqb k k' then (k', (v' + n)%Z) :: d' else (k', v') :: dict_add k n d'
  end.

(** [if k not in d: d[k] = 0] followed by [d[k] += n]. *)
Definition dict_count (k : string) (n : Z) (d : Dict) : Dict :=
  dict_add k n (if dict_mem k d then d else dict_set k 0 d).

(** The attributes of an instance that the methods read. *)
Record PRISMAStudySelection : Type := {
  initial_records : Z;
  title_abstract_excluded : Z;
  full_text_excluded : Z;
  final_included : Z;
  title_abstract_exclusions : Dict;
  studies_df : DataFrame
}.

(** Code that reads and advances the process-wide generators and may raise. *)
Definition M (A : Type) : Type := World -> outcome (A * World).

Definition ret {A : Type} (a : A) : M A := fun w => Returns (a, w).

Definition bindM {A B : Type} (m : M A) (k : A -> M B) : M B :=
  fun w => match m w with
           | Returns (a, w') => k a w'
           | Raises e => Raises e
           | OutOfRange => OutOfRange
           end.

Definition raise {A : Type} (e : exn) : M A := fun _ => Raises e.

Definition lift {A : Type} (o : outcome A) : M A :=
  fun w => match o with
           | Returns a => Returns (a, w)
           | Raises e => Raises e
           | OutOfRange => OutOfRange
           end.

Declare Scope sel_scope.
Delimit Scope sel_scope with sel.
Notation "x <~ m ;; k" := (bindM m (fun x => k))
  (at level 61, m at next level, right associativity) : sel_scope.
Notation "' pat <~ m ;; k" := (bindM m (fun x => match x with pat => k end))
  (at level 61, pat pattern, m at next level, right associativity) : sel_scope.
Local Open Scope sel_scope.

(** *** The [random] module *)

Definition py_draw : M Z :=
  fun w => let (z, g) := next (py_random w) in
           Returns (z, {| py_random := g; np_random := np_random w |}).

Definition np_draw : M Z :=
  fun w => let (z, g) := next (np_random w) in
           Returns (z, {| py_random := py_random w; np_random := g |}).

Definition randint (a b : Z) : M Z := z <~ py_draw ;; ret (decode_randint a b z).

Definition choice {A : Type} (seq : list A) (default : A) : M A :=
  z <~ py_draw ;; ret (decode_choice seq default z).

Definition choices {A : Type} (population : list A) (weights : list Q)
  (default : A) : M A :=
  z <~ py_draw ;; ret (decode_choices population weights default z).

(** [random.uniform(a, b)] is [a + (b - a) * random()]. *)
Definition uniform_of (a b : Q) (z : Z) : outcome Q :=
  Py.bind (fsub b a) (fun width =>
  Py.bind (fmul width (unit_float z)) (fun t => fadd a t)).

Definition uniform (a b : Q) : M Q :=
  z <~ py_draw ;; lift (uniform_of a b z).

(** [random.seed(s); np.random.seed(s)]. *)
Definition seed_both (S : Seeding) (random_seed : Z) : M unit :=
  fun _ => Returns (tt, {| py_random := seeded (py_stream S random_seed);
                           np_random := seeded (np_stream S random_seed) |}).

(** *** Dataframe operations *)

Fixpoint remove_nth {A : Type} (i : nat) (l : list A) : list A :=
  match l, i with
  | [], _ => []
  | _ :: xs, O => xs
  | x :: xs, S i' => x :: remove_nth i' xs
  end.

(** [n] rows drawn without replacement, one generator draw per row. *)
Fixpoint sample_rows (n : nat) (rows : DataFrame) : M DataFrame :=
  match n with
  | O => ret []
  | S n' =>
      match rows with
      | [] => ret []
      | r0 :: _ =>
          z <~ np_draw ;;
          let i := Z.to_nat (z mod Z.of_nat (List.length rows)) in
          rest <~ sample_rows n' (remove_nth i rows) ;;
          ret (nth i rows r0 :: rest)
      end
  end.

(** [df.sample(n=n)]: [ValueError] when [n] exceeds the number of rows. *)
Definition sample (df : DataFrame) (n : Z) : M DataFrame :=
  if (n <? 0)%Z || (len df <? n)%Z then raise ValueError
  else sample_rows (Z.to_nat n) df.

Definition index (df : DataFrame) : list Z := map fst df.

Definition mem_label (l : Z) (labels : list Z) : bool := existsb (Z.eqb l) labels.

(** [df.drop(labels)]: [KeyError] when a label is not in the index. *)
Definition drop (df : DataFrame) (labels : list Z) : M DataFrame :=
  if forallb (fun l => mem_label l (index df)) labels
  then ret (filter (fun r => negb (mem_label (fst r) labels)) df)
  else raise KeyError.

(** *** [_generate_synthetic_studies] *)

Definition journals : list string :=
  [ "Nature Biotechnology"; "Cell"; "Science"; "Nature Methods";
    "Bioinformatics"; "Nature Communications"; "PLOS ONE" ]%string.

Definition publication_types : list string :=
  [ "research_article"; "conference_abstract"; "letter"; "editorial" ]%string.

(** [random.choice(pop) if not is_high_quality else
     random.choices(pop, weights=weights)[0]]. *)
Definition pick {A : Type} (is_high_quality : bool) (pop : list A)
  (weights : list Q) (default : A) : M A :=
  if negb is_high_quality then choice pop default
  else choices pop (map lit weights) default.

Definition generate_study (target_qualified i : Z) : M Study :=
  let is_high_quality := (i <? target_qualified)%Z in
  let flag := fun w1 w2 => pick is_high_quality [true; false] [w1; w2] false in
  year <~ randint 2019 2025 ;;
  journal <~ choice journals EmptyString ;;
  has_gnn <~ flag (7 # 10) (3 # 10) ;;
  has_rnn <~ flag (6 # 10) (4 # 10) ;;
  has_attention <~ flag (8 # 10) (2 # 10) ;;
  spatial_omics <~ flag (9 # 10) (1 # 10) ;;
  cardiac_focus <~ flag (85 # 100) (15 # 100) ;;
  full_text_available <~ flag (95 # 100) (5 # 100) ;;
  peer_reviewed <~ flag (9 # 10) (1 # 10) ;;
  language <~ pick is_high_quality ["English"; "Non-English"]%string
                [95 # 100; 5 # 100] EmptyString ;;
  publication_type <~ pick is_high_quality publication_types
                        [8 # 10; 1 # 10; 5 # 100; 5 # 100] EmptyString ;;
  methodology_detail <~ pick is_high_quality ["sufficient"; "insufficient"]%string
                          [8 # 10; 2 # 10] EmptyString ;;
  sample_size <~ randint 10 1000 ;;
  has_spatial_resolution <~ flag (9 # 10) (1 # 10) ;;
  has_empirical_data <~ flag (85 # 100) (15 # 100) ;;
  ret {| study_no := i + 1; year := year; journal := journal;
         has_gnn := has_gnn; has_rnn := has_rnn; has_attention := has_attention;
         spatial_omics := spatial_omics; cardiac_focus := cardiac_focus;
         full_text_available := full_text_available;
         peer_reviewed := peer_reviewed; language := language;
         publication_type := publication_type;
         methodology_detail := methodology_detail; sample_size := sample_size;
         has_spatial_resolution := has_spatial_resolution;
         has_empirical_data := has_empirical_data |}.

(** The loop [for i in range(initial_records)], from [i] on, [k] rounds. *)
Fixpoint generate_from (target_qualified i : Z) (k : nat) : M DataFrame :=
  match k with
  | O => ret []
  | S k' =>
      study <~ generate_study target_qualified i ;;
      rest <~ generate_from target_qualified (i + 1) k' ;;
      ret ((i, study) :: rest)
  end.

Definition _generate_synthetic_studies (initial_records final_included : Z)
  : M DataFrame :=
  let target_qualified := (final_included + 50)%Z in
  generate_from target_qualified 0 (Z.to_nat initial_records).

(** The dictionary [__init__] assigns to [self.title_abstract_exclusions]. *)
Definition title_abstract_exclusions_table : Dict :=
  [ ("duplicate_methodologies", 10); ("insufficient_deep_learning", 10);
    ("preliminary_results", 8); ("no_spatial_resolution", 7);
    ("non_cardiac_focus", 6); ("insufficient_methodology", 6);
    ("small_sample_sizes", 4); ("theoretical_only", 4) ]%string%Z.

(** [__init__]: seeds both generators, sets the counters and the exclusion
    table, and generates the synthetic table. *)
Definition init (S : Seeding) (random_seed : Z) : M PRISMAStudySelection :=
  _ <~ seed_both S random_seed ;;
  let initial_records := 462%Z in
  let final_included := 88%Z in
  studies <~ _generate_synthetic_studies initial_records final_included ;;
  ret {| initial_records := initial_records;
         title_abstract_excluded := 60;
         full_text_excluded := 314;
         final_included := final_included;
         title_abstract_exclusions := title_abstract_exclusions_table;
         studies_df := studies |}.

(** *** Screening *)

Definition inclusion_mask (s : Study) : bool :=
  let deep_learning_mask := has_gnn s || has_rnn s || has_attention s in
  let spatial_omics_mask := spatial_omics s in
  let cardiac_focus_mask := cardiac_focus s in
  let publication_mask :=
    peer_reviewed s && String.eqb (language s) "English"
    && ((2019 <=? year s)%Z && (year s <=? 2025)%Z)
    && full_text_available s in
  deep_learning_mask && spatial_omics_mask && cardiac_focus_mask
  && publication_mask.

Definition apply_inclusion_criteria (df : DataFrame) : DataFrame :=
  filter (fun r => inclusion_mask (snd r)) df.

Definition exclude_reason (study : Study) : option string :=
  if existsb (String.eqb (publication_type study))
       ["conference_abstract"; "letter"; "editorial"]%string
  then Some "conference_abstracts_letters_editorials"%string
  else if negb (has_spatial_resolution study)
  then Some "bulk_transcriptomics_only"%string
  else if negb (has_gnn study || has_rnn study || has_attention study)
  then Some "insufficient_deep_learning"%string
  else if negb (cardiac_focus study)
  then Some "non_cardiac_tissue"%string
  else if String.eqb (methodology_detail study) "insufficient"
  then Some "insufficient_methodology"%string
  else if negb (has_empirical_data study)
  then Some "theoretical_only"%string
  else if (sample_size study <? 50)%Z
  then Some "small_sample_sizes"%string
  else None.

(** The loop over [df.iterrows()]: labels to drop and the reason counts. *)
Fixpoint exclusion_loop (rows : DataFrame) (excluded_studies : list Z)
  (exclusion_reasons : Dict) : list Z * Dict :=
  match rows with
  | [] => (excluded_studies, exclusion_reasons)
  | (idx, study) :: rows' =>
      match exclude_reason study with
      | Some reason =>
          exclusion_loop rows' (excluded_studies ++ [idx])
            (dict_count reason 1 exclusion_reasons)
      | None => exclusion_loop rows' excluded_studies exclusion_reasons
      end
  end.

Definition apply_exclusion_criteria (df : DataFrame) : M (DataFrame * Dict) :=
  let '(excluded_studies, exclusion_reasons) := exclusion_loop df [] [] in
  included_df <~ drop df excluded_studies ;;
  ret (included_df, exclusion_reasons).

(** The loop over [self.title_abstract_exclusions.items()]. *)
Fixpoint title_abstract_loop (reasons : Dict) (excluded_indices : list Z)
  (exclusion_counts : Dict) (remaining_studies : DataFrame)
  : M (list Z * Dict * DataFrame) :=
  match reasons with
  | [] => ret (excluded_indices, exclusion_counts, remaining_studies)
  | (reason, count) :: reasons' =>
      if (count <=? len remaining_studies)%Z then
        sampled <~ sample remaining_studies count ;;
        let to_exclude := index sampled in
        remaining' <~ drop remaining_studies to_exclude ;;
        title_abstract_loop reasons' (excluded_indices ++ to_exclude)
          (dict_set reason count exclusion_counts) remaining'
      else
        title_abstract_loop reasons' excluded_indices exclusion_counts
          remaining_studies
  end.

Definition title_abstract_screening (self : PRISMAStudySelection)
  : M (DataFrame * Dict) :=
  let eligible_after_inclusion := apply_inclusion_criteria (studies_df self) in
  '(excluded_indices, exclusion_counts, _) <~
    title_abstract_loop (title_abstract_exclusions self) [] []
      eligible_after_inclusion ;;
  after_title_abstract <~ drop eligible_after_inclusion excluded_indices ;;
  ret (after_title_abstract, exclusion_counts).

Definition full_text_screening (self : PRISMAStudySelection) (df : DataFrame)
  : M (DataFrame * Dict) :=
  '(included_studies, exclusion_reasons) <~ apply_exclusion_criteria df ;;
  let target_final := final_included self in
  let current_included := len included_studies in
  if (target_final <? current_included)%Z then
    let additional_to_exclude := (current_included - target_final)%Z in
    sampled <~ sample included_studies additional_to_exclude ;;
    let additional_excluded := index sampled in
    included_studies' <~ drop included_studies additional_excluded ;;
    ret (included_studies',
         dict_count "methodological_overlap" additional_to_exclude
           exclusion_reasons)
  else ret (included_studies, exclusion_reasons).

Definition calculate_inter_rater_agreement : M Q :=
  kappa <~ uniform (lit (75 # 100)) (lit (95 # 100)) ;;
  ret (round kappa 3).

(** The doubles written [0.75] and [0.95], and their computed difference. *)
Definition f075 : Q := 3 # 4.
Definition f095 : Q := 4278419646001971 # 4503599627370496.
Definition width : Q := 900719925474099 # 4503599627370496.

(** What [calculate_inter_rater_agreement] returns, as a function of the draw
    it takes from the [random] generator. *)
Definition kappa_of_draw (z : Z) : outcome Q :=
  Py.bind (uniform_of f075 f095 z) (fun kappa => Returns (round kappa 3)).

(** *** [_analyze_included_studies] *)

(** [series.value_counts()]: the distinct values with their counts, most
    frequent first; equal counts are listed in order of first appearance. *)
Fixpoint count_value {A : Type} (eqb : A -> A -> bool) (v : A) (l : list A) : Z :=
  match l with
  | [] => 0%Z
  | x :: xs => ((if eqb v x then 1 else 0) + count_value eqb v xs)%Z
  end.

Fixpoint distinct {A : Type} (eqb : A -> A -> bool) (l : list A) (seen : list A)
  : list A :=
  match l with
  | [] => []
  | x :: xs =>
      if existsb (eqb x) seen then distinct eqb xs seen
      else x :: distinct eqb xs (x :: seen)
  end.

Fixpoint insert_by_count {A : Type} (kv : A * Z) (l : list (A * Z)) : list (A * Z) :=
  match l with
  | [] => [kv]
  | kv' :: l' =>
      if (snd kv' <? snd kv)%Z then kv :: kv' :: l'
      else kv' :: insert_by_count kv l'
  end.

Definition value_counts {A : Type} (eqb : A -> A -> bool) (l : list A)
  : list (A * Z) :=
  fold_left (fun acc v => insert_by_count (v, count_value eqb v l) acc)
    (distinct eqb l []) [].

Definition column {A : Type} (f : Study -> A) (df : DataFrame) : list A :=
  map (fun r => f (snd r)) df.

(** [int(df[col].sum())] on a boolean column. *)
Definition count_true (f : Study -> bool) (df : DataFrame) : Z :=
  Z.of_nat (List.length (filter (fun r => f (snd r)) df)).

Fixpoint insert_sorted (x : Z) (l : list Z) : list Z :=
  match l with
  | [] => [x]
  | y :: l' => if (x <=? y)%Z then x :: y :: l' else y :: insert_sorted x l'
  end.

Definition sort (l : list Z) : list Z := fold_right insert_sorted [] l.

Definition sum_Z (l : list Z) : Z := fold_right Z.add 0%Z l.

(** [series.mean()] on an integer column: the sum divided by the count, in
    double precision. *)
Definition mean (l : list Z) : Q :=
  rnd (inject_Z (sum_Z l) / inject_Z (Z.of_nat (List.length l))).

(** [round(x, 2)] on a numpy double: scale, round to an integer, unscale. *)
Definition np_round2 (x : Q) : Q :=
  rnd (inject_Z (ZnearestE (rnd (x * 100))) / 100).

(** [series.median()] on a nonempty integer column. *)
Definition median (l : list Z) : Q :=
  let s := sort l in
  let n := List.length s in
  if Nat.even n
  then rnd (inject_Z (nth (n / 2 - 1) s 0%Z + nth (n / 2) s 0%Z) / 2)
  else inject_Z (nth (n / 2) s 0%Z).

Record MethodologyDistribution : Type := {
  gnn_studies : Z;
  rnn_studies : Z;
  attention_studies : Z;
  spatial_omics_studies : Z
}.

Record SampleSizeStats : Type := {
  stats_mean : Q;
  stats_median : Q;
  stats_min : Z;
  stats_max : Z
}.

Record Characteristics : Type := {
  total_studies : Z;
  year_distribution : list (Z * Z);
  journal_distribution : list (string * Z);
  methodology_distribution : MethodologyDistribution;
  sample_size_stats : SampleSizeStats
}.

(** Returns [None] for the empty dictionary [{}]. *)
Definition _analyze_included_studies (df : DataFrame) : option Characteristics :=
  if (len df =? 0)%Z then None
  else
    let year_dist := value_counts Z.eqb (column year df) in
    let journal_dist := firstn 5 (value_counts String.eqb (column journal df)) in
    let sizes := column sample_size df in
    Some {| total_studies := len df;
            year_distribution := year_dist;
            journal_distribution := journal_dist;
            methodology_distribution :=
              {| gnn_studies := count_true has_gnn df;
                 rnn_studies := count_true has_rnn df;
                 attention_studies := count_true has_attention df;
                 spatial_omics_studies := count_true spatial_omics df |};
            sample_size_stats :=
              {| stats_mean := np_round2 (mean sizes);
                 stats_median := median sizes;
                 stats_min := fold_right Z.min (hd 0%Z sizes) sizes;
                 stats_max := fold_right Z.max (hd 0%Z sizes) sizes |} |}.

(** *** [generate_prisma_flow_data] *)

Record Identification : Type := {
  id_initial_records : Z;
  search_databases : list string
}.

Record TitleAbstractScreening : Type := {
  eligible_for_screening : Z;
  ta_excluded : Z;
  ta_exclusion_reasons : Dict;
  remaining : Z
}.

Record InterRaterAgreement : Type := {
  cohens_kappa : Q;
  interpretation : string
}.

Record FullTextAssessment : Type := {
  assessed : Z;
  ft_excluded : Z;
  ft_exclusion_reasons : Dict;
  included : Z
}.

Record Inclusion : Type := {
  final_synthesis : Z;
  study_characteristics : option Characteristics
}.

Record PrismaData : Type := {
  identification : Identification;
  title_abstract : TitleAbstractScreening;   (* screening.title_abstract_screening *)
  inter_rater_agreement : InterRaterAgreement; (* screening.inter_rater_agreement *)
  full_text_assessment : FullTextAssessment; (* eligibility.full_text_assessment *)
  inclusion : Inclusion
}.

Definition generate_prisma_flow_data (self : PRISMAStudySelection) : M PrismaData :=
  '(after_title_abstract, title_exclusions) <~ title_abstract_screening self ;;
  '(final_included, fulltext_exclusions) <~
    full_text_screening self after_title_abstract ;;
  kappa <~ calculate_inter_rater_agreement ;;
  ret {| identification :=
           {| id_initial_records := initial_records self;
              search_databases :=
                [ "PubMed"; "Web of Science"; "Embase"; "IEEE Xplore";
                  "ACM Digital Library"; "arXiv"; "bioRxiv" ]%string |};
         title_abstract :=
           {| eligible_for_screening :=
                len after_title_abstract + values_sum title_exclusions;
              ta_excluded := values_sum title_exclusions;
              ta_exclusion_reasons := title_exclusions;
              remaining := len after_title_abstract |};
         inter_rater_agreement :=
           {| cohens_kappa := kappa;
              interpretation :=
                if Qlt_bool (lit (8 # 10)) kappa
                then "Substantial agreement" else "Moderate agreement" |};
         full_text_assessment :=
           {| assessed := len after_title_abstract;
              ft_excluded := len after_title_abstract - len final_included;
              ft_exclusion_reasons := fulltext_exclusions;
              included := len final_included |};
         inclusion :=
           {| final_synthesis := len final_included;
              study_characteristics := _analyze_included_studies final_included |}
      |}.

(** One run of the simulation as [main] performs it: construct, then generate. *)
Definition run (S : Seeding) (random_seed : Z) : M PrismaData :=
  self <~ init S random_seed ;;
  generate_prisma_flow_data self.

(** Two instances constructed with the same seed in one process, then each
    asked for its flow data. *)
Definition two_instances (S : Seeding) (random_seed : Z)
  : M (PrismaData * PrismaData) :=
  first <~ init S random_seed ;;
  second <~ init S random_seed ;;
  data1 <~ generate_prisma_flow_data first ;;
  data2 <~ generate_prisma_flow_data second ;;
  ret (data1, data2).

(** The dictionary [generate_prisma_flow_data] builds from its local values. *)
Definition flow_of (self : PRISMAStudySelection)
  (after_title_abstract : DataFrame) (title_exclusions : Dict)
  (final_included : DataFrame) (fulltext_exclusions : Dict) (kappa : Q)
  : PrismaData :=
  {| identification :=
       {| id_initial_records := initial_records self;
          search_databases :=
            [ "PubMed"; "Web of Science"; "Embase"; "IEEE Xplore";
              "ACM Digital Library"; "arXiv"; "bioRxiv" ]%string |};
     title_abstract :=
       {| eligible_for_screening :=
            len after_title_abstract + values_sum title_exclusions;
          ta_excluded := values_sum title_exclusions;
          ta_exclusion_reasons := title_exclusions;
          remaining := len after_title_abstract |};
     inter_rater_agreement :=
       {| cohens_kappa := kappa;
          interpretation :=
            if Qlt_bool (lit (8 # 10)) kappa
            then "Substantial agreement"%string else "Moderate agreement"%string |};
     full_text_assessment :=
       {| assessed := len after_title_abstract;
          ft_excluded := len after_title_abstract - len final_included;
          ft_exclusion_reasons := fulltext_exclusions;
          included := len final_included |};
     inclusion :=
       {| final_synthesis := len final_included;
          study_characteristics := _analyze_included_studies final_included |}
  |}.

(** Between 0.75 and 0.95, and the double nearest to a three-decimal number. *)
Definition in_kappa_range (k : Q) : Prop :=
  75 # 100 <= k <= 95 # 100 /\
  exists m : Z, (750 <= m <= 950)%Z /\ k = rnd (inject_Z m / 1000).

(** The rows some exclusion criterion removes. *)
Definition excluded_row (r : Z * Study) : bool :=
  match exclude_reason (snd r) with
  | None => false
  | Some _ => true
  end.

(** The studies that no exclusion criterion removes. *)
Definition survivors (df : DataFrame) : DataFrame :=
  filter (fun r => match exclude_reason (snd r) with
                   | None => true
                   | Some _ => false
                   end) df.

(** Code that leaves the [random] generator alone. *)
Definition preserves_py {A : Type} (m : M A) : Prop :=
  forall w a w', m w = Returns (a, w') -> py_random w' = py_random w.

Local Open Scope Z_scope.

(** *** Notions used in the statements about the simulation *)

(** The keys of a dictionary, in order. *)
Definition keys (d : Dict) : list string := map fst d.

(** The exclusion reasons that [apply_exclusion_criteria] finds in a frame,
    one for each row it removes. *)
Definition reasons_of (rows : DataFrame) : list string :=
  flat_map (fun r => match exclude_reason (snd r) with
                     | Some reason => [reason]
                     | None => []
                     end) rows.

(** A frame without the rows that carry one of the labels. *)
Definition without (labels : list Z) (df : DataFrame) : DataFrame :=
  filter (fun r => negb (mem_label (fst r) labels)) df.

(** The state of the title/abstract loop: the labels removed so far are
    distinct labels of the eligible frame, the remaining frame is the eligible
    one without them, and the counts recorded add up to their number. *)
Definition loop_state (eligible : DataFrame) (excluded : list Z) (counts : Dict)
  (remaining : DataFrame) : Prop :=
  remaining = without excluded eligible /\
  NoDup excluded /\ incl excluded (index eligible) /\
  Z.of_nat (List.length excluded) = values_sum counts.

(** The generator after [k] more draws. *)
Definition advance (k : nat) (g : rng) : rng :=
  {| draws := draws g; cursor := (k + cursor g)%nat |}.

(** The process after [k] draws from [random] and none from numpy. *)
Definition drawn (k : nat) (w : World) : World :=
  {| py_random := advance k (py_random w); np_random := np_random w |}.

(** The value that [pick] decodes from a draw. *)
Definition pick_decode {A : Type} (is_high_quality : bool) (pop : list A)
  (weights : list Q) (default : A) (z : Z) : A :=
  if negb is_high_quality then decode_choice pop default z
  else decode_choices pop (map lit weights) default z.

(** The labels [i, i + 1, ...] of [k] consecutive rows. *)
Fixpoint labels_from (i : Z) (k : nat) : list Z :=
  match k with
  | O => []
  | S k' => i :: labels_from (i + 1) k'
  end.

(** What every generated row satisfies. *)
Definition generated_row (r : Z * Study) : Prop :=
  study_no (snd r) = fst r + 1 /\
  2019 <= year (snd r) <= 2025 /\
  In (journal (snd r)) journals /\
  In (language (snd r)) ["English"; "Non-English"]%string /\
  In (publication_type (snd r)) publication_types /\
  In (methodology_detail (snd r)) ["sufficient"; "insufficient"]%string /\
  10 <= sample_size (snd r) <= 1000.

End Selection.

(* ================================================================== *)
(** ** scripts/prisma_config.py *)
(* ================================================================== *)

Module Config.

(** [STUDY_SELECTION_CONFIG["target_numbers"]]. *)
Record TargetNumbers : Type := {
  initial_records : Z;
  title_abstract_excluded : Z;
  full_text_excluded : Z;
  final_included : Z
}.

Definition target_numbers : TargetNumbers :=
  {| initial_records := 462; title_abstract_excluded := 60;
     full_text_excluded := 314; final_included := 88 |}.

(** [STUDY_SELECTION_CONFIG["title_abstract_exclusions"]]. *)
Definition title_abstract_exclusions : list (string * Z) :=
  [ ("duplicate_methodologies", 10); ("insufficient_deep_learning", 10);
    ("preliminary_results", 8); ("no_spatial_resolution", 7);
    ("non_cardiac_focus", 6); ("insufficient_methodology", 6);
    ("small_sample_sizes", 4); ("theoretical_only", 4);
    ("language_barriers", 3); ("publication_type_mismatch", 3) ]%string%Z.

(** [STUDY_SELECTION_CONFIG["full_text_exclusions"]]. *)
Definition full_text_exclusions : list (string * Z) :=
  [ ("not_cardiomyocyte_focused", 85); ("methodological_overlap", 75);
    ("insufficient_reproducibility", 60); ("bulk_transcriptomics_only", 45);
    ("no_spatial_integration", 35); ("inadequate_deep_learning", 14) ]%string%Z.

(** [CUSTOM_CONFIG_EXAMPLE["target_numbers"]]. *)
Definition custom_target_numbers : TargetNumbers :=
  {| initial_records := 325; title_abstract_excluded := 45;
     full_text_excluded := 195; final_included := 85 |}.

End Config.

(* ================================================================== *)
(** ** scripts/prisma_runner.py *)
(* ================================================================== *)

Module Runner.
Import Py Rng Selection.
Local Open Scope sel_scope.


End Runner.

(* ================================================================== *)
(** ** The console scripts: read_csv_display.py, scripts/fix_csv_formatting.py
       and the [main] of scripts/prisma_study_methodology.py *)
(* ================================================================== *)

Module Console.

Infix "+++" := String.append (at level 60, right associativity).

(** Exception classes; all derive from [Exception]. *)
Inductive exc_class : Type :=
| FileNotFoundError
| PermissionError
| ImportError
| ParserError
| UnicodeDecodeError
| UnicodeEncodeError
| OSError
| KeyError
| IndexError
| CalledProcessError
| ZeroDivisionError
| OverflowError
| ValueError
| OtherException.

Record exc : Type := { cls : exc_class; message : string }.

(** A loaded table: the header row and the data rows; a missing cell is
    [None]. *)
Record Table : Type := {
  columns : list string;
  rows : list (list (option string))
}.

Definition len (df : Table) : Z := Z.of_nat (List.length (rows df)).
Definition len_columns (df : Table) : Z := Z.of_nat (List.length (columns df)).

(** What the file system, the dataframe library and the console do; every
    operation that can fail says so. *)
Record Env : Type := {
  path_exists : string -> bool;                   (* os.path.exists *)
  basename : string -> string;                    (* os.path.basename *)
  read_csv : string -> string -> exc + Table;     (* pd.read_csv(path, sep=...) *)
  write_file : string -> option exc;               (* to_csv, open(.., 'w') and dump *)
  to_excel : nat -> string -> option exc;          (* k-th call of df.to_excel *)
  pip_install : option exc;                        (* subprocess.check_call *)
  read_lines : string -> exc + list string;        (* open(path) and iteration *)
  dtype_name : Table -> string -> string;          (* str(df.dtypes[col]) *)
  render : string -> Table -> exc + string;        (* to_string and printed series *)
  repr_list : list string -> string;               (* repr of a list of str *)
  stdout : string -> option exc                    (* sys.stdout.write of a line *)
}.

(** Console code: a result or a raised exception, and the lines printed. *)
Inductive res (A : Type) : Type :=
| Ok (a : A)
| Raised (e : exc).
Arguments Ok {A} a.
Arguments Raised {A} e.

Definition IO (A : Type) : Type := res A * list string.

Definition pure {A : Type} (a : A) : IO A := (Ok a, []).

Definition bind {A B : Type} (m : IO A) (k : A -> IO B) : IO B :=
  match m with
  | (Ok a, out) => let (r, out') := k a in (r, out ++ out')
  | (Raised e, out) => (Raised e, out)
  end.

Definition raise {A : Type} (e : exc) : IO A := (Raised e, []).

(** [print(text)]: one entry of the output per call, unless the console
    refuses the text ([UnicodeEncodeError] for a character it cannot encode,
    [OSError] for a closed pipe), in which case nothing is printed and the
    exception is raised. *)
Definition print (env : Env) (text : string) : IO unit :=
  match stdout env text with
  | Some e => (Raised e, [])
  | None => (Ok tt, [text])
  end.

(** [try: body  except Exception as e: handler(e)]. *)
Definition try_except {A : Type} (body : IO A) (handler : exc -> IO A) : IO A :=
  match body with
  | (Ok a, out) => (Ok a, out)
  | (Raised e, out) => let (r, out') := handler e in (r, out ++ out')
  end.

(** [try: body  except ImportError: handler]. *)
Definition try_except_import {A : Type} (body : IO A) (handler : IO A) : IO A :=
  match body with
  | (Raised {| cls := ImportError; message := _ |}, out) =>
      let (r, out') := handler in (r, out ++ out')
  | other => other
  end.

Definition of_sum {A : Type} (x : exc + A) : IO A :=
  match x with
  | inl e => raise e
  | inr a => pure a
  end.

Definition of_option (x : option exc) : IO unit :=
  match x with
  | Some e => raise e
  | None => pure tt
  end.

Declare Scope io_scope.
Delimit Scope io_scope with io.
Notation "x <- m ;; k" := (bind m (fun x => k))
  (at level 61, m at next level, right associativity) : io_scope.
Notation "m ;; k" := (bind m (fun _ => k))
  (at level 61, right associativity) : io_scope.
Local Open Scope io_scope.

Fixpoint for_each {A : Type} (l : list A) (body : A -> IO unit) : IO unit :=
  match l with
  | [] => pure tt
  | x :: l' => body x ;; for_each l' body
  end.

(** *** Text *)

Local Open Scope string_scope.

Definition nl : string := String (ascii_of_nat 10) EmptyString.
Definition tab : string := String (ascii_of_nat 9) EmptyString.

Fixpoint rep (s : string) (n : nat) : string :=
  match n with
  | O => EmptyString
  | S n' => s +++ rep s n'
  end.

(** [str(n)] for an [int]. *)
Definition str (z : Z) : string := NilZero.string_of_int (Z.to_int z).

(** [f"{i:2d}"]: right-aligned in two columns. *)
Definition fmt_2d (z : Z) : string :=
  let s := str z in rep " " (2 - String.length s) +++ s.

(** [s[:n]]. *)
Definition prefix (n : nat) (s : string) : string := String.substring 0 n s.

Definition is_space (c : ascii) : bool :=
  let n := nat_of_ascii c in
  (n =? 32)%nat || ((9 <=? n)%nat && (n <=? 13)%nat).

Fixpoint lstrip (s : string) : string :=
  match s with
  | String c s' => if is_space c then lstrip s' else s
  | EmptyString => EmptyString
  end.

Fixpoint rstrip (s : string) : string :=
  match s with
  | String c s' =>
      match rstrip s' with
      | EmptyString => if is_space c then EmptyString else String c EmptyString
      | t => String c t
      end
  | EmptyString => EmptyString
  end.

(** [s.strip()]. *)
Definition strip (s : string) : string := lstrip (rstrip s).

Definition mem (s : string) (l : list string) : bool := existsb (String.eqb s) l.

(** [str(df.shape)]. *)
Definition shape (df : Table) : string :=
  "(" +++ str (len df) +++ ", " +++ str (len_columns df) +++ ")".

(** Position of a column in the header. *)
Fixpoint position (col : string) (cols : list string) : nat :=
  match cols with
  | [] => O
  | c :: cs => if String.eqb col c then O else S (position col cs)
  end.

Definition cell (df : Table) (row : list (option string)) (col : string)
  : option string :=
  nth (position col (columns df)) row None.

(** [df[col].isnull().sum()]. *)
Definition missing_count (df : Table) (col : string) : Z :=
  Z.of_nat (List.length
              (filter (fun row => match cell df row col with
                                  | None => true
                                  | Some _ => false
                                  end) (rows df))).

(** [str(value)] of a cell. *)
Definition str_cell (c : option string) : string :=
  match c with
  | Some s => s
  | None => "nan"
  end.

(** [enumerate(l, start)]. *)
Fixpoint enumerate {A : Type} (start : Z) (l : list A) : list (Z * A) :=
  match l with
  | [] => []
  | x :: l' => (start, x) :: enumerate (start + 1) l'
  end.

(** *** read_csv_display.py *)

Definition key_columns : list string :=
  ["Title"; "Authors"; "Year"; "Journal_Conference"; "Inclusion_Exclusion_decision"].

(** The body of the [try] of [read_and_display_csv], from the load on. *)
Definition display_loaded (env : Env) (file_path : string) (df : Table) : IO unit :=
  print env (nl +++ rep "=" 80) ;;
  print env ("CSV FILE ANALYSIS: " +++ basename env file_path) ;;
  print env (rep "=" 80) ;;
  print env ("Number of rows: " +++ str (len df)) ;;
  print env ("Number of columns: " +++ str (len_columns df)) ;;
  print env (nl +++ "Column names:") ;;
  for_each (enumerate 1 (columns df))
    (fun ic => print env ("  " +++ fmt_2d (fst ic) +++ ". " +++ snd ic)) ;;
  print env (nl +++ "Data types:") ;;
  for_each (columns df)
    (fun col => print env ("  " +++ col +++ ": " +++ dtype_name env df col)) ;;
  print env (nl +++ "Missing values per column:") ;;
  for_each (columns df)
    (fun col =>
       let count := missing_count df col in
       if (0 <? count)%Z
       then print env ("  " +++ col +++ ": " +++ str count +++ " missing values")
       else print env ("  " +++ col +++ ": No missing values")) ;;
  print env (nl +++ rep "=" 80) ;;
  print env "FIRST 5 ROWS OF DATA:" ;;
  print env (rep "=" 80) ;;
  head <- of_sum (render env "head" df) ;;
  print env head ;;
  print env (nl +++ rep "=" 80) ;;
  print env "SAMPLE DATA WITH KEY COLUMNS:" ;;
  print env (rep "=" 80) ;;
  (if forallb (fun col => mem col (columns df)) key_columns
   then sample <- of_sum (render env "key_columns_head10" df) ;; print env sample
   else pure tt) ;;
  print env (nl +++ rep "=" 80) ;;
  print env "BASIC STATISTICS:" ;;
  print env (rep "=" 80) ;;
  (if mem "Year" (columns df)
   then print env (nl +++ "Year distribution:") ;;
        year_counts <- of_sum (render env "year_counts_head10" df) ;;
        print env year_counts
   else pure tt) ;;
  (if mem "Inclusion_Exclusion_decision" (columns df)
   then print env (nl +++ "Inclusion/Exclusion decision distribution:") ;;
        decision_counts <- of_sum (render env "decision_counts" df) ;;
        print env decision_counts
   else pure tt) ;;
  (if mem "Journal_Conference" (columns df)
   then print env (nl +++ "Top 10 journals/conferences:") ;;
        journal_counts <- of_sum (render env "journal_counts_head10" df) ;;
        print env journal_counts
   else pure tt) ;;
  print env "DATA EXPORT OPTIONS:" ;;
  print env (rep "-" 80) ;;
  print env "You can export this data to different formats:" ;;
  print env "1. Excel: df.to_excel('output.xlsx', index=False)" ;;
  print env "2. JSON: df.to_json('output.json', indent=2)" ;;
  print env "3. HTML: df.to_html('output.html', index=False)" ;;
  print env "4. Tab-separated: df.to_csv('output.tsv', sep='\t', index=False)".

Definition read_and_display_csv (env : Env) (file_path : string) : IO unit :=
  try_except
    (if negb (path_exists env file_path)
     then print env ("Error: File '" +++ file_path +++ "' not found!")
     else
       print env "Reading CSV file..." ;;
       df <- of_sum (read_csv env file_path ",") ;;
       display_loaded env file_path df)
    (fun e =>
       print env ("Error reading CSV file: " +++ message e) ;;
       print env "Common issues:" ;;
       print env "- File encoding problems (try different encodings)" ;;
       print env "- Malformed CSV structure" ;;
       print env "- Special characters in the data").




(** *** scripts/fix_csv_formatting.py *)

(** [s.endswith(suffix)] and [sub in s]. *)
Definition ends_with (suffix s : string) : bool :=
  let n := String.length s in
  let m := String.length suffix in
  (m <=? n)%nat && String.eqb (String.substring (n - m) m s) suffix.

Definition contains (sub s : string) : bool :=
  match String.index 0 sub s with
  | Some _ => true
  | None => false
  end.

Definition original_file : string :=
  "c:\Users\tumok\OneDrive\Documents\process_files_project\Complete_Filtered_462_Publications_PRISMA (1).csv".

Definition output_file_1 : string := "properly_formatted_publications.csv".
Definition output_file_2 : string := "properly_formatted_publications.tsv".
Definition output_file_3 : string := "properly_formatted_publications.xlsx".
Definition output_file_4 : string := "properly_formatted_publications_pipe.csv".
Definition output_file_5 : string := "manually_formatted_publications.csv".

(** The body of the verification loop for one file. *)
Definition check_file (env : Env) (file_name : string) : IO unit :=
  print env (nl +++ "--- " +++ file_name +++ " ---") ;;
  try_except
    (test_df <- of_sum
       (if ends_with ".tsv" file_name then read_csv env file_name tab
        else if contains "pipe" file_name then read_csv env file_name "|"
        else read_csv env file_name ",") ;;
     print env ("Shape: " +++ shape test_df) ;;
     print env ("Columns: " +++ str (len_columns test_df)) ;;
     print env "Sample data:" ;;
     sample <- of_sum (render env "title_authors_year_head2" test_df) ;;
     print env sample)
    (fun e => print env ("Error reading " +++ file_name +++ ": " +++ message e)).

Definition excel_created : string := "✓ Excel file created successfully".

Definition create_properly_formatted_csv (env : Env) : IO string :=
  print env "Reading original CSV file..." ;;
  df <- of_sum (read_csv env original_file ",") ;;
  print env ("Data shape: " +++ shape df) ;;
  print env ("Columns: " +++ repr_list env (columns df)) ;;
  print env (nl +++ "Creating " +++ output_file_1 +++ "...") ;;
  of_option (write_file env output_file_1) ;;
  print env ("Creating " +++ output_file_2 +++ "...") ;;
  of_option (write_file env output_file_2) ;;
  print env ("Creating " +++ output_file_3 +++ "...") ;;
  try_except_import
    (of_option (to_excel env 0 output_file_3) ;; print env excel_created)
    (print env "⚠ Excel export requires openpyxl. Installing..." ;;
     of_option (pip_install env) ;;
     of_option (to_excel env 1 output_file_3) ;;
     print env excel_created) ;;
  print env ("Creating " +++ output_file_4 +++ "...") ;;
  of_option (write_file env output_file_4) ;;
  print env ("Creating " +++ output_file_5 +++ "...") ;;
  of_option (write_file env output_file_5) ;;
  print env (nl +++ rep "=" 80) ;;
  print env "VERIFICATION - First 3 rows of each file:" ;;
  print env (rep "=" 80) ;;
  for_each [output_file_1; output_file_2; output_file_4; output_file_5]
    (check_file env) ;;
  print env (nl +++ rep "=" 80) ;;
  print env "EXPORT SUMMARY" ;;
  print env (rep "=" 80) ;;
  print env ("Original file: " +++ original_file) ;;
  print env ("Exported " +++ str (len df) +++ " rows and " +++ str (len_columns df)
         +++ " columns to:") ;;
  print env ("  1. " +++ output_file_1 +++ " (Standard CSV)") ;;
  print env ("  2. " +++ output_file_2 +++ " (Tab-separated)") ;;
  print env ("  3. " +++ output_file_3 +++ " (Excel format)") ;;
  print env ("  4. " +++ output_file_4 +++ " (Pipe-separated)") ;;
  print env ("  5. " +++ output_file_5 +++ " (Manually formatted CSV)") ;;
  print env (nl +++ "Recommended file to use:") ;;
  print env ("  - For Excel: " +++ output_file_3) ;;
  print env ("  - For text editors: " +++ output_file_2 +++ " (tab-separated)") ;;
  print env ("  - For general use: " +++ output_file_1 +++ " (standard CSV)") ;;
  pure output_file_1.

(** [df.iloc[0]]. *)
Definition iloc0 (df : Table) : IO (list (option string)) :=
  match rows df with
  | row :: _ => pure row
  | [] => raise {| cls := IndexError;
                   message := "single positional indexer is out-of-bounds" |}
  end.

Definition display_csv_structure (env : Env) (filename : string) : IO unit :=
  print env (nl +++ rep "=" 80) ;;
  print env ("DETAILED STRUCTURE ANALYSIS: " +++ filename) ;;
  print env (rep "=" 80) ;;
  try_except
    (df <- of_sum (read_csv env filename ",") ;;
     print env ("File: " +++ filename) ;;
     print env ("Rows: " +++ str (len df)) ;;
     print env ("Columns: " +++ str (len_columns df)) ;;
     print env ("Column names: " +++ repr_list env (columns df)) ;;
     print env (nl +++ "Data quality check:") ;;
     print env "  - Missing values per column:" ;;
     for_each (columns df)
       (fun col => print env ("    " +++ col +++ ": " +++ str (missing_count df col))) ;;
     print env (nl +++ "First row data:") ;;
     first_row <- iloc0 df ;;
     for_each (columns df)
       (fun col =>
          let value := str_cell (cell df first_row col) in
          let value := if (50 <? String.length value)%nat
                       then prefix 50 value +++ "..." else value in
          print env ("  " +++ col +++ ": " +++ value)) ;;
     print env (nl +++ "Raw file content (first 3 lines):") ;;
     lines <- of_sum (read_lines env filename) ;;
     for_each (enumerate 0 (firstn 3 lines))
       (fun il => print env ("  Line " +++ str (fst il + 1) +++ ": "
                         +++ prefix 100 (strip (snd il)) +++ "...")))
    (fun e => print env ("Error analyzing " +++ filename +++ ": " +++ message e)).

Definition fix_csv_formatting_main (env : Env) : IO unit :=
  print env "CSV Formatting Fix Tool" ;;
  print env (rep "=" 80) ;;
  main_output <- create_properly_formatted_csv env ;;
  display_csv_structure env main_output ;;
  print env (nl +++ rep "=" 80) ;;
  print env "FORMATTING FIX COMPLETE" ;;
  print env (rep "=" 80) ;;
  print env (nl +++ "If you're still seeing issues with the CSV:") ;;
  print env "1. Try opening the .xlsx file instead" ;;
  print env "2. Use the tab-separated .tsv file" ;;
  print env "3. Check your CSV viewer settings (delimiter, encoding)" ;;
  print env "4. Try the pipe-separated version if commas in data cause issues".

(** *** [main] of scripts/prisma_study_methodology.py *)















(** A console on which no [print] fails. *)
Definition accepts_all (env : Env) : Prop := forall text, stdout env text = None.

End Console.

(* ================================================================== *)
(** ** Concrete generators for the worked examples *)
(* ================================================================== *)

Module Example.
Import Rng.

(** The SplitMix64 sequence started at the seed. *)
Definition splitmix (seed : Z) (i : nat) : Z :=
  let m := (2 ^ 64)%Z in
  let z := (((seed + Z.of_nat i + 1) * 11400714819323198485) mod m)%Z in
  let z := ((Z.lxor z (Z.shiftr z 30) * 13787848793156543929) mod m)%Z in
  let z := ((Z.lxor z (Z.shiftr z 27) * 10723151780598845931) mod m)%Z in
  Z.lxor z (Z.shiftr z 31).

Definition seeding : Seeding :=
  {| py_stream := splitmix; np_stream := fun seed => splitmix (seed + 1000003) |}.

(** A generator state from before any seeding. *)
Definition fresh : World :=
  {| py_random := seeded (fun _ => 0%Z); np_random := seeded (fun _ => 0%Z) |}.

(** Three hand-written studies: the first passes every criterion, the second
    is a conference abstract, the third is not peer reviewed. *)
Definition study (no yr : Z) (peer : bool) (ptype : string) : Selection.Study :=
  {| Selection.study_no := no; Selection.year := yr;
     Selection.journal := "Cell";
     Selection.has_gnn := true; Selection.has_rnn := false;
     Selection.has_attention := true; Selection.spatial_omics := true;
     Selection.cardiac_focus := true; Selection.full_text_available := true;
     Selection.peer_reviewed := peer; Selection.language := "English";
     Selection.publication_type := ptype;
     Selection.methodology_detail := "sufficient";
     Selection.sample_size := 120;
     Selection.has_spatial_resolution := true;
     Selection.has_empirical_data := true |}.

Definition three_studies : Selection.DataFrame :=
  [ (0%Z, study 1 2021 true "research_article");
    (1%Z, study 2 2022 true "conference_abstract");
    (2%Z, study 3 2023 false "research_article") ].

Definition small_instance : Selection.PRISMAStudySelection :=
  {| Selection.initial_records := 462;
     Selection.title_abstract_excluded := 60;
     Selection.full_text_excluded := 314;
     Selection.final_included := 88;
     Selection.title_abstract_exclusions :=
       Selection.title_abstract_exclusions_table;
     Selection.studies_df := three_studies |}.


Definition read_only : Console.exc :=
  {| Console.cls := Console.PermissionError;
     Console.message := "[Errno 13] Permission denied" |}.



(** A two-column table with one row, and a machine that loads it from any
    path. *)
Definition small_table : Console.Table :=
  {| Console.columns := ["Title"; "Year"]%string;
     Console.rows := [[Some "A study"%string; None]] |}.

Definition loading_env : Console.Env :=
  {| Console.path_exists := fun _ => true;
     Console.basename := fun p => p;
     Console.read_csv := fun _ _ => inr small_table;
     Console.write_file := fun _ => None;
     Console.to_excel := fun _ _ => None;
     Console.pip_install := None;
     Console.read_lines := fun _ => inr ["Title,Year"%string; "A study,"%string];
     Console.dtype_name := fun _ _ => "object"%string;
     Console.render := fun _ _ => inr "..."%string;
     Console.repr_list := fun _ => "[...]"%string;
     Console.stdout := fun _ => None |}.

(** The same machine with the workbook locked by another program: every
    [to_excel] raises [PermissionError]. *)
Definition no_excel : Console.Env :=
  {| Console.path_exists := fun _ => true;
     Console.basename := fun p => p;
     Console.read_csv := fun _ _ => inr small_table;
     Console.write_file := fun _ => None;
     Console.to_excel := fun _ _ => Some read_only;
     Console.pip_install := None;
     Console.read_lines := fun _ => inr ["Title,Year"%string; "A study,"%string];
     Console.dtype_name := fun _ _ => "object"%string;
     Console.render := fun _ _ => inr "..."%string;
     Console.repr_list := fun _ => "[...]"%string;
     Console.stdout := fun _ => None |}.

(** A file with a header line and no data row, and a machine that loads it
    from any path. *)
Definition header_only : Console.Table :=
  {| Console.columns := ["Title"; "Year"]%string; Console.rows := [] |}.

Definition header_only_env : Console.Env :=
  {| Console.path_exists := fun _ => true;
     Console.basename := fun p => p;
     Console.read_csv := fun _ _ => inr header_only;
     Console.write_file := fun _ => None;
     Console.to_excel := fun _ _ => None;
     Console.pip_install := None;
     Console.read_lines := fun _ => inr ["Title,Year"%string];
     Console.dtype_name := fun _ _ => "object"%string;
     Console.render := fun _ _ => inr "..."%string;
     Console.repr_list := fun _ => "[...]"%string;
     Console.stdout := fun _ => None |}.

(** The same machine behind a console that encodes ASCII only: any other
    character makes [print] raise [UnicodeEncodeError]. *)
Fixpoint all_ascii (s : string) : bool :=
  match s with
  | EmptyString => true
  | String c s' => (nat_of_ascii c <? 128)%nat && all_ascii s'
  end.

Definition encode_error : Console.exc :=
  {| Console.cls := Console.UnicodeEncodeError;
     Console.message := "'ascii' codec can't encode character" |}.

Definition ascii_console : Console.Env :=
  {| Console.path_exists := fun _ => true;
     Console.basename := fun p => p;
     Console.read_csv := fun _ _ => inr small_table;
     Console.write_file := fun _ => None;
     Console.to_excel := fun _ _ => None;
     Console.pip_install := None;
     Console.read_lines := fun _ => inr ["Title,Year"%string; "A study,"%string];
     Console.dtype_name := fun _ _ => "object"%string;
     Console.render := fun _ _ => inr "..."%string;
     Console.repr_list := fun _ => "[...]"%string;
     Console.stdout := fun s => if all_ascii s then None else Some encode_error |}.



(** A matrix of one hundred quadrillion joint inclusions and one disagreement:
    the quotient [a / n] rounds to [1.0]. *)
Definition huge_matrix : Methodology.ConfusionMatrix :=
  {| Methodology.include_include := 10 ^ 17;
     Methodology.include_exclude := 1;
     Methodology.exclude_include := 0;
     Methodology.exclude_exclude := 0 |}.

(** Two tables whose textbook kappa is exactly 4/5. *)
Definition borderline_low : Methodology.ConfusionMatrix :=
  {| Methodology.include_include := 3; Methodology.include_exclude := 0;
     Methodology.exclude_include := 1; Methodology.exclude_exclude := 8 |}.

Definition borderline_high : Methodology.ConfusionMatrix :=
  {| Methodology.include_include := 4; Methodology.include_exclude := 0;
     Methodology.exclude_include := 1; Methodology.exclude_exclude := 5 |}.

(** The same instance without any study. *)
Definition empty_instance : Selection.PRISMAStudySelection :=
  {| Selection.initial_records := 462;
     Selection.title_abstract_excluded := 60;
     Selection.full_text_excluded := 314;
     Selection.final_included := 88;
     Selection.title_abstract_exclusions :=
       Selection.title_abstract_exclusions small_instance;
     Selection.studies_df := [] |}.

(** A generator state whose next [random] draw is [z]. *)
Definition world_with_draw (z : Z) : World :=
  {| py_random := seeded (fun _ => z); np_random := seeded (fun _ => 0%Z) |}.

(** The same [random] state beside another numpy state. *)
Definition world_with_draw' (z : Z) : World :=
  {| py_random := seeded (fun _ => z); np_random := seeded (splitmix 7) |}.

End Example.

(* ================================================================== *)
(** ** Reference formulas used in the statements *)
(* ================================================================== *)

Module Kappa.
Import Binary64 Py Methodology.

Definition total (cm : ConfusionMatrix) : Z :=
  (include_include cm + include_exclude cm
   + exclude_include cm + exclude_exclude cm)%Z.

Definition nonneg (cm : ConfusionMatrix) : Prop :=
  (0 <= include_include cm)%Z /\ (0 <= include_exclude cm)%Z /\
  (0 <= exclude_include cm)%Z /\ (0 <= exclude_exclude cm)%Z.

(** Textbook Cohen's kappa, in exact rational arithmetic. *)
Definition po_exact (cm : ConfusionMatrix) : Q :=
  inject_Z (include_include cm + exclude_exclude cm) / inject_Z (total cm).

Definition pe_exact (cm : ConfusionMatrix) : Q :=
  let n := inject_Z (total cm) in
  (inject_Z (include_include cm + include_exclude cm) / n)
  * (inject_Z (include_include cm + exclude_include cm) / n)
  + (inject_Z (exclude_include cm + exclude_exclude cm) / n)
    * (inject_Z (include_exclude cm + exclude_exclude cm) / n).

Definition kappa_exact (cm : ConfusionMatrix) : Q :=
  if Qeq_bool (pe_exact cm) 1 then 1
  else (po_exact cm - pe_exact cm) / (1 - pe_exact cm).

(** The same formula with every operation rounded to double precision, in the
    order the code performs them. *)
Notation rate x n := (rnd (inject_Z x / inject_Z n)) (only parsing).

Notation po_double cm :=
  (rate (include_include cm + exclude_exclude cm) (total cm)) (only parsing).

Notation pe_double cm :=
  (rnd (rnd (rate (include_include cm + include_exclude cm) (total cm)
             * rate (include_include cm + exclude_include cm) (total cm))
        + rnd (rate (exclude_include cm + exclude_exclude cm) (total cm)
               * rate (include_exclude cm + exclude_exclude cm) (total cm))))
  (only parsing).

Definition kappa_double (cm : ConfusionMatrix) : Q :=
  if Qeq_bool (pe_double cm) 1 then 1
  else rnd (rnd (po_double cm - pe_double cm) / rnd (1 - pe_double cm)).

(** *** Two relabellings of a table *)

(** The table with the reviewers exchanged, and with the decisions exchanged. *)
Definition swap_raters (cm : ConfusionMatrix) : ConfusionMatrix :=
  {| include_include := include_include cm;
     include_exclude := exclude_include cm;
     exclude_include := include_exclude cm;
     exclude_exclude := exclude_exclude cm |}.

Definition swap_labels (cm : ConfusionMatrix) : ConfusionMatrix :=
  {| include_include := exclude_exclude cm;
     include_exclude := exclude_include cm;
     exclude_include := include_exclude cm;
     exclude_exclude := include_include cm |}.

(** [kappa_value] as a function of the five sums of cells and the total. *)
Definition kappa_of_sums (ad ab cd ac bd n : Z) : outcome Q :=
  bind (int_truediv ad n) (fun po =>
  bind (int_truediv ab n) (fun p1_include =>
  bind (int_truediv cd n) (fun p1_exclude =>
  bind (int_truediv ac n) (fun p2_include =>
  bind (int_truediv bd n) (fun p2_exclude =>
  bind (fmul p1_include p2_include) (fun t1 =>
  bind (fmul p1_exclude p2_exclude) (fun t2 =>
  bind (fadd t1 t2) (fun pe =>
  if Qeq_bool pe 1 then Returns 1
  else bind (fsub po pe) (fun num =>
       bind (fsub 1 pe) (fun den => fdiv num den)))))))))).

(** *** Matrices for the three-decimal values between 0.75 and 0.95 *)

Definition cells (a b c d : Z) : ConfusionMatrix :=
  {| include_include := a; include_exclude := b;
     exclude_include := c; exclude_exclude := d |}.






End Kappa.
Module B64Facts.
Import Binary64.

Lemma pow2_pos (e : Z) : 0 < 2 ^ e.
Proof. apply Qpower_0_lt. reflexivity. Qed.

Lemma pow2_nz (e : Z) : ~ 2 ^ e == 0.
Proof. pose proof (pow2_pos e). lra. Qed.

Lemma pow2_succ (e : Z) : 2 ^ (e + 1) == 2 * 2 ^ e.
Proof. rewrite Qpower_plus by lra. change (2 ^ 1) with 2. lra. Qed.

Lemma pow2_pred (e : Z) : 2 * 2 ^ (e - 1) == 2 ^ e.
Proof.
  rewrite <- pow2_succ. replace (e - 1 + 1)%Z with e by lia. reflexivity.
Qed.

Lemma pow2_le (n m : Z) : (n <= m)%Z -> 2 ^ n <= 2 ^ m.
Proof. intros. apply Qpower_le_compat_l; [assumption | lra]. Qed.

Lemma pow2_lt (n m : Z) : (n < m)%Z -> 2 ^ n < 2 ^ m.
Proof. intros. apply Qpower_lt_compat_l; [assumption | lra]. Qed.

Lemma pow2_lt_inv (n m : Z) : 2 ^ n < 2 ^ m -> (n < m)%Z.
Proof. intros. apply (Qpower_lt_compat_l_inv 2); [assumption | lra]. Qed.

Lemma pow2_inject (n : Z) : (0 <= n)%Z -> inject_Z (2 ^ n) == 2 ^ n.
Proof. intros. apply Zpower_Qpower. assumption. Qed.

Lemma Qabs_num_den (x : Q) :
  Qabs x * inject_Z (Zpos (Qden x)) == inject_Z (Z.abs (Qnum x)).
Proof.
  destruct x as [n d]. unfold Qabs, Qeq, Qmult, inject_Z. simpl. lia.
Qed.

Lemma ilog2_raw (x : Q) :
  ~ x == 0 ->
  let l := (Z.log2 (Z.abs (Qnum x)) - Z.log2 (Zpos (Qden x)))%Z in
  2 ^ (l - 1) <= Qabs x /\ Qabs x < 2 ^ (l + 1).
Proof.
  intros Hx l.
  assert (Hp : (0 < Z.abs (Qnum x))%Z).
  { destruct x as [n d]. unfold Qeq in Hx. simpl in *. lia. }
  assert (Hq : (0 < Zpos (Qden x))%Z) by lia.
  pose proof (Z.log2_spec _ Hp) as [Hp1 Hp2].
  pose proof (Z.log2_spec _ Hq) as [Hq1 Hq2].
  pose proof (Z.log2_nonneg (Z.abs (Qnum x))) as Hlp.
  pose proof (Z.log2_nonneg (Zpos (Qden x))) as Hlq.
  set (lp := Z.log2 (Z.abs (Qnum x))) in *.
  set (lq := Z.log2 (Zpos (Qden x))) in *.
  rewrite <- Z.add_1_r in Hp2, Hq2.
  rewrite Zle_Qle in Hp1, Hq1. rewrite Zlt_Qlt in Hp2, Hq2.
  rewrite pow2_inject in Hp1, Hq1, Hp2, Hq2 by lia.
  rewrite pow2_succ in Hp2, Hq2.
  pose proof (Qabs_num_den x) as Hax.
  pose proof (Qabs_nonneg x) as Hnn.
  pose proof (pow2_pos lp). pose proof (pow2_pos lq).
  assert (El : 2 ^ l * 2 ^ lq == 2 ^ lp).
  { unfold l. rewrite <- Qpower_plus by lra.
    replace (lp - lq + lq)%Z with lp by lia. reflexivity. }
  pose proof (pow2_pos l).
  rewrite pow2_succ. rewrite <- (pow2_pred l) in El |- *.
  pose proof (pow2_pos (l - 1)).
  set (P := inject_Z (Z.abs (Qnum x))) in *.
  set (D := inject_Z (Zpos (Qden x))) in *.
  set (X := Qabs x) in *. set (a := 2 ^ (l - 1)) in *.
  set (A := 2 ^ lp) in *. set (B := 2 ^ lq) in *.
  clearbody P D X a A B. clear Hp Hq.
  assert (HD : 0 < D) by lra.
  split.
  - apply Qnot_lt_le. intro Hc.
    assert (0 < (a - X) * D) by (apply Qmult_lt_0_compat; lra).
    assert (0 < a * (2 * B - D)) by (apply Qmult_lt_0_compat; lra).
    lra.
  - apply Qnot_le_lt. intro Hc.
    assert (0 <= (X - 2 * (2 * a)) * D) by (apply Qmult_le_0_compat; lra).
    assert (0 <= (2 * a) * (D - B)) by (apply Qmult_le_0_compat; lra).
    lra.
Qed.

Lemma ilog2_spec (x : Q) :
  ~ x == 0 -> 2 ^ ilog2 x <= Qabs x /\ Qabs x < 2 ^ (ilog2 x + 1).
Proof.
  intros Hx. pose proof (ilog2_raw x Hx) as [H1 H2]. cbv zeta in H1, H2.
  unfold ilog2.
  set (l := (Z.log2 (Z.abs (Qnum x)) - Z.log2 (Z.pos (Qden x)))%Z) in *.
  destruct (Z.eqb_spec (Z.abs (Qnum x)) 0) as [E0|E0].
  { exfalso. apply Hx. destruct x as [n d]. unfold Qeq. simpl in *. lia. }
  destruct (Qle_bool (2 ^ l) (Qabs x)) eqn:E.
  - apply Qle_bool_iff in E. split; assumption.
  - split; [assumption|].
    replace (l - 1 + 1)%Z with l by lia.
    apply Qnot_le_lt. intro Hc. apply Qle_bool_iff in Hc. congruence.
Qed.

(** The two bounds determine the exponent. *)
Lemma ilog2_unique (x : Q) (e : Z) :
  2 ^ e <= Qabs x -> Qabs x < 2 ^ (e + 1) -> ilog2 x = e.
Proof.
  intros H1 H2.
  assert (Hx : ~ x == 0).
  { intro Hc. rewrite Hc in H1. pose proof (pow2_pos e). simpl in H1. lra. }
  destruct (ilog2_spec x Hx) as [H3 H4].
  assert (ilog2 x < e + 1)%Z by (apply pow2_lt_inv; lra).
  assert (e < ilog2 x + 1)%Z by (apply pow2_lt_inv; lra).
  lia.
Qed.

Lemma ilog2_le (x y : Q) :
  ~ x == 0 -> Qabs x <= Qabs y -> (ilog2 x <= ilog2 y)%Z.
Proof.
  intros Hx Hxy.
  assert (Hy : ~ y == 0).
  { intro Hc. rewrite Hc in Hxy. simpl in Hxy.
    pose proof (Qabs_nonneg x).
    assert (Qabs x == 0) by lra.
    apply Hx. revert H0. apply Qabs_case; intros; lra. }
  destruct (ilog2_spec x Hx) as [H1 _].
  destruct (ilog2_spec y Hy) as [_ H2].
  assert (ilog2 x < ilog2 y + 1)%Z by (apply pow2_lt_inv; lra).
  lia.
Qed.

#[global] Instance ilog2_comp : Proper (Qeq ==> eq) ilog2.
Proof.
  intros x y Hxy.
  destruct (Qeq_dec x 0) as [Hx|Hx].
  - assert (Hy : y == 0) by (rewrite <- Hxy; assumption).
    unfold ilog2.
    destruct x as [nx dx], y as [ny dy]. unfold Qeq in Hx, Hy. simpl in Hx, Hy.
    assert (nx = 0%Z) by lia. assert (ny = 0%Z) by lia. subst nx ny.
    reflexivity.
  - destruct (ilog2_spec x Hx) as [H1 H2].
    symmetry. apply ilog2_unique; rewrite <- Hxy; assumption.
Qed.

#[global] Instance cexp_comp : Proper (Qeq ==> eq) cexp.
Proof. intros x y Hxy. unfold cexp. rewrite Hxy. reflexivity. Qed.

(** *** Nearest integer *)

Lemma ZnearestE_cases (x : Q) :
  let f := Qfloor x in
  (x - inject_Z f < 1 # 2 /\ ZnearestE x = f) \/
  (1 # 2 < x - inject_Z f /\ ZnearestE x = (f + 1)%Z) \/
  (x - inject_Z f == 1 # 2 /\
   ZnearestE x = if Z.even f then f else (f + 1)%Z).
Proof.
  intros f. unfold ZnearestE. fold f.
  destruct (Qcompare_spec (x - inject_Z f) (1 # 2)); auto.
Qed.

Lemma Qfloor_bounds (x : Q) :
  inject_Z (Qfloor x) <= x /\ x < inject_Z (Qfloor x) + 1.
Proof.
  split; [apply Qfloor_le|].
  pose proof (Qlt_floor x) as H. rewrite inject_Z_plus in H. exact H.
Qed.

Lemma ZnearestE_error (x : Q) : Qabs (inject_Z (ZnearestE x) - x) <= 1 # 2.
Proof.
  pose proof (Qfloor_bounds x) as [H1 H2].
  apply Qabs_Qle_condition.
  destruct (ZnearestE_cases x) as [[H ->]|[[H ->]|[H ->]]];
    try destruct (Z.even _); rewrite ?inject_Z_plus;
    change (inject_Z 1) with 1; lra.
Qed.

#[global] Instance ZnearestE_comp : Proper (Qeq ==> eq) ZnearestE.
Proof.
  intros x y Hxy. unfold ZnearestE.
  rewrite (Qfloor_comp _ _ Hxy).
  assert (E : x - inject_Z (Qfloor y) == y - inject_Z (Qfloor y))
    by (rewrite Hxy; reflexivity).
  rewrite (Qcompare_comp _ _ E _ _ (Qeq_refl (1 # 2))). reflexivity.
Qed.

Lemma ZnearestE_Z (k : Z) : ZnearestE (inject_Z k) = k.
Proof.
  unfold ZnearestE. rewrite Qfloor_Z.
  assert (E : inject_Z k - inject_Z k == 0) by lra.
  rewrite (Qcompare_comp _ _ E _ _ (Qeq_refl (1 # 2))). reflexivity.
Qed.

Lemma Qfloor_unique (x : Q) (k : Z) :
  inject_Z k <= x -> x < inject_Z k + 1 -> Qfloor x = k.
Proof.
  intros H1 H2. pose proof (Qfloor_bounds x) as [H3 H4].
  assert (inject_Z k < inject_Z (Qfloor x) + 1) by lra.
  assert (inject_Z (Qfloor x) < inject_Z k + 1) by lra.
  change 1 with (inject_Z 1) in H, H0.
  rewrite <- inject_Z_plus in H, H0. rewrite <- Zlt_Qlt in H, H0. lia.
Qed.

Lemma ZnearestE_le (x y : Q) : x <= y -> (ZnearestE x <= ZnearestE y)%Z.
Proof.
  intros Hxy.
  pose proof (Qfloor_resp_le _ _ Hxy) as Hf.
  pose proof (Qfloor_bounds x) as [Hx1 Hx2].
  pose proof (Qfloor_bounds y) as [Hy1 Hy2].
  destruct (Z.eq_dec (Qfloor x) (Qfloor y)) as [E|E].
  - destruct (ZnearestE_cases x) as [[H ->]|[[H ->]|[H ->]]];
    destruct (ZnearestE_cases y) as [[H' ->]|[[H' ->]|[H' ->]]];
    rewrite E in *; try destruct (Z.even _); try lia; exfalso; lra.
  - assert (Qfloor x + 1 <= Qfloor y)%Z by lia.
    assert (ZnearestE x <= Qfloor x + 1)%Z.
    { destruct (ZnearestE_cases x) as [[H' ->]|[[H' ->]|[H' ->]]];
        try destruct (Z.even _); lia. }
    assert (Qfloor y <= ZnearestE y)%Z.
    { destruct (ZnearestE_cases y) as [[H' ->]|[[H' ->]|[H' ->]]];
        try destruct (Z.even _); lia. }
    lia.
Qed.

Lemma ZnearestE_opp (x : Q) : ZnearestE (- x) = (- ZnearestE x)%Z.
Proof.
  pose proof (Qfloor_bounds x) as [H1 H2].
  destruct (Qeq_dec x (inject_Z (Qfloor x))) as [E|E].
  - assert (E1 : ZnearestE (- x) = ZnearestE (inject_Z (- Qfloor x))).
    { apply ZnearestE_comp. rewrite inject_Z_opp. lra. }
    assert (E2 : ZnearestE x = ZnearestE (inject_Z (Qfloor x))).
    { apply ZnearestE_comp. exact E. }
    rewrite E1, E2, !ZnearestE_Z. reflexivity.
  - assert (Hlt : inject_Z (Qfloor x) < x).
    { destruct (Qlt_le_dec (inject_Z (Qfloor x)) x); [assumption|].
      exfalso. apply E. lra. }
    assert (Ef : Qfloor (- x) = (- Qfloor x - 1)%Z).
    { apply Qfloor_unique; unfold Zminus; rewrite inject_Z_plus, inject_Z_opp;
        change (inject_Z (- (1))) with (-1); lra. }
    destruct (ZnearestE_cases x) as [[H ->]|[[H ->]|[H ->]]];
    destruct (ZnearestE_cases (- x)) as [[H' ->]|[[H' ->]|[H' ->]]];
    rewrite Ef in *; unfold Zminus in H';
    rewrite inject_Z_plus, inject_Z_opp in H';
    change (inject_Z (- (1))) with (-1) in H'; try lia; try (exfalso; lra).
    replace (- Qfloor x - 1)%Z with (- (Qfloor x + 1))%Z by lia.
    rewrite Z.even_opp. rewrite Z.even_add. simpl.
    destruct (Z.even (Qfloor x)); simpl; lia.
Qed.

(** *** Rounding *)

Lemma rnd_eq (x : Q) :
  rnd x == inject_Z (ZnearestE (x / 2 ^ cexp x)) * 2 ^ cexp x.
Proof. unfold rnd. apply Qred_correct. Qed.

#[global] Instance rnd_comp : Proper (Qeq ==> eq) rnd.
Proof.
  intros x y Hxy. unfold rnd. apply Qred_complete.
  rewrite (cexp_comp _ _ Hxy).
  assert (E : x / 2 ^ cexp y == y / 2 ^ cexp y) by (rewrite Hxy; reflexivity).
  rewrite (ZnearestE_comp _ _ E). reflexivity.
Qed.

Lemma scale_unscale (x : Q) (e : Z) : x / 2 ^ e * 2 ^ e == x.
Proof. field. apply pow2_nz. Qed.

Lemma scale_le (x y : Q) (e : Z) : x <= y -> x / 2 ^ e <= y / 2 ^ e.
Proof.
  intros. unfold Qdiv. apply Qmult_le_compat_r; [assumption|].
  apply Qinv_le_0_compat. pose proof (pow2_pos e). lra.
Qed.

Lemma ilog2_opp (x : Q) : ilog2 (- x) = ilog2 x.
Proof.
  destruct x as [n d]. unfold ilog2, Qopp, Qabs. simpl.
  rewrite Z.abs_opp. reflexivity.
Qed.

Lemma cexp_opp (x : Q) : cexp (- x) = cexp x.
Proof. unfold cexp. rewrite ilog2_opp. reflexivity. Qed.

Lemma rnd_opp (x : Q) : rnd (- x) == - rnd x.
Proof.
  rewrite !rnd_eq, cexp_opp.
  assert (E : - x / 2 ^ cexp x == - (x / 2 ^ cexp x)).
  { field. apply pow2_nz. }
  rewrite (ZnearestE_comp _ _ E), ZnearestE_opp, inject_Z_opp. ring.
Qed.

Lemma rnd_error (x : Q) : Qabs (rnd x - x) <= 2 ^ (cexp x - 1).
Proof.
  rewrite rnd_eq.
  pose proof (ZnearestE_error (x / 2 ^ cexp x)) as H.
  pose proof (pow2_pos (cexp x)) as Hp.
  pose proof (pow2_pred (cexp x)) as Hh.
  pose proof (scale_unscale x (cexp x)) as Hs.
  set (z := ZnearestE (x / 2 ^ cexp x)) in *.
  apply Qabs_Qle_condition in H. destruct H as [H1 H2].
  apply Qabs_Qle_condition.
  set (s := x / 2 ^ cexp x) in *. set (p := 2 ^ cexp x) in *.
  set (h := 2 ^ (cexp x - 1)) in *. clearbody z s p h.
  assert (0 <= ((1 # 2) - (inject_Z z - s)) * p)
    by (apply Qmult_le_0_compat; lra).
  assert (0 <= ((inject_Z z - s) + (1 # 2)) * p)
    by (apply Qmult_le_0_compat; lra).
  split; lra.
Qed.

Lemma rnd_nonneg (x : Q) : 0 <= x -> 0 <= rnd x.
Proof.
  intros Hx. rewrite rnd_eq.
  apply Qmult_le_0_compat; [|pose proof (pow2_pos (cexp x)); lra].
  change 0 with (inject_Z 0). rewrite <- Zle_Qle.
  rewrite <- (ZnearestE_Z 0). apply ZnearestE_le.
  apply Qle_shift_div_l; [apply pow2_pos|]. change (inject_Z 0) with 0. lra.
Qed.

Lemma cexp_le (x y : Q) :
  ~ x == 0 -> Qabs x <= Qabs y -> (cexp x <= cexp y)%Z.
Proof.
  intros Hx Hxy. pose proof (ilog2_le x y Hx Hxy). unfold cexp. lia.
Qed.

Lemma rnd_le_pos (x y : Q) : 0 < x -> x <= y -> rnd x <= rnd y.
Proof.
  intros Hx Hxy.
  assert (Hx0 : ~ x == 0) by lra.
  assert (Hy0 : ~ y == 0) by lra.
  assert (Hax : Qabs x == x) by (apply Qabs_pos; lra).
  assert (Hay : Qabs y == y) by (apply Qabs_pos; lra).
  assert (Hc : (cexp x <= cexp y)%Z) by (apply cexp_le; [assumption|lra]).
  rewrite !rnd_eq.
  destruct (Z.eq_dec (cexp x) (cexp y)) as [E|E].
  - rewrite E. apply Qmult_le_compat_r; [|pose proof (pow2_pos (cexp y)); lra].
    rewrite <- Zle_Qle. apply ZnearestE_le, scale_le. assumption.
  - assert (Ey : cexp y = (ilog2 y - 52)%Z) by (unfold cexp in *; lia).
    assert (Ex : (ilog2 x - 52 <= cexp x)%Z) by (unfold cexp; lia).
    destruct (ilog2_spec x Hx0) as [_ Hx2].
    destruct (ilog2_spec y Hy0) as [Hy1 _].
    rewrite Hax in Hx2. rewrite Hay in Hy1.
    (* x is below 2^(cexp x + 53), y is at least 2^(cexp y + 52) *)
    assert (Hxb : x <= 2 ^ 53 * 2 ^ cexp x).
    { rewrite <- Qpower_plus by lra.
      apply Qle_trans with (2 ^ (ilog2 x + 1)); [lra|]. apply pow2_le. lia. }
    assert (Hyb : 2 ^ 52 * 2 ^ cexp y <= y).
    { rewrite <- Qpower_plus by lra.
      apply Qle_trans with (2 ^ ilog2 y); [|lra]. apply pow2_le. lia. }
    pose proof (pow2_pos (cexp x)) as Hpx.
    pose proof (pow2_pos (cexp y)) as Hpy.
    assert (Hzx : (ZnearestE (x / 2 ^ cexp x) <= 2 ^ 53)%Z).
    { rewrite <- (ZnearestE_Z (2 ^ 53)). apply ZnearestE_le.
      apply Qle_shift_div_r; [assumption|].
      change (inject_Z (2 ^ 53)) with (2 ^ 53). exact Hxb. }
    assert (Hzy : (2 ^ 52 <= ZnearestE (y / 2 ^ cexp y))%Z).
    { rewrite <- (ZnearestE_Z (2 ^ 52)) at 1. apply ZnearestE_le.
      apply Qle_shift_div_l; [assumption|].
      change (inject_Z (2 ^ 52)) with (2 ^ 52). exact Hyb. }
    rewrite Zle_Qle in Hzx, Hzy.
    change (inject_Z (2 ^ 53)) with (2 ^ 53) in Hzx.
    change (inject_Z (2 ^ 52)) with (2 ^ 52) in Hzy.
    apply Qle_trans with (2 ^ 53 * 2 ^ cexp x).
    { apply Qmult_le_compat_r; lra. }
    apply Qle_trans with (2 ^ 52 * 2 ^ cexp y).
    2:{ apply Qmult_le_compat_r; lra. }
    rewrite <- !Qpower_plus by lra. apply pow2_le. lia.
Qed.

Theorem rnd_le (x y : Q) : x <= y -> rnd x <= rnd y.
Proof.
  intros Hxy.
  destruct (Qlt_le_dec 0 x) as [Hx|Hx].
  - apply rnd_le_pos; assumption.
  - destruct (Qlt_le_dec y 0) as [Hy|Hy].
    + assert (H : rnd (- y) <= rnd (- x)) by (apply rnd_le_pos; lra).
      rewrite !rnd_opp in H. lra.
    + assert (H : 0 <= rnd (- x)) by (apply rnd_nonneg; lra).
      rewrite rnd_opp in H. pose proof (rnd_nonneg y Hy). lra.
Qed.

Lemma rnd_zero (x : Q) : x == 0 -> rnd x == 0.
Proof. intros H. rewrite (rnd_comp _ _ H). reflexivity. Qed.

Lemma Qabs_zero (x : Q) : Qabs x == 0 -> x == 0.
Proof. apply Qabs_case; intros; lra. Qed.

Lemma ilog2_lt (x : Q) (k : Z) : ~ x == 0 -> Qabs x < 2 ^ k -> (ilog2 x < k)%Z.
Proof.
  intros Hx Hk. destruct (ilog2_spec x Hx) as [H1 _].
  apply pow2_lt_inv. lra.
Qed.

Lemma ilog2_ge (x : Q) (k : Z) : 2 ^ k <= Qabs x -> (k <= ilog2 x)%Z.
Proof.
  intros Hk.
  assert (Hx : ~ x == 0).
  { intro Hc. rewrite Hc in Hk. pose proof (pow2_pos k). simpl in Hk. lra. }
  destruct (ilog2_spec x Hx) as [_ H2].
  assert (k < ilog2 x + 1)%Z by (apply pow2_lt_inv; lra). lia.
Qed.

(** Below one the spacing of the doubles is at most [2^-53]; below two, at
    most [2^-52]. *)
Lemma rnd_error_below (x : Q) (k : Z) :
  (-1021 <= k)%Z -> Qabs x < 2 ^ k -> Qabs (rnd x - x) <= 2 ^ (k - 54).
Proof.
  intros Hk Hx.
  destruct (Qeq_dec x 0) as [E|E].
  - rewrite (rnd_comp _ _ E). rewrite E. pose proof (pow2_pos (k - 54)).
    change (Qabs (rnd 0 - 0)) with 0. lra.
  - pose proof (ilog2_lt x k E Hx).
    apply Qle_trans with (2 ^ (cexp x - 1)); [apply rnd_error|].
    apply pow2_le. unfold cexp. lia.
Qed.

Lemma rnd_error_le1 (x : Q) : Qabs x <= 1 -> Qabs (rnd x - x) <= 2 ^ (-54).
Proof.
  intros Hx. destruct (Qlt_le_dec (Qabs x) 1) as [H|H].
  - apply (rnd_error_below x 0); [lia | exact H].
  - assert (E : x == 1 \/ x == -1).
    { revert Hx H. apply Qabs_case; intros; [left|right]; lra. }
    destruct E as [E|E]; rewrite (rnd_comp _ _ E), E; vm_compute; discriminate.
Qed.

Lemma rnd_error_le2 (x : Q) : Qabs x <= 2 -> Qabs (rnd x - x) <= 2 ^ (-53).
Proof.
  intros Hx. destruct (Qlt_le_dec (Qabs x) 2) as [H|H].
  - apply (rnd_error_below x 1); [lia | exact H].
  - assert (E : x == 2 \/ x == -2).
    { revert Hx H. apply Qabs_case; intros; [left|right]; lra. }
    destruct E as [E|E]; rewrite (rnd_comp _ _ E), E; vm_compute; discriminate.
Qed.

(** A rounded value is an integer multiple of its unit in the last place. *)
Lemma rnd_multiple (x : Q) : exists k : Z, rnd x == inject_Z k * 2 ^ cexp x.
Proof. eexists. apply rnd_eq. Qed.

Lemma inject_Z_abs_ge1 (j : Z) : j <> 0%Z -> 1 <= Qabs (inject_Z j).
Proof.
  intros Hj. apply Qabs_case; intros H.
  - change 1 with (inject_Z 1). rewrite <- Zle_Qle.
    change 0 with (inject_Z 0) in H. rewrite <- Zle_Qle in H. lia.
  - rewrite <- inject_Z_opp. change 1 with (inject_Z 1). rewrite <- Zle_Qle.
    change 0 with (inject_Z 0) in H. rewrite <- Zle_Qle in H. lia.
Qed.

(** No double lies strictly within [2^-53] of one, except one itself. *)
Theorem rnd_near_one (z : Q) : rnd z == 1 \/ 2 ^ (-53) <= Qabs (1 - rnd z).
Proof.
  destruct (Qlt_le_dec z (1 # 2)) as [Hlo|Hlo].
  { right. assert (H : rnd z <= rnd (1 # 2)) by (apply rnd_le; lra).
    change (rnd (1 # 2)) with (1 # 2) in H.
    apply Qle_trans with (1 - rnd z); [|apply Qle_Qabs].
    assert (2 ^ (-53) <= 1 # 2) by (vm_compute; discriminate). lra. }
  destruct (Qlt_le_dec z 2) as [Hhi|Hhi].
  2:{ right. assert (H : rnd 2 <= rnd z) by (apply rnd_le; lra).
      change (rnd 2) with 2 in H.
      rewrite Qabs_Qminus.
      apply Qle_trans with (rnd z - 1); [|apply Qle_Qabs].
      assert (2 ^ (-53) <= 1) by (vm_compute; discriminate). lra. }
  assert (Haz : Qabs z == z) by (apply Qabs_pos; lra).
  assert (Hz0 : ~ z == 0) by lra.
  assert (H1 : (-1 <= ilog2 z)%Z).
  { apply ilog2_ge. rewrite Haz. exact Hlo. }
  assert (H2 : (ilog2 z < 1)%Z).
  { apply ilog2_lt; [assumption|]. rewrite Haz. exact Hhi. }
  destruct (rnd_multiple z) as [k Hk].
  assert (Hc : cexp z = (-53)%Z \/ cexp z = (-52)%Z) by (unfold cexp; lia).
  destruct Hc as [Hc|Hc]; rewrite Hc in Hk.
  - destruct (Z.eq_dec k (2 ^ 53)) as [E|E].
    + left. rewrite Hk, E. reflexivity.
    + right. rewrite Hk.
      assert (Hd : 1 - inject_Z k * 2 ^ (-53)
                   == inject_Z (2 ^ 53 - k) * 2 ^ (-53)).
      { unfold Zminus. rewrite inject_Z_plus, inject_Z_opp.
        change (inject_Z (2 ^ 53)) with (2 ^ 53).
        change (2 ^ 53 : Q) with (/ 2 ^ (-53)). field. vm_compute. discriminate. }
      rewrite Hd, Qabs_Qmult.
      pose proof (inject_Z_abs_ge1 (2 ^ 53 - k) ltac:(lia)) as Hj.
      rewrite (Qabs_pos (2 ^ (-53))) by (vm_compute; discriminate).
      assert (Hp : 0 < 2 ^ (-53)) by reflexivity.
      assert (0 <= (Qabs (inject_Z (2 ^ 53 - k)) - 1) * 2 ^ (-53))
        by (apply Qmult_le_0_compat; lra).
      lra.
  - destruct (Z.eq_dec k (2 ^ 52)) as [E|E].
    + left. rewrite Hk, E. reflexivity.
    + right. rewrite Hk.
      assert (Hd : 1 - inject_Z k * 2 ^ (-52)
                   == inject_Z (2 ^ 52 - k) * 2 ^ (-52)).
      { unfold Zminus. rewrite inject_Z_plus, inject_Z_opp.
        change (inject_Z (2 ^ 52)) with (2 ^ 52).
        change (2 ^ 52 : Q) with (/ 2 ^ (-52)). field. vm_compute. discriminate. }
      rewrite Hd, Qabs_Qmult.
      pose proof (inject_Z_abs_ge1 (2 ^ 52 - k) ltac:(lia)) as Hj.
      rewrite (Qabs_pos (2 ^ (-52))) by (vm_compute; discriminate).
      assert (Hp : 2 ^ (-53) < 2 ^ (-52)) by reflexivity.
      assert (Hp' : 0 < 2 ^ (-52)) by reflexivity.
      assert (0 <= (Qabs (inject_Z (2 ^ 52 - k)) - 1) * 2 ^ (-52))
        by (apply Qmult_le_0_compat; lra).
      lra.
Qed.

Lemma rnd_abs_le (x B : Q) : rnd B == B -> Qabs x <= B -> Qabs (rnd x) <= B.
Proof.
  intros HB Hx. apply Qabs_Qle_condition in Hx. destruct Hx as [H1 H2].
  apply Qabs_Qle_condition.
  pose proof (rnd_le _ _ H1) as H3. pose proof (rnd_le _ _ H2) as H4.
  rewrite rnd_opp in H3. lra.
Qed.

Lemma finite_below (x B : Q) : Qabs x <= B -> B < 2 ^ 1024 -> finite x = true.
Proof.
  intros Hx HB. unfold finite.
  destruct (Qle_bool (2 ^ 1024) (Qabs x)) eqn:E; [|reflexivity].
  apply Qle_bool_iff in E. lra.
Qed.

End B64Facts.

(* ================================================================== *)
(** ** Facts about the Python operations *)
(* ================================================================== *)

Module PyFacts.
Import Binary64 B64Facts Py.

Lemma bind_Returns {A B : Type} (a : A) (k : A -> outcome B) :
  bind (Returns a) k = k a.
Proof. reflexivity. Qed.

Lemma Qeq_bool_false (x y : Q) : ~ x == y -> Qeq_bool x y = false.
Proof.
  intros H. destruct (Qeq_bool x y) eqn:E; [|reflexivity].
  apply Qeq_bool_iff in E. contradiction.
Qed.

Lemma Qeq_bool_true (x y : Q) : x == y -> Qeq_bool x y = true.
Proof. apply Qeq_bool_iff. Qed.

Lemma Qlt_bool_iff (x y : Q) : Qlt_bool x y = true <-> x < y.
Proof.
  unfold Qlt_bool. destruct (Qle_bool y x) eqn:E; simpl.
  - apply Qle_bool_iff in E. split; [discriminate | lra].
  - split; [intros _|reflexivity].
    apply Qnot_le_lt. intro H. apply Qle_bool_iff in H. congruence.
Qed.

Lemma fin_bounded (x B : Q) :
  Qabs x <= B -> B < 2 ^ 1024 -> fin x = Returns x.
Proof. intros. unfold fin. rewrite (finite_below x B); auto. Qed.

(** A quotient of integers [0 <= a <= n], [0 < n], is a double in [0, 1]. *)
Lemma unit_quotient (a n : Z) :
  (0 <= a <= n)%Z -> (0 < n)%Z -> 0 <= rnd (inject_Z a / inject_Z n) <= 1.
Proof.
  intros Ha Hn.
  set (x := inject_Z a / inject_Z n).
  assert (Hn' : 0 < inject_Z n).
  { change 0 with (inject_Z 0). rewrite <- Zlt_Qlt. assumption. }
  assert (Hx : 0 <= x <= 1).
  { unfold x. split.
    - apply Qle_shift_div_l; [assumption|]. rewrite Qmult_0_l.
      change 0 with (inject_Z 0). rewrite <- Zle_Qle. lia.
    - apply Qle_shift_div_r; [assumption|]. rewrite Qmult_1_l.
      rewrite <- Zle_Qle. lia. }
  split.
  - apply rnd_nonneg. tauto.
  - apply Qle_trans with (rnd 1); [apply rnd_le; tauto|]. vm_compute. discriminate.
Qed.

Lemma int_truediv_unit (a n : Z) :
  (0 <= a <= n)%Z -> (0 < n)%Z ->
  int_truediv a n = Returns (rnd (inject_Z a / inject_Z n)).
Proof.
  intros Ha Hn. unfold int_truediv.
  destruct (Z.eqb_spec n 0) as [E|_]; [lia|].
  pose proof (unit_quotient a n Ha Hn) as Hr.
  rewrite (finite_below _ 1); [reflexivity| |reflexivity].
  apply Qabs_Qle_condition. lra.
Qed.

Lemma unit_product (x y : Q) :
  0 <= x <= 1 -> 0 <= y <= 1 -> 0 <= rnd (x * y) <= 1.
Proof.
  intros Hx Hy.
  assert (H : 0 <= x * y <= 1) by nra.
  split; [apply rnd_nonneg; tauto|].
  apply Qle_trans with (rnd 1); [apply rnd_le; tauto|]. vm_compute. discriminate.
Qed.

Lemma fmul_unit (x y : Q) :
  0 <= x <= 1 -> 0 <= y <= 1 -> fmul x y = Returns (rnd (x * y)).
Proof.
  intros Hx Hy. pose proof (unit_product x y Hx Hy).
  unfold fmul. apply (fin_bounded _ 1); [|reflexivity].
  apply Qabs_Qle_condition. lra.
Qed.

Lemma rnd_upper (x B : Q) : rnd B == B -> x <= B -> rnd x <= B.
Proof. intros HB Hx. rewrite <- HB. apply rnd_le. exact Hx. Qed.

Lemma rnd_lower (x B : Q) : rnd B == B -> B <= x -> B <= rnd x.
Proof. intros HB Hx. rewrite <- HB. apply rnd_le. exact Hx. Qed.

End PyFacts.

(* ================================================================== *)
(** ** Cohen's kappa (prisma_study_methodology.py) *)
(* ================================================================== *)

Module KappaFacts.
Import Binary64 B64Facts Py PyFacts Methodology Kappa.
Local Open Scope py_scope.

Lemma bind_returns {A B : Type} (m : outcome A) (a : A) (k : A -> outcome B) :
  m = Returns a -> bind m k = k a.
Proof. intros ->. reflexivity. Qed.


Section Evaluation.
Variable cm : ConfusionMatrix.
Hypothesis cells : nonneg cm.
Hypothesis observations : (0 < total cm)%Z.

Lemma rate_range (x : Z) : (0 <= x <= total cm)%Z -> 0 <= rate x (total cm) <= 1.
Proof. intros. apply unit_quotient; assumption. Qed.

Lemma int_truediv_rate (x : Z) :
  (0 <= x <= total cm)%Z -> int_truediv x (total cm) = Returns (rate x (total cm)).
Proof. intros. apply int_truediv_unit; assumption. Qed.

Lemma p1_include_range :
  0 <= rate (include_include cm + include_exclude cm) (total cm) <= 1.
Proof. destruct cells as (?&?&?&?). apply rate_range. unfold total. lia. Qed.

Lemma p1_exclude_range :
  0 <= rate (exclude_include cm + exclude_exclude cm) (total cm) <= 1.
Proof. destruct cells as (?&?&?&?). apply rate_range. unfold total. lia. Qed.

Lemma p2_include_range :
  0 <= rate (include_include cm + exclude_include cm) (total cm) <= 1.
Proof. destruct cells as (?&?&?&?). apply rate_range. unfold total. lia. Qed.

Lemma p2_exclude_range :
  0 <= rate (include_exclude cm + exclude_exclude cm) (total cm) <= 1.
Proof. destruct cells as (?&?&?&?). apply rate_range. unfold total. lia. Qed.

Lemma po_double_range : 0 <= po_double cm <= 1.
Proof. destruct cells as (?&?&?&?). apply rate_range. unfold total. lia. Qed.

Lemma pe_double_range : 0 <= pe_double cm <= 2.
Proof.
  pose proof (unit_product _ _ p1_include_range p2_include_range) as H1.
  pose proof (unit_product _ _ p1_exclude_range p2_exclude_range) as H2.
  split.
  - apply rnd_nonneg. lra.
  - apply rnd_upper; [reflexivity | lra].
Qed.

(** When the computed [pe] is not one, the divisor [1 - pe] computed in double
    precision is at least [2^-53] in magnitude. *)
Lemma den_double_away :
  ~ pe_double cm == 1 ->
  2 ^ (-53) <= Qabs (rnd (1 - pe_double cm)) <= 1.
Proof.
  intros Hne. pose proof pe_double_range as Hr.
  assert (Hd : 2 ^ (-53) <= Qabs (1 - pe_double cm)).
  { destruct (rnd_near_one
       (rnd (rate (include_include cm + include_exclude cm) (total cm)
             * rate (include_include cm + exclude_include cm) (total cm))
        + rnd (rate (exclude_include cm + exclude_exclude cm) (total cm)
               * rate (include_exclude cm + exclude_exclude cm) (total cm))))
      as [H|H]; [contradiction | exact H]. }
  split.
  - revert Hd. apply Qabs_case; intros H0 Hd.
    + apply Qle_trans with (rnd (1 - pe_double cm)); [|apply Qle_Qabs].
      apply rnd_lower; [reflexivity | lra].
    + rewrite <- Qabs_opp.
      apply Qle_trans with (- rnd (1 - pe_double cm)); [|apply Qle_Qabs].
      assert (H : rnd (1 - pe_double cm) <= - 2 ^ (-53)).
      { apply rnd_upper; [reflexivity | lra]. }
      lra.
  - apply rnd_abs_le; [reflexivity|]. apply Qabs_Qle_condition. lra.
Qed.

Lemma num_double_range : Qabs (rnd (po_double cm - pe_double cm)) <= 2.
Proof.
  pose proof pe_double_range. pose proof po_double_range.
  apply rnd_abs_le; [reflexivity|]. apply Qabs_Qle_condition. lra.
Qed.

Lemma quotient_double_range :
  ~ pe_double cm == 1 ->
  Qabs (rnd (rnd (po_double cm - pe_double cm) / rnd (1 - pe_double cm)))
  <= 2 ^ 54.
Proof.
  intros Hne. destruct (den_double_away Hne) as [Hd _].
  pose proof num_double_range as Hn.
  apply rnd_abs_le; [reflexivity|].
  set (N := rnd (po_double cm - pe_double cm)) in *.
  set (D := rnd (1 - pe_double cm)) in *.
  unfold Qdiv. rewrite Qabs_Qmult, Qabs_Qinv.
  assert (HD : 0 < Qabs D) by (assert (0 < 2 ^ (-53)) by reflexivity; lra).
  apply Qle_shift_div_r; [exact HD|].
  assert (E : 2 ^ 54 * 2 ^ (-53) == 2) by reflexivity.
  apply Qle_trans with (2 ^ 54 * 2 ^ (-53)); [rewrite E; exact Hn|].
  apply Qmult_le_l; [reflexivity | exact Hd].
Qed.

(** [kappa_value] with its local names substituted. *)
Lemma kappa_value_steps :
  kappa_value cm =
  bind (int_truediv (include_include cm + exclude_exclude cm) (total cm))
  (fun po =>
  bind (int_truediv (include_include cm + include_exclude cm) (total cm))
  (fun p1_include =>
  bind (int_truediv (exclude_include cm + exclude_exclude cm) (total cm))
  (fun p1_exclude =>
  bind (int_truediv (include_include cm + exclude_include cm) (total cm))
  (fun p2_include =>
  bind (int_truediv (include_exclude cm + exclude_exclude cm) (total cm))
  (fun p2_exclude =>
  bind (fmul p1_include p2_include) (fun t1 =>
  bind (fmul p1_exclude p2_exclude) (fun t2 =>
  bind (fadd t1 t2) (fun pe =>
  if Qeq_bool pe 1 then Returns 1
  else bind (fsub po pe) (fun num =>
       bind (fsub 1 pe) (fun den => fdiv num den)))))))))).
Proof. reflexivity. Qed.

Lemma kappa_tail_double :
  (if Qeq_bool (pe_double cm) 1 then Returns 1
   else bind (fsub (po_double cm) (pe_double cm)) (fun num =>
        bind (fsub 1 (pe_double cm)) (fun den => fdiv num den)))
  = Returns (kappa_double cm).
Proof.
  unfold kappa_double.
  destruct (Qeq_bool (pe_double cm) 1) eqn:E; [reflexivity|].
  assert (Hne : ~ pe_double cm == 1).
  { intro Hc'. apply Qeq_bool_iff in Hc'. congruence. }
  pose proof num_double_range as Hnum.
  pose proof (den_double_away Hne) as Hden.
  pose proof (quotient_double_range Hne) as Hq.
  unfold fsub. rewrite (fin_bounded _ 2 Hnum) by reflexivity.
  rewrite bind_Returns. rewrite (fin_bounded _ 1 (proj2 Hden)) by reflexivity.
  rewrite bind_Returns. unfold fdiv.
  rewrite Qeq_bool_false.
  - apply (fin_bounded _ (2 ^ 54) Hq). reflexivity.
  - intro Hc'. rewrite Hc' in Hden. destruct Hden as [Hden _].
    change (Qabs 0) with 0 in Hden. assert (0 < 2 ^ (-53)) by reflexivity. lra.
Qed.

Lemma fadd_pe_double :
  fadd (rnd (rate (include_include cm + include_exclude cm) (total cm)
             * rate (include_include cm + exclude_include cm) (total cm)))
       (rnd (rate (exclude_include cm + exclude_exclude cm) (total cm)
             * rate (include_exclude cm + exclude_exclude cm) (total cm)))
  = Returns (pe_double cm).
Proof.
  pose proof pe_double_range as Hpe.
  assert (Hpb : Qabs (pe_double cm) <= 2) by (apply Qabs_Qle_condition; lra).
  exact (fin_bounded _ 2 Hpb eq_refl).
Qed.

(** The model of the code returns the double-precision formula: no exception
    and no non-finite intermediate value. *)
Lemma kappa_value_double : kappa_value cm = Returns (kappa_double cm).
Proof.
  rewrite kappa_value_steps.
  destruct cells as (Ha & Hb & Hc & Hd).
  rewrite !int_truediv_rate by (unfold total; lia).
  rewrite !bind_Returns.
  rewrite (fmul_unit _ _ p1_include_range p2_include_range).
  rewrite (fmul_unit _ _ p1_exclude_range p2_exclude_range).
  rewrite !bind_Returns.
  rewrite fadd_pe_double, bind_Returns.
  exact kappa_tail_double.
Qed.

End Evaluation.


Lemma calculate_cohens_kappa_double (self : PRISMAStudySelection)
  (cm : ConfusionMatrix) :
  nonneg cm -> (0 < total cm)%Z ->
  calculate_cohens_kappa self (Some cm)
  = Returns (round (kappa_double cm) 3, interpret (kappa_double cm)).
Proof.
  intros Hc Hn. unfold calculate_cohens_kappa.
  rewrite (kappa_value_double cm Hc Hn). reflexivity.
Qed.

(** C9.  For a confusion matrix of nonnegative cells with a positive total,
    [calculate_cohens_kappa] never divides by zero: it returns a value (no
    [ZeroDivisionError], and no other failure); when the computed [pe] is one
    the kappa is [1.0] without any division by [1 - pe], and otherwise the
    divisor [1 - pe] the code computes is not zero. *)
Theorem calculate_cohens_kappa_no_zero_division
  (self : PRISMAStudySelection) (cm : ConfusionMatrix) :
  nonneg cm -> (0 < total cm)%Z ->
  (exists kappa interpretation,
      calculate_cohens_kappa self (Some cm) = Returns (kappa, interpretation))
  /\ calculate_cohens_kappa self (Some cm) <> Raises ZeroDivisionError
  /\ (pe_double cm == 1 -> kappa_value cm = Returns 1)
  /\ (~ pe_double cm == 1 -> ~ rnd (1 - pe_double cm) == 0).
Proof.
  intros Hc Hn.
  rewrite (calculate_cohens_kappa_double self cm Hc Hn).
  split; [eauto|]. split; [discriminate|]. split.
  - intros Hpe. rewrite (kappa_value_double cm Hc Hn). unfold kappa_double.
    rewrite (Qeq_bool_true _ _ Hpe). reflexivity.
  - intros Hpe Hz. destruct (den_double_away cm Hc Hn Hpe) as [Hd _].
    rewrite Hz in Hd. change (Qabs 0) with 0 in Hd.
    assert (0 < 2 ^ (-53)) by reflexivity. lra.
Qed.

Lemma calculate_cohens_kappa_no_zero_division_witness :
  nonneg default_matrix /\ (0 < total default_matrix)%Z /\
  calculate_cohens_kappa init (Some default_matrix) <> Raises ZeroDivisionError.
Proof.
  assert (Hc : nonneg default_matrix) by (unfold nonneg; simpl; lia).
  assert (Hn : (0 < total default_matrix)%Z) by reflexivity.
  split; [exact Hc|]. split; [exact Hn|].
  exact (proj1 (proj2
    (calculate_cohens_kappa_no_zero_division init default_matrix Hc Hn))).
Defined.

(** C1, as stated, fails: on [Example.huge_matrix] the textbook kappa is [0], but the
    code finds [pe == 1] in double precision and returns [1.0] with 'Almost
    perfect agreement'. *)
Lemma calculate_cohens_kappa_not_textbook :
  ~ (forall cm : ConfusionMatrix,
        nonneg cm -> (0 < total cm)%Z ->
        exists interpretation,
          calculate_cohens_kappa init (Some cm)
          = Returns (round (kappa_exact cm) 3, interpretation)).
Proof.
  intros H.
  destruct (H Example.huge_matrix) as [s Hs].
  - unfold nonneg. simpl. lia.
  - reflexivity.
  - vm_compute in Hs. discriminate Hs.
Qed.
End KappaFacts.

(** ** Accuracy of the double-precision kappa *)

Module KappaError.
Import Binary64 B64Facts Py PyFacts Methodology Kappa KappaFacts.

(** The error analysis on abstract reals: [u] bounds each rounding error,
    [delta] bounds the exact [1 - pe] from below. *)
Lemma product_error (x y X Y P u : Q) :
  0 <= x <= 1 -> 0 <= y <= 1 -> 0 <= X <= 1 -> 0 <= Y <= 1 ->
  - u <= X - x <= u -> - u <= Y - y <= u -> - u <= P - X * Y <= u ->
  - (3 * u) <= P - x * y <= 3 * u.
Proof.
  intros Hx Hy HX HY Ex Ey Ep.
  assert (E : X * Y - x * y == X * (Y - y) + y * (X - x)) by ring.
  assert (0 <= X * (u - (Y - y))) by (apply Qmult_le_0_compat; lra).
  assert (0 <= X * ((Y - y) + u)) by (apply Qmult_le_0_compat; lra).
  assert (0 <= y * (u - (X - x))) by (apply Qmult_le_0_compat; lra).
  assert (0 <= y * ((X - x) + u)) by (apply Qmult_le_0_compat; lra).
  assert (0 <= (1 - X) * u) by (apply Qmult_le_0_compat; lra).
  assert (0 <= (1 - y) * u) by (apply Qmult_le_0_compat; lra).
  split; nra.
Qed.

Lemma quotient_error (num den NUM DEN u delta : Q) :
  0 < u -> 18 * u <= delta -> delta <= den ->
  - den <= num <= den ->
  - (11 * u) <= NUM - num <= 11 * u ->
  - (9 * u) <= DEN - den <= 9 * u ->
  0 < DEN /\ Qabs (NUM / DEN - num / den) <= 40 * u / delta.
Proof.
  intros Hu Hud Hd Hn En Ed.
  assert (Hden : 0 < den) by lra.
  assert (HDEN : den <= 2 * DEN) by lra.
  assert (HD0 : 0 < DEN) by lra.
  split; [exact HD0|].
  assert (Hdelta : 0 < delta) by lra.
  assert (E : NUM / DEN - num / den == (NUM * den - num * DEN) / (DEN * den)).
  { field. split; lra. }
  rewrite E. unfold Qdiv at 1. rewrite Qabs_Qmult, Qabs_Qinv.
  assert (Hpos : 0 < DEN * den) by (apply Qmult_lt_0_compat; assumption).
  rewrite (Qabs_pos (DEN * den)) by lra.
  apply Qle_shift_div_r; [exact Hpos|].
  (* |NUM den - num DEN| <= 20 u den, and 40 u / delta * (DEN den) >= 20 u den *)
  apply Qle_trans with (20 * u * den).
  - assert (E2 : NUM * den - num * DEN == (NUM - num) * den - num * (DEN - den)) by ring.
    rewrite E2. apply Qabs_Qle_condition.
    assert (0 <= (11 * u - (NUM - num)) * den) by (apply Qmult_le_0_compat; lra).
    assert (0 <= ((NUM - num) + 11 * u) * den) by (apply Qmult_le_0_compat; lra).
    assert (0 <= (den - num) * (9 * u - (DEN - den))) by (apply Qmult_le_0_compat; lra).
    assert (0 <= (den - num) * ((DEN - den) + 9 * u)) by (apply Qmult_le_0_compat; lra).
    assert (0 <= (den + num) * (9 * u - (DEN - den))) by (apply Qmult_le_0_compat; lra).
    assert (0 <= (den + num) * ((DEN - den) + 9 * u)) by (apply Qmult_le_0_compat; lra).
    split; nra.
  - assert (Ex : 40 * u / delta * (DEN * den) == (20 * u * den) * (2 * DEN / delta)).
    { field. lra. }
    rewrite Ex.
    assert (H1 : 1 <= 2 * DEN / delta).
    { apply Qle_shift_div_l; [exact Hdelta|]. lra. }
    assert (0 <= 20 * u * den) by (apply Qmult_le_0_compat; lra).
    assert (0 <= (20 * u * den) * (2 * DEN / delta - 1)) by (apply Qmult_le_0_compat; lra).
    lra.
Qed.


Lemma kappa_error_abstract
  (x1 x2 y1 y2 o X1 X2 Y1 Y2 O P1 P2 PE NUM DEN u delta : Q) :
  0 < u -> 18 * u <= delta ->
  0 <= x1 <= 1 -> 0 <= x2 <= 1 -> 0 <= y1 <= 1 -> 0 <= y2 <= 1 -> 0 <= o <= 1 ->
  0 <= X1 <= 1 -> 0 <= X2 <= 1 -> 0 <= Y1 <= 1 -> 0 <= Y2 <= 1 ->
  - u <= X1 - x1 <= u -> - u <= X2 - x2 <= u ->
  - u <= Y1 - y1 <= u -> - u <= Y2 - y2 <= u ->
  - u <= O - o <= u ->
  - u <= P1 - X1 * Y1 <= u -> - u <= P2 - X2 * Y2 <= u ->
  - (2 * u) <= PE - (P1 + P2) <= 2 * u ->
  - (2 * u) <= NUM - (O - PE) <= 2 * u ->
  - u <= DEN - (1 - PE) <= u ->
  delta <= 1 - (x1 * y1 + x2 * y2) ->
  - (1 - (x1 * y1 + x2 * y2)) <= o - (x1 * y1 + x2 * y2) ->
  PE < 1 /\ 0 < DEN /\
  Qabs (NUM / DEN - (o - (x1 * y1 + x2 * y2)) / (1 - (x1 * y1 + x2 * y2)))
  <= 40 * u / delta.
Proof.
  intros Hu Hud Hx1 Hx2 Hy1 Hy2 Ho HX1 HX2 HY1 HY2 E1 E2 E3 E4 EO EP1 EP2 EPE
    ENUM EDEN Hden Hnum.
  pose proof (product_error x1 y1 X1 Y1 P1 u Hx1 Hy1 HX1 HY1 E1 E3 EP1) as A1.
  pose proof (product_error x2 y2 X2 Y2 P2 u Hx2 Hy2 HX2 HY2 E2 E4 EP2) as A2.
  assert (HPE : - (8 * u) <= PE - (x1 * y1 + x2 * y2) <= 8 * u) by lra.
  set (pe := x1 * y1 + x2 * y2) in *. clearbody pe.
  split; [lra|].
  apply (quotient_error (o - pe) (1 - pe) NUM DEN u delta); try assumption; lra.
Qed.


Set Warnings "-notation-for-abbreviation".
Notation u54 := (1 # 18014398509481984) (only parsing).

Lemma err1 (x : Q) : -1 <= x <= 1 -> - u54 <= rnd x - x <= u54.
Proof.
  intros Hx.
  assert (Ha : Qabs x <= 1) by (apply Qabs_Qle_condition; lra).
  pose proof (rnd_error_le1 x Ha) as H. apply Qabs_Qle_condition in H.
  assert (E : 2 ^ (-54) == u54) by reflexivity.
  rewrite E in H. lra.
Qed.

Lemma err2 (x : Q) : -2 <= x <= 2 -> - (2 * u54) <= rnd x - x <= 2 * u54.
Proof.
  intros Hx.
  assert (Ha : Qabs x <= 2) by (apply Qabs_Qle_condition; lra).
  pose proof (rnd_error_le2 x Ha) as H. apply Qabs_Qle_condition in H.
  assert (E : 2 ^ (-53) == 2 * u54) by reflexivity.
  rewrite E in H. lra.
Qed.

Lemma quot_mono (a b n : Z) :
  (0 < n)%Z -> (a <= b)%Z -> inject_Z a / inject_Z n <= inject_Z b / inject_Z n.
Proof.
  intros Hn Hab. unfold Qdiv. apply Qmult_le_compat_r.
  - rewrite <- Zle_Qle. exact Hab.
  - apply Qinv_le_0_compat. change 0 with (inject_Z 0). rewrite <- Zle_Qle. lia.
Qed.

Lemma quot_self (n : Z) : (0 < n)%Z -> inject_Z n / inject_Z n == 1.
Proof.
  intros Hn. field. intro H.
  assert (Hq : inject_Z 0 < inject_Z n) by (rewrite <- Zlt_Qlt; exact Hn).
  change (inject_Z 0) with 0 in Hq. lra.
Qed.

Lemma quot_zero (n : Z) : inject_Z 0 / inject_Z n == 0.
Proof. unfold Qdiv. change (inject_Z 0) with 0. ring. Qed.

Lemma quot_unit (z n : Z) :
  (0 < n)%Z -> (0 <= z <= n)%Z -> 0 <= inject_Z z / inject_Z n <= 1.
Proof.
  intros Hn [H0 H1]. split.
  - rewrite <- (quot_zero n). apply quot_mono; assumption.
  - rewrite <- (quot_self n Hn). apply quot_mono; assumption.
Qed.

(** The exact [1 - pe] is zero or at least [1 / n]. *)
Lemma den_gap (r p n : Z) :
  (0 < n)%Z -> (0 <= r <= n)%Z -> (0 <= p <= n)%Z ->
  (r = 0%Z /\ p = 0%Z) \/ (r = n /\ p = n) \/
  inject_Z 1 / inject_Z n
  <= (inject_Z r / inject_Z n) * (1 - inject_Z p / inject_Z n)
     + (1 - inject_Z r / inject_Z n) * (inject_Z p / inject_Z n).
Proof.
  intros Hn Hr Hp.
  pose proof (quot_unit r n Hn Hr) as Hx.
  pose proof (quot_unit p n Hn Hp) as Hy.
  pose proof (quot_self n Hn) as E1.
  pose proof (quot_zero n) as E0.
  destruct (Z.eq_dec r 0) as [R0|R0].
  { destruct (Z.eq_dec p 0) as [P0|P0]; [left; split; assumption|].
    right; right. subst r.
    pose proof (quot_mono 1 p n Hn ltac:(lia)) as H.
    set (y := inject_Z p / inject_Z n) in *. clearbody y.
    set (d := inject_Z 1 / inject_Z n) in *. clearbody d.
    set (z := inject_Z 0 / inject_Z n) in *. clearbody z.
    rewrite E0. lra. }
  destruct (Z.eq_dec r n) as [Rn|Rn].
  { destruct (Z.eq_dec p n) as [Pn|Pn]; [right; left; split; assumption|].
    right; right. subst r.
    pose proof (quot_mono (p + 1) n n Hn ltac:(lia)) as H.
    rewrite inject_Z_plus in H.
    assert (E : (inject_Z p + inject_Z 1) / inject_Z n
                == inject_Z p / inject_Z n + inject_Z 1 / inject_Z n)
      by (unfold Qdiv; ring).
    rewrite E in H.
    set (y := inject_Z p / inject_Z n) in *. clearbody y.
    set (d := inject_Z 1 / inject_Z n) in *. clearbody d.
    set (z := inject_Z n / inject_Z n) in *. clearbody z.
    rewrite E1 in *. lra. }
  right; right.
  pose proof (quot_mono 1 r n Hn ltac:(lia)) as H1.
  pose proof (quot_mono (r + 1) n n Hn ltac:(lia)) as H2.
  rewrite inject_Z_plus in H2.
  assert (E : (inject_Z r + inject_Z 1) / inject_Z n
              == inject_Z r / inject_Z n + inject_Z 1 / inject_Z n)
    by (unfold Qdiv; ring).
  rewrite E in H2.
  set (x := inject_Z r / inject_Z n) in *. clearbody x.
  set (y := inject_Z p / inject_Z n) in *. clearbody y.
  set (d := inject_Z 1 / inject_Z n) in *. clearbody d.
  set (z := inject_Z n / inject_Z n) in *. clearbody z.
  rewrite E1 in H2.
  assert (A1 : 0 <= (x - d) * (1 - y)) by (apply Qmult_le_0_compat; lra).
  assert (A2 : 0 <= (1 - x - d) * y) by (apply Qmult_le_0_compat; lra).
  lra.
Qed.

Lemma unit_ratio (num den : Q) :
  0 < den -> - den <= num <= den -> -1 <= num / den <= 1.
Proof.
  intros Hd [H1 H2]. split.
  - apply Qle_shift_div_l; [exact Hd | lra].
  - apply Qle_shift_div_r; [exact Hd | lra].
Qed.

(** [po - pe >= - (1 - pe)] for the exact rates of a nonnegative table. *)
Lemma numerator_sign (A B C D : Q) :
  0 <= A -> 0 <= B -> 0 <= C -> 0 <= D -> 0 < A + B + C + D ->
  - (1 - ((A + B) / (A + B + C + D) * ((A + C) / (A + B + C + D))
          + (C + D) / (A + B + C + D) * ((B + D) / (A + B + C + D))))
  <= (A + D) / (A + B + C + D)
     - ((A + B) / (A + B + C + D) * ((A + C) / (A + B + C + D))
        + (C + D) / (A + B + C + D) * ((B + D) / (A + B + C + D))).
Proof.
  intros HA HB HC HD HN.
  set (N := A + B + C + D) in *.
  assert (HN0 : ~ N == 0) by lra.
  assert (E : (A + D) / N
     - ((A + B) / N * ((A + C) / N) + (C + D) / N * ((B + D) / N))
     + (1 - ((A + B) / N * ((A + C) / N) + (C + D) / N * ((B + D) / N)))
     == (4 * (A * D) + A * B + B * D + A * C + C * D + (B - C) * (B - C))
        * (/ N * / N)).
  { unfold N. field. exact HN0. }
  assert (H : 0 <= (4 * (A * D) + A * B + B * D + A * C + C * D
                    + (B - C) * (B - C)) * (/ N * / N)).
  { assert (Hi : 0 <= / N) by (apply Qinv_le_0_compat; lra).
    apply Qmult_le_0_compat; [|apply Qmult_le_0_compat; exact Hi].
    pose proof (Qmult_le_0_compat _ _ HA HD).
    pose proof (Qmult_le_0_compat _ _ HA HB).
    pose proof (Qmult_le_0_compat _ _ HB HD).
    pose proof (Qmult_le_0_compat _ _ HA HC).
    pose proof (Qmult_le_0_compat _ _ HC HD).
    assert (0 <= (B - C) * (B - C)).
    { destruct (Qlt_le_dec B C).
      - setoid_replace ((B - C) * (B - C)) with ((C - B) * (C - B)) by ring.
        apply Qmult_le_0_compat; lra.
      - apply Qmult_le_0_compat; lra. }
    lra. }
  rewrite <- E in H. lra.
Qed.


Lemma prod_unit (x y : Q) : 0 <= x <= 1 -> 0 <= y <= 1 -> -1 <= x * y <= 1.
Proof. intros Hx Hy. nra. Qed.

Lemma degenerate_double :
  rnd (rnd (rnd 0 * rnd 0) + rnd (rnd 1 * rnd 1)) = 1
  /\ rnd (rnd (rnd 1 * rnd 1) + rnd (rnd 0 * rnd 0)) = 1.
Proof. split; vm_compute; reflexivity. Qed.

End KappaError.

(* ================================================================== *)
(** ** The study-selection simulation (prisma_study_selection.py) *)
(* ================================================================== *)

Module SelectionFacts.
Import Binary64 B64Facts Py PyFacts Rng Selection.
Local Open Scope sel_scope.

(** *** The monad *)

Lemma bindM_inv {A B : Type} (m : M A) (k : A -> M B) (w w' : World) (b : B) :
  bindM m k w = Returns (b, w') ->
  exists a w1, m w = Returns (a, w1) /\ k a w1 = Returns (b, w').
Proof.
  unfold bindM. destruct (m w) as [[a w1]| |]; try discriminate.
  intros H. exists a, w1. auto.
Qed.

Lemma bindM_returns {A B : Type} (m : M A) (k : A -> M B) (w w1 : World) (a : A) :
  m w = Returns (a, w1) -> bindM m k w = k a w1.
Proof. unfold bindM. intros ->. reflexivity. Qed.

Lemma ret_inv {A : Type} (a b : A) (w w' : World) :
  ret a w = Returns (b, w') -> b = a /\ w' = w.
Proof. unfold ret. intros H. inversion H. auto. Qed.

(** *** Lists of rows *)

Lemma remove_nth_length {A : Type} (i : nat) (l : list A) :
  (i < List.length l)%nat -> S (List.length (remove_nth i l)) = List.length l.
Proof.
  revert i. induction l as [|x l IH]; intros i Hi; [simpl in Hi; lia|].
  destruct i; [reflexivity|]. simpl in *. rewrite IH by lia. reflexivity.
Qed.

Lemma remove_nth_incl {A : Type} (i : nat) (l : list A) (x : A) :
  In x (remove_nth i l) -> In x l.
Proof.
  revert i. induction l as [|y l IH]; intros i Hx.
  - destruct i; simpl in Hx; contradiction.
  - destruct i; simpl in *; [auto|]. destruct Hx; [auto|eauto].
Qed.

Lemma remove_nth_labels {A : Type} (i : nat) (l : list (Z * A)) (d : Z * A) :
  NoDup (map fst l) -> (i < List.length l)%nat ->
  NoDup (map fst (remove_nth i l)) /\
  ~ In (fst (nth i l d)) (map fst (remove_nth i l)).
Proof.
  revert i. induction l as [|y l IH]; intros i Hnd Hi; [simpl in Hi; lia|].
  simpl in Hnd, Hi. inversion Hnd as [|? ? Hy Hl]; subst.
  destruct i; simpl.
  - auto.
  - destruct (IH i Hl ltac:(lia)) as [H1 H2]. split.
    + constructor; [|assumption]. intro Hin. apply Hy.
      apply in_map_iff in Hin. destruct Hin as (r & Er & Hr).
      apply in_map_iff. exists r. split; [assumption|].
      eapply remove_nth_incl; eassumption.
    + intros [E|Hin]; [|contradiction].
      apply Hy. rewrite E. apply in_map. apply nth_In. lia.
Qed.

Lemma mem_label_iff (l : Z) (labels : list Z) :
  mem_label l labels = true <-> In l labels.
Proof.
  unfold mem_label. rewrite existsb_exists. split.
  - intros (x & Hx & E). apply Z.eqb_eq in E. subst. assumption.
  - intros H. exists l. split; [assumption | apply Z.eqb_refl].
Qed.

(** Dropping [k] distinct labels of a frame with distinct labels removes
    exactly [k] rows. *)
Lemma filter_drop_length (df : DataFrame) (labels : list Z) :
  NoDup (index df) -> NoDup labels -> incl labels (index df) ->
  (List.length (filter (fun r => negb (mem_label (fst r) labels)) df)
   + List.length labels = List.length df)%nat.
Proof.
  unfold index. revert labels.
  induction df as [|r df IH]; intros labels Hdf Hl Hincl; simpl.
  - destruct labels as [|l ?]; [reflexivity|]. destruct (Hincl l (or_introl eq_refl)).
  - inversion Hdf as [|? ? Hr Hdf']; subst.
    destruct (mem_label (fst r) labels) eqn:E; simpl.
    + apply mem_label_iff in E.
      destruct (in_split _ _ E) as (l1 & l2 & ->).
      assert (Hl' : NoDup (l1 ++ l2)) by (eapply NoDup_remove_1; eassumption).
      assert (Hnot : ~ In (fst r) (l1 ++ l2)) by (eapply NoDup_remove_2; eassumption).
      assert (Hincl' : incl (l1 ++ l2) (map fst df)).
      { intros x Hx.
        assert (Hx' : In x (l1 ++ fst r :: l2)).
        { apply in_app_iff in Hx. apply in_app_iff. simpl. tauto. }
        destruct (Hincl x Hx') as [Ex|]; [|assumption].
        subst x. contradiction. }
      specialize (IH (l1 ++ l2) Hdf' Hl' Hincl').
      assert (Ef : filter (fun r0 => negb (mem_label (fst r0) (l1 ++ fst r :: l2))) df
                   = filter (fun r0 => negb (mem_label (fst r0) (l1 ++ l2))) df).
      { apply filter_ext_in. intros a Ha.
        f_equal. unfold mem_label. rewrite !existsb_app. simpl.
        destruct (Z.eqb_spec (fst a) (fst r)) as [Ea|]; [|reflexivity].
        exfalso. apply Hr. rewrite <- Ea. apply in_map. assumption. }
      rewrite Ef. rewrite length_app in *. simpl. lia.
    + assert (Hnot : ~ In (fst r) labels).
      { intro Hin. apply mem_label_iff in Hin. congruence. }
      assert (Hincl' : incl labels (map fst df)).
      { intros x Hx. destruct (Hincl x Hx) as [Ex|]; [|assumption].
        subst x. contradiction. }
      rewrite <- (IH labels Hdf' Hl Hincl'). reflexivity.
Qed.


Lemma labels_injective (df : DataFrame) (a b : Z * Study) :
  NoDup (index df) -> In a df -> In b df -> fst a = fst b -> a = b.
Proof.
  unfold index. induction df as [|r df IH]; intros Hnd Ha Hb E; [contradiction|].
  simpl in Hnd. inversion Hnd as [|? ? Hr Hdf]; subst.
  destruct Ha as [Ha|Ha], Hb as [Hb|Hb]; subst; auto.
  - exfalso. apply Hr. rewrite E. apply in_map. assumption.
  - exfalso. apply Hr. rewrite <- E. apply in_map. assumption.
Qed.

(** *** Code that leaves the [random] generator alone *)

Lemma preserves_py_ret {A : Type} (a : A) : preserves_py (ret a).
Proof. intros w b w' H. apply ret_inv in H. destruct H as [_ ->]. reflexivity. Qed.

Lemma preserves_py_raise {A : Type} (e : exn) : preserves_py (@raise A e).
Proof. intros w b w' H. discriminate H. Qed.

Lemma preserves_py_bind {A B : Type} (m : M A) (k : A -> M B) :
  preserves_py m -> (forall a, preserves_py (k a)) -> preserves_py (bindM m k).
Proof.
  intros Hm Hk w b w' H. apply bindM_inv in H. destruct H as (a & w1 & H1 & H2).
  rewrite (Hk _ _ _ _ H2). eapply Hm. eassumption.
Qed.

Lemma preserves_py_np_draw : preserves_py np_draw.
Proof. intros w z w' H. unfold np_draw in H. inversion H. reflexivity. Qed.

Lemma preserves_py_sample_rows (n : nat) (rows : DataFrame) :
  preserves_py (sample_rows n rows).
Proof.
  revert rows. induction n as [|n IH]; intros rows; simpl.
  - apply preserves_py_ret.
  - destruct rows as [|r0 rows']; [apply preserves_py_ret|].
    apply preserves_py_bind; [apply preserves_py_np_draw|]. intros z.
    apply preserves_py_bind; [apply IH|]. intros rest. apply preserves_py_ret.
Qed.

Lemma preserves_py_sample (df : DataFrame) (n : Z) : preserves_py (sample df n).
Proof.
  unfold sample. destruct (_ || _).
  - apply preserves_py_raise.
  - apply preserves_py_sample_rows.
Qed.

Lemma preserves_py_drop (df : DataFrame) (labels : list Z) :
  preserves_py (drop df labels).
Proof.
  unfold drop. destruct (forallb _ _).
  - apply preserves_py_ret.
  - apply preserves_py_raise.
Qed.

Lemma preserves_py_title_abstract_loop (reasons : Dict) :
  forall excluded counts remaining_studies,
    preserves_py (title_abstract_loop reasons excluded counts remaining_studies).
Proof.
  induction reasons as [|[reason count] reasons IH]; intros; simpl.
  - apply preserves_py_ret.
  - destruct (count <=? len remaining_studies)%Z; [|apply IH].
    apply preserves_py_bind; [apply preserves_py_sample|]. intros sampled.
    apply preserves_py_bind; [apply preserves_py_drop|]. intros rem'. apply IH.
Qed.

Lemma preserves_py_title_abstract_screening (self : PRISMAStudySelection) :
  preserves_py (title_abstract_screening self).
Proof.
  unfold title_abstract_screening.
  apply preserves_py_bind; [apply preserves_py_title_abstract_loop|].
  intros [[excluded counts] rem].
  apply preserves_py_bind; [apply preserves_py_drop|]. intros after.
  apply preserves_py_ret.
Qed.

Lemma preserves_py_apply_exclusion_criteria (df : DataFrame) :
  preserves_py (apply_exclusion_criteria df).
Proof.
  unfold apply_exclusion_criteria. destruct (exclusion_loop df [] []) as [ex rs].
  apply preserves_py_bind; [apply preserves_py_drop|]. intros inc.
  apply preserves_py_ret.
Qed.

Lemma preserves_py_full_text_screening (self : PRISMAStudySelection)
  (df : DataFrame) : preserves_py (full_text_screening self df).
Proof.
  unfold full_text_screening.
  apply preserves_py_bind; [apply preserves_py_apply_exclusion_criteria|].
  intros [inc rs]. destruct (_ <? _)%Z; [|apply preserves_py_ret].
  apply preserves_py_bind; [apply preserves_py_sample|]. intros sampled.
  apply preserves_py_bind; [apply preserves_py_drop|]. intros inc'.
  apply preserves_py_ret.
Qed.


(** *** The simulated kappa *)

Lemma unit_float_range (z : Z) : 0 <= unit_float z < 1.
Proof.
  unfold unit_float.
  pose proof (Z.mod_pos_bound z (2 ^ 53) ltac:(lia)) as [H1 H2].
  assert (Hp : 0 < inject_Z (2 ^ 53)) by reflexivity.
  split.
  - apply Qle_shift_div_l; [exact Hp|]. rewrite Qmult_0_l.
    change 0 with (inject_Z 0). rewrite <- Zle_Qle. exact H1.
  - apply Qlt_shift_div_r; [exact Hp|]. rewrite Qmult_1_l.
    rewrite <- Zlt_Qlt. exact H2.
Qed.

Lemma lit_075 : lit (75 # 100) = f075.
Proof. vm_compute. reflexivity. Qed.

Lemma lit_095 : lit (95 # 100) = f095.
Proof. vm_compute. reflexivity. Qed.

Lemma f095_below : 75 # 100 <= f075 /\ f095 <= 95 # 100.
Proof. split; vm_compute; discriminate. Qed.

(** [random.uniform(0.75, 0.95)] stays between the two doubles. *)
Lemma uniform_of_range (z : Z) :
  exists k, uniform_of f075 f095 z = Returns k /\ f075 <= k <= f095.
Proof.
  pose proof (unit_float_range z) as Hr.
  unfold uniform_of.
  assert (Ew : fsub f095 f075 = Returns width) by (vm_compute; reflexivity).
  rewrite Ew, bind_Returns.
  assert (Hw : rnd width == width) by (vm_compute; reflexivity).
  assert (Hw0 : 0 < width) by reflexivity.
  assert (Ht : 0 <= rnd (width * unit_float z) <= width).
  { split.
    - apply rnd_nonneg. apply Qmult_le_0_compat; lra.
    - apply rnd_upper; [exact Hw|].
      assert (0 <= width * (1 - unit_float z)) by (apply Qmult_le_0_compat; lra).
      lra. }
  assert (Hw1 : width <= 1) by (vm_compute; discriminate).
  unfold fmul. rewrite (fin_bounded _ 1) by
    (try reflexivity; apply Qabs_Qle_condition; lra).
  rewrite bind_Returns.
  set (t := rnd (width * unit_float z)) in *.
  assert (Hs : f075 + width == f095) by (vm_compute; reflexivity).
  assert (Hk : f075 <= rnd (f075 + t) <= f095).
  { split.
    - apply rnd_lower; [vm_compute; reflexivity | lra].
    - apply rnd_upper; [vm_compute; reflexivity | lra]. }
  exists (rnd (f075 + t)). split; [|exact Hk].
  unfold fadd. apply (fin_bounded _ 1); [|reflexivity].
  assert (0 <= f075) by (vm_compute; discriminate).
  assert (f095 <= 1) by (vm_compute; discriminate).
  apply Qabs_Qle_condition. lra.
Qed.

(** Rounding such a value to three decimals gives the double nearest to
    [m / 1000] for some [750 <= m <= 950]. *)
Lemma round3_range (k : Q) :
  f075 <= k <= f095 ->
  exists m : Z, (750 <= m <= 950)%Z /\
    round k 3 = rnd (inject_Z m / 1000) /\ f075 <= round k 3 <= f095.
Proof.
  intros [H1 H2]. unfold round.
  change (inject_Z (10 ^ Z.of_nat 3)) with 1000.
  set (m := ZnearestE (k * 1000)).
  assert (Hm : (750 <= m <= 950)%Z).
  { split.
    - assert (E : ZnearestE (f075 * 1000) = 750%Z) by (vm_compute; reflexivity).
      rewrite <- E. apply ZnearestE_le. lra.
    - assert (E : ZnearestE (f095 * 1000) = 950%Z) by (vm_compute; reflexivity).
      rewrite <- E. apply ZnearestE_le. lra. }
  exists m. split; [exact Hm|]. split; [reflexivity|].
  destruct Hm as [Hm1 Hm2]. rewrite Zle_Qle in Hm1, Hm2.
  change (inject_Z 750) with 750 in Hm1.
  change (inject_Z 950) with 950 in Hm2.
  clearbody m.
  split.
  - apply rnd_lower; [vm_compute; reflexivity|].
    apply Qle_shift_div_l; [reflexivity|].
    unfold f075. lra.
  - apply Qle_trans with (rnd (950 / 1000)); [apply rnd_le|vm_compute; discriminate].
    unfold Qdiv. apply Qmult_le_compat_r; [exact Hm2 | vm_compute; discriminate].
Qed.

Lemma calculate_inter_rater_agreement_eq (w : World) :
  calculate_inter_rater_agreement w
  = bind (kappa_of_draw (fst (next (py_random w))))
      (fun k => Returns (k, {| py_random := snd (next (py_random w));
                               np_random := np_random w |})).
Proof.
  unfold calculate_inter_rater_agreement, uniform, kappa_of_draw.
  rewrite lit_075, lit_095.
  unfold bindM, py_draw, lift, ret, next. cbv beta iota zeta. cbn [fst snd].
  destruct (uniform_of f075 f095 _); reflexivity.
Qed.

End SelectionFacts.

Module FlowFacts.
Import Binary64 B64Facts Py PyFacts Rng Selection SelectionFacts.
Local Open Scope sel_scope.

(** A computation that evaluates to a value has one. *)
Lemma returns_elim {A : Type} (o : outcome A) :
  match o with Returns _ => True | _ => False end -> exists a, o = Returns a.
Proof. destruct o; [eauto | contradiction..]. Qed.

(** *** Sampling and dropping *)

Lemma sample_rows_spec (n : nat) :
  forall (rows : DataFrame) (w : World),
    (n <= List.length rows)%nat ->
    exists s w', sample_rows n rows w = Returns (s, w') /\
      List.length s = n /\ incl s rows /\
      (NoDup (index rows) -> NoDup (index s)).
Proof.
  induction n as [|n IH]; intros rows w Hn.
  - exists [], w. simpl. repeat split; auto.
    + intros x [].
    + intros _. constructor.
  - destruct rows as [|r0 rows']; [simpl in Hn; lia|].
    set (rows := r0 :: rows') in *.
    set (z := fst (next (np_random w))).
    set (w1 := {| py_random := py_random w; np_random := snd (next (np_random w)) |}).
    set (i := Z.to_nat (z mod Z.of_nat (List.length rows))).
    assert (Hi : (i < List.length rows)%nat).
    { unfold i.
      pose proof (Z.mod_pos_bound z (Z.of_nat (List.length rows))
                    ltac:(unfold rows; simpl; lia)). lia. }
    pose proof (remove_nth_length i rows Hi) as Hlen.
    destruct (IH (remove_nth i rows) w1 ltac:(lia)) as (rest & w' & E & Hl & Hincl & Hnd).
    exists (nth i rows r0 :: rest), w'.
    split.
    { change (sample_rows (S n) rows w)
        with (bindM np_draw (fun z0 =>
                let i0 := Z.to_nat (z0 mod Z.of_nat (List.length rows)) in
                bindM (sample_rows n (remove_nth i0 rows))
                  (fun rest0 => ret (nth i0 rows r0 :: rest0))) w).
      rewrite (bindM_returns _ _ w w1 z) by reflexivity.
      cbv zeta. fold i. rewrite (bindM_returns _ _ _ _ _ E). reflexivity. }
    split; [simpl; lia|]. split.
    + intros x [Hx|Hx].
      * subst x. apply nth_In. exact Hi.
      * eapply remove_nth_incl. apply Hincl. exact Hx.
    + intros Hrows. unfold index in *. simpl.
      destruct (remove_nth_labels i rows r0 Hrows Hi) as [H1 H2].
      constructor; [|apply Hnd; exact H1].
      intro Hin. apply H2. apply in_map_iff in Hin.
      destruct Hin as (r & Er & Hr). apply in_map_iff.
      exists r. split; [exact Er | apply Hincl; exact Hr].
Qed.

Lemma sample_spec (df : DataFrame) (n : Z) (w : World) :
  (0 <= n <= len df)%Z ->
  exists s w', sample df n w = Returns (s, w') /\
    len s = n /\ incl s df /\ (NoDup (index df) -> NoDup (index s)).
Proof.
  intros Hn. unfold sample, len in *.
  destruct (Z.ltb_spec n 0); [lia|].
  destruct (Z.ltb_spec (Z.of_nat (List.length df)) n); [lia|]. simpl orb. cbv iota.
  destruct (sample_rows_spec (Z.to_nat n) df w ltac:(lia)) as (s & w' & E & Hl & Hs).
  exists s, w'. split; [exact E|]. split; [lia | exact Hs].
Qed.

Lemma incl_index (s df : DataFrame) : incl s df -> incl (index s) (index df).
Proof.
  intros H l Hl. unfold index in *. apply in_map_iff in Hl.
  destruct Hl as (r & <- & Hr). apply in_map. apply H. exact Hr.
Qed.

Lemma drop_spec (df : DataFrame) (labels : list Z) (w : World) :
  incl labels (index df) ->
  drop df labels w
  = Returns (filter (fun r => negb (mem_label (fst r) labels)) df, w).
Proof.
  intros H. unfold drop.
  assert (E : forallb (fun l => mem_label l (index df)) labels = true).
  { apply forallb_forall. intros l Hl. apply mem_label_iff. apply H. exact Hl. }
  rewrite E. reflexivity.
Qed.

Lemma drop_length (df : DataFrame) (labels : list Z) :
  NoDup (index df) -> NoDup labels -> incl labels (index df) ->
  (len (filter (fun r => negb (mem_label (fst r) labels)) df)
   = len df - Z.of_nat (List.length labels))%Z.
Proof.
  intros H1 H2 H3. pose proof (filter_drop_length df labels H1 H2 H3).
  unfold len. lia.
Qed.

Lemma filter_index_NoDup (f : Z * Study -> bool) (df : DataFrame) :
  NoDup (index df) -> NoDup (index (filter f df)).
Proof.
  unfold index. induction df as [|r df IH]; intros H; simpl; [constructor|].
  simpl in H. inversion H as [|? ? Hr Hdf]; subst.
  destruct (f r); simpl; [|auto].
  constructor; [|auto]. intro Hin. apply Hr.
  apply in_map_iff in Hin. destruct Hin as (x & Ex & Hx).
  apply filter_In in Hx. rewrite <- Ex. apply in_map. tauto.
Qed.

(** *** The exclusion criteria *)

Lemma exclusion_loop_labels (rows : DataFrame) :
  forall acc reasons,
    fst (exclusion_loop rows acc reasons)
    = acc ++ index (filter excluded_row rows).
Proof.
  unfold excluded_row, index.
  induction rows as [|[idx study] rows IH]; intros acc reasons; simpl.
  - rewrite app_nil_r. reflexivity.
  - destruct (exclude_reason study); simpl.
    + rewrite IH, <- app_assoc. reflexivity.
    + apply IH.
Qed.

Lemma apply_exclusion_criteria_spec (df : DataFrame) (w : World) :
  NoDup (index df) ->
  exists reasons,
    apply_exclusion_criteria df w = Returns ((survivors df, reasons), w).
Proof.
  intros Hnd. unfold apply_exclusion_criteria.
  pose proof (exclusion_loop_labels df [] []) as El.
  destruct (exclusion_loop df [] []) as [ex reasons]. simpl in El. subst ex.
  exists reasons.
  rewrite (bindM_returns _ _ w w
             (filter (fun r => negb (mem_label (fst r) (index (filter excluded_row df)))) df)).
  2:{ apply drop_spec. apply incl_index. intros x Hx.
      apply filter_In in Hx. tauto. }
  unfold ret. do 3 f_equal. unfold survivors.
  apply filter_ext_in. intros a Ha.
  destruct (mem_label (fst a) (index (filter excluded_row df))) eqn:E.
  - apply mem_label_iff in E. unfold index in E. apply in_map_iff in E.
    destruct E as (b & Eb & Hb). apply filter_In in Hb. destruct Hb as [Hb1 Hb2].
    assert (b = a) by (eapply labels_injective; eauto). subst b.
    unfold excluded_row in Hb2. simpl. destruct (exclude_reason (snd a)); congruence.
  - simpl. destruct (exclude_reason (snd a)) eqn:Er; [|reflexivity].
    exfalso. assert (Hin : In (fst a) (index (filter excluded_row df))).
    { unfold index. apply in_map. apply filter_In. split; [exact Ha|].
      unfold excluded_row. rewrite Er. reflexivity. }
    apply mem_label_iff in Hin. congruence.
Qed.


Lemma length_index (df : DataFrame) : List.length (index df) = List.length df.
Proof. unfold index. apply length_map. Qed.

(** C4.  What [full_text_screening] returns on a frame with distinct labels,
    for a nonnegative target: the studies that survive the exclusion criteria,
    cut down at random to [final_included] when more than that many survive.
    It never adds a study: the number returned is the smaller of the number
    of survivors and the target, so with fewer survivors than the target the
    final synthesis falls short of [final_included]. *)
Theorem full_text_screening_count (self : PRISMAStudySelection)
  (df : DataFrame) (w : World) :
  NoDup (index df) -> (0 <= final_included self)%Z ->
  exists inc reasons w',
    full_text_screening self df w = Returns ((inc, reasons), w') /\
    len inc = Z.min (len (survivors df)) (final_included self) /\
    incl inc (survivors df).
Proof.
  intros Hnd Htarget. unfold full_text_screening.
  destruct (apply_exclusion_criteria_spec df w Hnd) as (reasons & E).
  rewrite (bindM_returns _ _ _ _ _ E). cbv beta iota zeta.
  assert (Hs : NoDup (index (survivors df))) by (apply filter_index_NoDup; exact Hnd).
  destruct (Z.ltb_spec (final_included self) (len (survivors df))) as [Hlt|Hge].
  - destruct (sample_spec (survivors df)
                (len (survivors df) - final_included self) w ltac:(lia))
      as (s & w' & Es & Hl & Hincl & Hnds).
    rewrite (bindM_returns _ _ _ _ _ Es).
    rewrite (bindM_returns _ _ _ _ _
               (drop_spec (survivors df) (index s) w' (incl_index _ _ Hincl))).
    eexists _, _, _. split; [reflexivity|]. split.
    + rewrite drop_length; [|exact Hs|apply Hnds; exact Hs|apply incl_index; exact Hincl].
      rewrite length_index. unfold len in *. lia.
    + intros x Hx. apply filter_In in Hx. tauto.
  - eexists _, _, _. split; [reflexivity|]. split; [lia|]. intros x Hx. exact Hx.
Qed.

Lemma full_text_screening_count_witness :
  NoDup (index Example.three_studies) /\
  (0 <= final_included Example.small_instance)%Z /\
  exists inc reasons w',
    full_text_screening Example.small_instance Example.three_studies Example.fresh
    = Returns ((inc, reasons), w') /\
    len inc = Z.min (len (survivors Example.three_studies)) 88 /\
    incl inc (survivors Example.three_studies).
Proof.
  assert (H1 : NoDup (index Example.three_studies)).
  { unfold index. simpl. repeat constructor; simpl; intuition lia. }
  assert (H2 : (0 <= final_included Example.small_instance)%Z) by (simpl; lia).
  split; [exact H1|]. split; [exact H2|].
  exact (full_text_screening_count Example.small_instance Example.three_studies
           Example.fresh H1 H2).
Defined.

(** *** The flow dictionary *)

Lemma generate_prisma_flow_data_inv (self : PRISMAStudySelection)
  (w w' : World) (d : PrismaData) :
  generate_prisma_flow_data self w = Returns (d, w') ->
  exists after te w1 fin fe w2 kappa,
    title_abstract_screening self w = Returns ((after, te), w1) /\
    full_text_screening self after w1 = Returns ((fin, fe), w2) /\
    calculate_inter_rater_agreement w2 = Returns (kappa, w') /\
    d = flow_of self after te fin fe kappa.
Proof.
  unfold generate_prisma_flow_data. intros H.
  apply bindM_inv in H. destruct H as ([after te] & w1 & H1 & H).
  apply bindM_inv in H. destruct H as ([fin fe] & w2 & H2 & H).
  apply bindM_inv in H. destruct H as (kappa & w3 & H3 & H).
  apply ret_inv in H. destruct H as [-> ->].
  exists after, te, w1, fin, fe, w2, kappa. auto.
Qed.

(** C10.  Every flow dictionary that [generate_prisma_flow_data] returns
    conserves the record counts: in the title/abstract phase
    [eligible_for_screening = excluded + remaining], in the full-text phase
    [assessed = excluded + included], and [assessed] is the [remaining] of the
    phase before. *)
Theorem flow_counts_conserved (self : PRISMAStudySelection) (w w' : World)
  (d : PrismaData) :
  generate_prisma_flow_data self w = Returns (d, w') ->
  (eligible_for_screening (title_abstract d)
   = ta_excluded (title_abstract d) + remaining (title_abstract d))%Z /\
  (assessed (full_text_assessment d)
   = ft_excluded (full_text_assessment d) + included (full_text_assessment d))%Z /\
  assessed (full_text_assessment d) = remaining (title_abstract d).
Proof.
  intros H. apply generate_prisma_flow_data_inv in H.
  destruct H as (after & te & w1 & fin & fe & w2 & kappa & _ & _ & _ & ->).
  unfold flow_of. cbn [title_abstract full_text_assessment eligible_for_screening
    ta_excluded remaining assessed ft_excluded included].
  repeat split; lia.
Qed.

Lemma flow_counts_conserved_witness :
  exists d w',
    generate_prisma_flow_data Example.small_instance Example.fresh = Returns (d, w') /\
    (eligible_for_screening (title_abstract d)
     = ta_excluded (title_abstract d) + remaining (title_abstract d))%Z /\
    (assessed (full_text_assessment d)
     = ft_excluded (full_text_assessment d) + included (full_text_assessment d))%Z /\
    assessed (full_text_assessment d) = remaining (title_abstract d).
Proof.
  destruct (returns_elim
              (generate_prisma_flow_data Example.small_instance Example.fresh))
    as ([d w'] & E); [vm_compute; exact I|].
  exists d, w'. split; [exact E|].
  exact (flow_counts_conserved Example.small_instance Example.fresh w' d E).
Defined.

(** *** The simulated agreement *)

Lemma kappa_of_draw_range (z : Z) :
  exists k, kappa_of_draw z = Returns k /\ in_kappa_range k.
Proof.
  unfold kappa_of_draw.
  destruct (uniform_of_range z) as (k0 & E & Hk0).
  rewrite E, bind_Returns.
  destruct (round3_range k0 Hk0) as (m & Hm & Em & Hr).
  exists (round k0 3). split; [reflexivity|].
  pose proof f095_below as [Ha Hb].
  split; [lra|]. exists m. auto.
Qed.

Lemma calculate_inter_rater_agreement_spec (w : World) :
  exists k,
    kappa_of_draw (fst (next (py_random w))) = Returns k /\
    calculate_inter_rater_agreement w
    = Returns (k, {| py_random := snd (next (py_random w));
                     np_random := np_random w |}) /\
    in_kappa_range k.
Proof.
  destruct (kappa_of_draw_range (fst (next (py_random w)))) as (k & E & Hk).
  exists k. split; [exact E|]. split; [|exact Hk].
  rewrite calculate_inter_rater_agreement_eq, E. reflexivity.
Qed.

(** The kappa of a flow dictionary is the decoding of the next [random] draw
    at the time [generate_prisma_flow_data] is called. *)
Lemma flow_kappa (self : PRISMAStudySelection) (w w' : World) (d : PrismaData) :
  generate_prisma_flow_data self w = Returns (d, w') ->
  kappa_of_draw (fst (next (py_random w)))
  = Returns (cohens_kappa (inter_rater_agreement d)) /\
  interpretation (inter_rater_agreement d)
  = (if Qlt_bool (lit (8 # 10)) (cohens_kappa (inter_rater_agreement d))
     then "Substantial agreement"%string else "Moderate agreement"%string).
Proof.
  intros H. apply generate_prisma_flow_data_inv in H.
  destruct H as (after & te & w1 & fin & fe & w2 & kappa & H1 & H2 & H3 & ->).
  apply preserves_py_title_abstract_screening in H1.
  apply preserves_py_full_text_screening in H2.
  destruct (calculate_inter_rater_agreement_spec w2) as (k & Ek & Ec & _).
  rewrite Ec in H3. inversion H3; subst.
  rewrite <- H1, <- H2. split; [exact Ek | reflexivity].
Qed.

(** C8.  [calculate_inter_rater_agreement] always returns a value between
    0.75 and 0.95 that is the double of a three-decimal number; in a flow
    dictionary this value is fixed by the state of the [random] generator
    alone, whatever the instance (its studies) and the state of the numpy
    generator (the screening samples), and the interpretation is 'Substantial
    agreement' when the value exceeds 0.8 and 'Moderate agreement' otherwise. *)
Theorem inter_rater_agreement_range
  (self1 self2 : PRISMAStudySelection) (w1 w2 w1' w2' : World)
  (d1 d2 : PrismaData) :
  py_random w1 = py_random w2 ->
  generate_prisma_flow_data self1 w1 = Returns (d1, w1') ->
  generate_prisma_flow_data self2 w2 = Returns (d2, w2') ->
  (forall w, exists k w',
      calculate_inter_rater_agreement w = Returns (k, w') /\ in_kappa_range k) /\
  inter_rater_agreement d1 = inter_rater_agreement d2 /\
  in_kappa_range (cohens_kappa (inter_rater_agreement d1)) /\
  ((interpretation (inter_rater_agreement d1) = "Substantial agreement"%string /\
    lit (8 # 10) < cohens_kappa (inter_rater_agreement d1)) \/
   (interpretation (inter_rater_agreement d1) = "Moderate agreement"%string /\
    cohens_kappa (inter_rater_agreement d1) <= lit (8 # 10))).
Proof.
  intros Hpy H1 H2.
  apply flow_kappa in H1. apply flow_kappa in H2.
  destruct H1 as [K1 I1], H2 as [K2 I2].
  split.
  { intros w. destruct (calculate_inter_rater_agreement_spec w) as (k & _ & E & Hk).
    eauto. }
  rewrite Hpy in K1. rewrite K1 in K2. inversion K2 as [Ek].
  split.
  { destruct (inter_rater_agreement d1) as [k1 i1],
             (inter_rater_agreement d2) as [k2 i2].
    cbn [cohens_kappa interpretation] in *. subst. reflexivity. }
  split.
  { destruct (kappa_of_draw_range (fst (next (py_random w2)))) as (k & E & Hk).
    rewrite K1 in E. inversion E. subst. exact Hk. }
  rewrite I1.
  destruct (Qlt_bool (lit (8 # 10)) (cohens_kappa (inter_rater_agreement d1))) eqn:E.
  - left. split; [reflexivity|]. apply Qlt_bool_iff. exact E.
  - right. split; [reflexivity|]. apply Qnot_lt_le. intro Hc.
    apply Qlt_bool_iff in Hc. congruence.
Qed.


Lemma inter_rater_agreement_range_witness :
  exists d1 d2 w1' w2',
    generate_prisma_flow_data Example.small_instance (Example.world_with_draw 5)
    = Returns (d1, w1') /\
    generate_prisma_flow_data Example.empty_instance (Example.world_with_draw' 5)
    = Returns (d2, w2') /\
    inter_rater_agreement d1 = inter_rater_agreement d2 /\
    in_kappa_range (cohens_kappa (inter_rater_agreement d1)).
Proof.
  destruct (returns_elim
              (generate_prisma_flow_data Example.small_instance
                 (Example.world_with_draw 5)))
    as ([d1 w1'] & E1); [vm_compute; exact I|].
  destruct (returns_elim
              (generate_prisma_flow_data Example.empty_instance
                 (Example.world_with_draw' 5)))
    as ([d2 w2'] & E2); [vm_compute; exact I|].
  exists d1, d2, w1', w2'. split; [exact E1|]. split; [exact E2|].
  pose proof (inter_rater_agreement_range Example.small_instance
                Example.empty_instance (Example.world_with_draw 5)
                (Example.world_with_draw' 5) w1' w2' d1 d2 eq_refl E1 E2)
    as (_ & H1 & H2 & _).
  split; assumption.
Defined.

(** *** Two instances, one process *)

(** C6, as stated, fails: two instances constructed with the same seed in one
    process do not return the same flow data, because the second call
    continues the generators where the first left them.  With the example
    generators and seed 42 the kappa values are 0.915 and 0.923. *)
Lemma same_seed_instances_differ :
  ~ (forall (d1 d2 : PrismaData) (w' : World),
        two_instances Example.seeding 42 Example.fresh = Returns ((d1, d2), w') ->
        d1 = d2).
Proof.
  intros H.
  assert (K : match two_instances Example.seeding 42 Example.fresh with
              | Returns ((d1, d2), _) =>
                  cohens_kappa (inter_rater_agreement d1) = rnd (915 # 1000) /\
                  cohens_kappa (inter_rater_agreement d2) = rnd (923 # 1000)
              | _ => False
              end) by (vm_compute; split; reflexivity).
  destruct (returns_elim (two_instances Example.seeding 42 Example.fresh))
    as ([[d1 d2] w'] & E);
    [destruct (two_instances _ _ _) as [[[? ?] ?]| |]; [exact I|contradiction..]|].
  rewrite E in K. rewrite (H d1 d2 w' E) in K.
  destruct K as [K1 K2]. rewrite K1 in K2. vm_compute in K2. discriminate K2.
Qed.

(** C6, amended.  A run that constructs an instance with a seed and then asks
    it for the flow data gives the same result and leaves the same generator
    states whatever the generator states were before: the constructor
    re-seeds both generators before anything is drawn. *)
Theorem run_deterministic (S : Seeding) (random_seed : Z) (w1 w2 : World) :
  run S random_seed w1 = run S random_seed w2.
Proof.
  unfold run. unfold bindM at 1 2.
  assert (E : init S random_seed w1 = init S random_seed w2).
  { unfold init. unfold bindM at 1 3. unfold seed_both. reflexivity. }
  rewrite E. reflexivity.
Qed.

End FlowFacts.

Module TableFacts.
Import Binary64 B64Facts Py PyFacts Rng Selection SelectionFacts FlowFacts.

(** C5 (evaluation).  The per-reason title/abstract counts sum to the 60
    records excluded only in prisma_study_methodology.py; the table of
    prisma_study_selection.py sums to 55 and that of prisma_config.py to 61,
    beside the same total of 60. *)
Theorem title_abstract_table_sums :
  values_sum (Methodology.title_abstract_exclusions Methodology.init) = 60%Z /\
  Methodology.title_abstract_excluded Methodology.init = 60%Z /\
  values_sum title_abstract_exclusions_table = 55%Z /\
  values_sum Config.title_abstract_exclusions = 61%Z /\
  Config.title_abstract_excluded Config.target_numbers = 60%Z.
Proof. repeat split. Qed.

(** *** Where the reported kappa values come from *)






End TableFacts.
(** ** Accuracy of the result of [calculate_cohens_kappa] *)

Module KappaAccuracy.
Import Binary64 B64Facts Py PyFacts Methodology Kappa KappaFacts KappaError.

(** *** The bands *)

(** The doubles written [0.20], [0.40], [0.60] and [0.80] are in increasing
    order and within [2 ^ -53] of the decimals. *)
Lemma band_literals :
  lit 0 == 0 /\
  (2 # 10) - 2 * u54 <= lit (20 # 100) <= (2 # 10) + 2 * u54 /\
  (4 # 10) - 2 * u54 <= lit (40 # 100) <= (4 # 10) + 2 * u54 /\
  (6 # 10) - 2 * u54 <= lit (60 # 100) <= (6 # 10) + 2 * u54 /\
  (8 # 10) - 2 * u54 <= lit (80 # 100) <= (8 # 10) + 2 * u54.
Proof.
  split; [vm_compute; reflexivity|].
  repeat split; vm_compute; discriminate.
Qed.

Lemma Qlt_bool_true (x y : Q) : x < y -> Qlt_bool x y = true.
Proof. apply Qlt_bool_iff. Qed.

Lemma Qlt_bool_false (x y : Q) : y <= x -> Qlt_bool x y = false.
Proof.
  intros H. destruct (Qlt_bool x y) eqn:E; [|reflexivity].
  apply Qlt_bool_iff in E. lra.
Qed.

(** The interpretation as a function of the unrounded kappa: the six bands of
    Landis and Koch, bounded by the doubles written in the code. *)
Lemma interpret_bands (kappa : Q) :
  (kappa < 0 -> interpret kappa = "Poor agreement"%string) /\
  (0 <= kappa < lit (20 # 100) -> interpret kappa = "Slight agreement"%string) /\
  (lit (20 # 100) <= kappa < lit (40 # 100) ->
   interpret kappa = "Fair agreement"%string) /\
  (lit (40 # 100) <= kappa < lit (60 # 100) ->
   interpret kappa = "Moderate agreement"%string) /\
  (lit (60 # 100) <= kappa < lit (80 # 100) ->
   interpret kappa = "Substantial agreement"%string) /\
  (lit (80 # 100) <= kappa ->
   interpret kappa = "Almost perfect agreement"%string).
Proof.
  destruct band_literals as (L0 & L2 & L4 & L6 & L8).
  unfold interpret.
  set (t0 := lit 0) in *. set (t2 := lit (20 # 100)) in *.
  set (t4 := lit (40 # 100)) in *. set (t6 := lit (60 # 100)) in *.
  set (t8 := lit (80 # 100)) in *.
  clearbody t0 t2 t4 t6 t8.
  split; [intros H; rewrite (Qlt_bool_true kappa t0) by lra; reflexivity|].
  split.
  { intros H. rewrite (Qlt_bool_false kappa t0) by lra.
    rewrite (Qlt_bool_true kappa t2) by lra. reflexivity. }
  split.
  { intros H. rewrite (Qlt_bool_false kappa t0) by lra.
    rewrite (Qlt_bool_false kappa t2) by lra.
    rewrite (Qlt_bool_true kappa t4) by lra. reflexivity. }
  split.
  { intros H. rewrite (Qlt_bool_false kappa t0) by lra.
    rewrite (Qlt_bool_false kappa t2) by lra.
    rewrite (Qlt_bool_false kappa t4) by lra.
    rewrite (Qlt_bool_true kappa t6) by lra. reflexivity. }
  split.
  { intros H. rewrite (Qlt_bool_false kappa t0) by lra.
    rewrite (Qlt_bool_false kappa t2) by lra.
    rewrite (Qlt_bool_false kappa t4) by lra.
    rewrite (Qlt_bool_false kappa t6) by lra.
    rewrite (Qlt_bool_true kappa t8) by lra. reflexivity. }
  intros H. rewrite (Qlt_bool_false kappa t0) by lra.
  rewrite (Qlt_bool_false kappa t2) by lra.
  rewrite (Qlt_bool_false kappa t4) by lra.
  rewrite (Qlt_bool_false kappa t6) by lra.
  rewrite (Qlt_bool_false kappa t8) by lra. reflexivity.
Qed.

(** Rounding to three decimals moves a double of size at most [7/4] by at most
    half a thousandth, up to the final rounding to a double. *)
Lemma round3_error (k : Q) :
  Qabs k <= 7 # 4 ->
  (exists m : Z, round k 3 = rnd (inject_Z m / 1000)) /\
  Qabs (round k 3 - k) <= (1 # 2000) + (1 # 9007199254740992).
Proof.
  intros Hk. apply Qabs_Qle_condition in Hk.
  unfold round. change (inject_Z (10 ^ Z.of_nat 3)) with 1000.
  split; [eexists; reflexivity|].
  pose proof (ZnearestE_error (k * 1000)) as H.
  apply Qabs_Qle_condition in H.
  set (m := inject_Z (ZnearestE (k * 1000))) in *. clearbody m.
  assert (E : m / 1000 == m * (1 # 1000)) by (unfold Qdiv; reflexivity).
  pose proof (err2 (m / 1000) ltac:(rewrite E; lra)) as R.
  set (v := rnd (m / 1000)) in *. clearbody v.
  rewrite E in R.
  apply Qabs_Qle_condition. lra.
Qed.

(** *** The error of the double-precision formula *)

Section Accuracy.
Variable cm : ConfusionMatrix.
Hypothesis cells : nonneg cm.
Hypothesis observations : (0 < total cm)%Z.
Hypothesis bound : (total cm <= 2 ^ 48)%Z.

Lemma total_positive : 0 < inject_Z (total cm).
Proof. change 0 with (inject_Z 0). rewrite <- Zlt_Qlt. exact observations. Qed.

Lemma reciprocal_positive : 0 < inject_Z 1 / inject_Z (total cm).
Proof.
  pose proof total_positive as Hn. change (inject_Z 1) with 1.
  apply Qlt_shift_div_l; [exact Hn | lra].
Qed.

Lemma total_range : 0 < inject_Z (total cm) <= 281474976710656.
Proof.
  split; [exact total_positive|].
  change 281474976710656 with (inject_Z (2 ^ 48)). rewrite <- Zle_Qle.
  exact bound.
Qed.

Lemma reciprocal_total :
  1 # 281474976710656 <= inject_Z 1 / inject_Z (total cm).
Proof.
  destruct total_range as [Hn Hb]. change (inject_Z 1) with 1.
  apply Qle_shift_div_l; [exact Hn | lra].
Qed.

Lemma exact_sign :
  - (1 - pe_exact cm) <= po_exact cm - pe_exact cm.
Proof.
  destruct cells as (Ha & Hb & Hc & Hd).
  rewrite Zle_Qle in Ha, Hb, Hc, Hd. change (inject_Z 0) with 0 in Ha, Hb, Hc, Hd.
  assert (Hn : 0 < inject_Z (total cm))
    by (change 0 with (inject_Z 0); rewrite <- Zlt_Qlt; exact observations).
  unfold po_exact, pe_exact, total in *. cbv zeta.
  rewrite !inject_Z_plus in *.
  apply numerator_sign; assumption.
Qed.

Lemma exact_gap :
  (pe_exact cm == 1 /\ kappa_double cm = 1) \/
  inject_Z 1 / inject_Z (total cm) <= 1 - pe_exact cm.
Proof.
  destruct cells as (Ha & Hb & Hc & Hd).
  pose proof (quot_self (total cm) observations) as E1.
  pose proof (quot_zero (total cm)) as E0.
  destruct (den_gap (include_include cm + include_exclude cm)
              (include_include cm + exclude_include cm) (total cm) observations)
    as [[R P]|[[R P]|G]]; try (unfold total; lia).
  - left.
    assert (S : (exclude_include cm + exclude_exclude cm)%Z = total cm)
      by (unfold total; lia).
    assert (T : (include_exclude cm + exclude_exclude cm)%Z = total cm)
      by (unfold total; lia).
    split.
    + unfold pe_exact. cbv zeta. rewrite R, P, S, T, E0, E1. reflexivity.
    + unfold kappa_double. rewrite R, P, S, T.
      rewrite (rnd_comp _ _ E0), (rnd_comp _ _ E1).
      rewrite (proj1 degenerate_double). reflexivity.
  - left.
    assert (S : (exclude_include cm + exclude_exclude cm)%Z = 0%Z)
      by (unfold total in *; lia).
    assert (T : (include_exclude cm + exclude_exclude cm)%Z = 0%Z)
      by (unfold total in *; lia).
    split.
    + unfold pe_exact. cbv zeta. rewrite R, P, S, T, E0, E1. reflexivity.
    + unfold kappa_double. rewrite R, P, S, T.
      rewrite (rnd_comp _ _ E0), (rnd_comp _ _ E1).
      rewrite (proj2 degenerate_double). reflexivity.
  - right.
    assert (S : inject_Z (exclude_include cm + exclude_exclude cm)
                / inject_Z (total cm)
                == 1 - inject_Z (include_include cm + include_exclude cm)
                       / inject_Z (total cm)).
    { rewrite <- E1. unfold total at 2. rewrite !inject_Z_plus.
      unfold Qdiv. ring. }
    assert (T : inject_Z (include_exclude cm + exclude_exclude cm)
                / inject_Z (total cm)
                == 1 - inject_Z (include_include cm + exclude_include cm)
                       / inject_Z (total cm)).
    { rewrite <- E1. unfold total at 2. rewrite !inject_Z_plus.
      unfold Qdiv. ring. }
    unfold pe_exact. cbv zeta. rewrite S, T.
    set (x := inject_Z (include_include cm + include_exclude cm)
              / inject_Z (total cm)) in *.
    set (y := inject_Z (include_include cm + exclude_include cm)
              / inject_Z (total cm)) in *.
    clearbody x y. lra.
Qed.

Lemma kappa_double_error :
  inject_Z 1 / inject_Z (total cm) <= 1 - pe_exact cm ->
  Qabs (kappa_double cm - kappa_exact cm)
  <= (40 * inject_Z (total cm) + 2) * u54.
Proof.
  intros G.
  destruct total_range as [Hn0 Hn1].
  pose proof reciprocal_positive as Hd0.
  pose proof reciprocal_total as Hd1.
  pose proof exact_sign as Hs.
  pose proof (p1_include_range cm cells observations) as RX1.
  pose proof (p1_exclude_range cm cells observations) as RX2.
  pose proof (p2_include_range cm cells observations) as RY1.
  pose proof (p2_exclude_range cm cells observations) as RY2.
  pose proof (po_double_range cm cells observations) as RO.
  pose proof (pe_double_range cm cells observations) as RPE.
  destruct cells as (Ha & Hb & Hc & Hd).
  assert (Rx1 := quot_unit (include_include cm + include_exclude cm) (total cm)
                   observations ltac:(unfold total; lia)).
  assert (Rx2 := quot_unit (exclude_include cm + exclude_exclude cm) (total cm)
                   observations ltac:(unfold total; lia)).
  assert (Ry1 := quot_unit (include_include cm + exclude_include cm) (total cm)
                   observations ltac:(unfold total; lia)).
  assert (Ry2 := quot_unit (include_exclude cm + exclude_exclude cm) (total cm)
                   observations ltac:(unfold total; lia)).
  assert (Ro := quot_unit (include_include cm + exclude_exclude cm) (total cm)
                   observations ltac:(unfold total; lia)).
  unfold kappa_double, kappa_exact.
  unfold pe_exact, po_exact in *. cbv zeta in *.
  set (x1 := inject_Z (include_include cm + include_exclude cm)
             / inject_Z (total cm)) in *.
  set (x2 := inject_Z (exclude_include cm + exclude_exclude cm)
             / inject_Z (total cm)) in *.
  set (y1 := inject_Z (include_include cm + exclude_include cm)
             / inject_Z (total cm)) in *.
  set (y2 := inject_Z (include_exclude cm + exclude_exclude cm)
             / inject_Z (total cm)) in *.
  set (o := inject_Z (include_include cm + exclude_exclude cm)
            / inject_Z (total cm)) in *.
  clearbody x1 x2 y1 y2 o.
  pose proof (err1 x1 ltac:(lra)) as E1.
  pose proof (err1 x2 ltac:(lra)) as E2.
  pose proof (err1 y1 ltac:(lra)) as E3.
  pose proof (err1 y2 ltac:(lra)) as E4.
  pose proof (err1 o ltac:(lra)) as EO.
  set (X1 := rnd x1) in *. set (X2 := rnd x2) in *.
  set (Y1 := rnd y1) in *. set (Y2 := rnd y2) in *.
  set (O := rnd o) in *.
  clearbody X1 X2 Y1 Y2 O.
  pose proof (err1 (X1 * Y1) (prod_unit _ _ RX1 RY1)) as EP1.
  pose proof (err1 (X2 * Y2) (prod_unit _ _ RX2 RY2)) as EP2.
  pose proof (unit_product _ _ RX1 RY1) as RP1.
  pose proof (unit_product _ _ RX2 RY2) as RP2.
  set (P1 := rnd (X1 * Y1)) in *. set (P2 := rnd (X2 * Y2)) in *.
  clearbody P1 P2.
  pose proof (err2 (P1 + P2) ltac:(lra)) as EPE.
  set (PE := rnd (P1 + P2)) in *. clearbody PE.
  pose proof (err2 (O - PE) ltac:(lra)) as ENUM.
  pose proof (err1 (1 - PE) ltac:(lra)) as EDEN.
  set (NUM := rnd (O - PE)) in *. set (DEN := rnd (1 - PE)) in *.
  clearbody NUM DEN.
  assert (Hu : 0 < u54) by reflexivity.
  set (n := inject_Z (total cm)) in *.
  set (delta := inject_Z 1 / n) in *.
  assert (EB : 40 * u54 / delta == 40 * u54 * n).
  { unfold delta. change (inject_Z 1) with 1. field. lra. }
  clearbody delta.
  assert (Hud : 18 * u54 <= delta) by lra.
  destruct (kappa_error_abstract x1 x2 y1 y2 o X1 X2 Y1 Y2 O P1 P2 PE NUM DEN
              u54 delta Hu Hud Rx1 Rx2 Ry1 Ry2 Ro RX1 RX2 RY1 RY2
              E1 E2 E3 E4 EO EP1 EP2 EPE ENUM EDEN G Hs) as (HPE & HDEN & HQ).
  set (pe := x1 * y1 + x2 * y2) in *. clearbody pe.
  rewrite (Qeq_bool_false PE 1) by lra.
  rewrite (Qeq_bool_false pe 1) by lra.
  assert (HU : -1 <= (o - pe) / (1 - pe) <= 1)
    by (apply unit_ratio; lra).
  set (k := (o - pe) / (1 - pe)) in *. clearbody k.
  rewrite EB in HQ. apply Qabs_Qle_condition in HQ.
  clearbody n.
  pose proof (err2 (NUM / DEN) ltac:(lra)) as EK.
  set (q := NUM / DEN) in *. clearbody q.
  set (K := rnd q) in *. clearbody K.
  apply Qabs_Qle_condition. lra.
Qed.

Lemma kappa_exact_range : -1 <= kappa_exact cm <= 1.
Proof.
  destruct exact_gap as [[E _]|G].
  - unfold kappa_exact. rewrite (Qeq_bool_true _ _ E). lra.
  - pose proof exact_sign as Hs.
    pose proof reciprocal_positive as Hd0.
    assert (Ho : po_exact cm <= 1).
    { destruct cells as (Ha & Hb & Hc & Hd).
      apply (quot_unit _ _ observations). unfold total. lia. }
    unfold kappa_exact. rewrite Qeq_bool_false by lra.
    apply unit_ratio; lra.
Qed.

Lemma kappa_double_accuracy :
  (pe_exact cm == 1 -> kappa_double cm = 1) /\
  Qabs (kappa_double cm - kappa_exact cm)
  <= (40 * inject_Z (total cm) + 2) * u54.
Proof.
  destruct total_range as [Hn0 Hn1].
  destruct exact_gap as [[E K]|G].
  - split; [intros _; exact K|].
    rewrite K. unfold kappa_exact. rewrite (Qeq_bool_true _ _ E).
    setoid_replace (1 - 1) with 0 by ring. change (Qabs 0) with 0.
    set (n := inject_Z (total cm)) in *. clearbody n. lra.
  - pose proof reciprocal_positive as Hd0.
    split; [intros E; exfalso; lra|].
    exact (kappa_double_error G).
Qed.

End Accuracy.

(** C1, amended.  For a confusion matrix of nonnegative cells whose total [n]
    is positive and at most [2 ^ 48], [calculate_cohens_kappa] returns
    [round(kappa, 3)] and an interpretation, where [kappa] is the formula
    evaluated in double precision.  [kappa] is within [(40 n + 2) / 2 ^ 54] of
    the textbook Cohen's kappa and is exactly [1.0] when the expected
    agreement is one; the returned value is a thousandth [m / 1000] (as a
    double) within [0.0005 + (40 n + 4) / 2 ^ 54] of the textbook kappa.  The
    interpretation is the Landis and Koch band of [kappa]: 'Poor' below 0,
    'Slight' below 0.20, 'Fair' below 0.40, 'Moderate' below 0.60,
    'Substantial' below 0.80 and 'Almost perfect' from 0.80 on, the bounds
    being the doubles so written; it is the band of the textbook kappa
    whenever that is at least [(40 n + 4) / 2 ^ 54] away from every bound. *)
Theorem calculate_cohens_kappa_accuracy
  (self : PRISMAStudySelection) (cm : ConfusionMatrix) :
  nonneg cm -> (0 < total cm <= 2 ^ 48)%Z ->
  exists (kappa : Q) (interpretation : string),
    calculate_cohens_kappa self (Some cm)
    = Returns (round kappa 3, interpretation)
    /\ (pe_exact cm == 1 -> kappa = 1)
    /\ Qabs (kappa - kappa_exact cm)
       <= (40 * inject_Z (total cm) + 2) * (1 # 18014398509481984)
    /\ (exists m : Z, round kappa 3 = rnd (inject_Z m / 1000))
    /\ Qabs (round kappa 3 - kappa_exact cm)
       <= (1 # 2000) + (40 * inject_Z (total cm) + 4) * (1 # 18014398509481984)
    /\ ((kappa < 0 -> interpretation = "Poor agreement"%string) /\
        (0 <= kappa < lit (20 # 100) ->
         interpretation = "Slight agreement"%string) /\
        (lit (20 # 100) <= kappa < lit (40 # 100) ->
         interpretation = "Fair agreement"%string) /\
        (lit (40 # 100) <= kappa < lit (60 # 100) ->
         interpretation = "Moderate agreement"%string) /\
        (lit (60 # 100) <= kappa < lit (80 # 100) ->
         interpretation = "Substantial agreement"%string) /\
        (lit (80 # 100) <= kappa ->
         interpretation = "Almost perfect agreement"%string))
    /\ (forall margin : Q,
          margin == (40 * inject_Z (total cm) + 4) * (1 # 18014398509481984) ->
          (kappa_exact cm < - margin ->
           interpretation = "Poor agreement"%string) /\
          (margin <= kappa_exact cm < (2 # 10) - margin ->
           interpretation = "Slight agreement"%string) /\
          ((2 # 10) + margin <= kappa_exact cm < (4 # 10) - margin ->
           interpretation = "Fair agreement"%string) /\
          ((4 # 10) + margin <= kappa_exact cm < (6 # 10) - margin ->
           interpretation = "Moderate agreement"%string) /\
          ((6 # 10) + margin <= kappa_exact cm < (8 # 10) - margin ->
           interpretation = "Substantial agreement"%string) /\
          ((8 # 10) + margin <= kappa_exact cm ->
           interpretation = "Almost perfect agreement"%string)).
Proof.
  intros Hc [Hn Hb].
  exists (kappa_double cm), (interpret (kappa_double cm)).
  split; [exact (calculate_cohens_kappa_double self cm Hc Hn)|].
  destruct (kappa_double_accuracy cm Hc Hn Hb) as [H1 H2].
  pose proof (kappa_exact_range cm Hc Hn) as Hr.
  destruct (total_range cm Hn Hb) as [Hn0 Hn1].
  split; [exact H1|]. split; [exact H2|].
  apply Qabs_Qle_condition in H2.
  destruct (interpret_bands (kappa_double cm)) as (B0 & B2 & B4 & B6 & B8 & B9).
  destruct band_literals as (L0 & L2 & L4 & L6 & L8).
  set (K := kappa_double cm) in *.
  set (k := kappa_exact cm) in *.
  set (n := inject_Z (total cm)) in *.
  set (s := interpret K) in *.
  set (t2 := lit (20 # 100)) in *. set (t4 := lit (40 # 100)) in *.
  set (t6 := lit (60 # 100)) in *. set (t8 := lit (80 # 100)) in *.
  clearbody k n s t2 t4 t6 t8.
  assert (Hk : Qabs K <= 7 # 4) by (apply Qabs_Qle_condition; lra).
  destruct (round3_error K Hk) as [Hm He].
  split; [exact Hm|].
  apply Qabs_Qle_condition in He.
  set (r := round K 3) in *. clearbody r. clearbody K.
  split; [apply Qabs_Qle_condition; lra|].
  split; [repeat split; assumption|].
  intros margin Em.
  split; [intros H; apply B0; lra|].
  split; [intros H; apply B2; lra|].
  split; [intros H; apply B4; lra|].
  split; [intros H; apply B6; lra|].
  split; [intros H; apply B8; lra|].
  intros H; apply B9; lra.
Qed.

Lemma calculate_cohens_kappa_accuracy_witness :
  nonneg default_matrix /\ (0 < total default_matrix <= 2 ^ 48)%Z /\
  exists (kappa : Q) (interpretation : string),
    calculate_cohens_kappa init (Some default_matrix)
    = Returns (round kappa 3, interpretation)
    /\ Qabs (round kappa 3 - kappa_exact default_matrix)
       <= (1 # 2000) + (40 * inject_Z (total default_matrix) + 4)
                       * (1 # 18014398509481984)
    /\ (lit (80 # 100) <= kappa ->
        interpretation = "Almost perfect agreement"%string).
Proof.
  assert (Hc : nonneg default_matrix) by (unfold nonneg; simpl; lia).
  assert (Hn : (0 < total default_matrix <= 2 ^ 48)%Z)
    by (vm_compute; split; congruence).
  split; [exact Hc|]. split; [exact Hn|].
  destruct (calculate_cohens_kappa_accuracy init default_matrix Hc Hn)
    as (kappa & s & H1 & _ & _ & _ & H5 & (_ & _ & _ & _ & _ & H6) & _).
  exists kappa, s. repeat split; assumption.
Defined.

End KappaAccuracy.
(* ================================================================== *)
(** ** The console scripts *)
(* ================================================================== *)

Module ConsoleFacts.
Import Console.
Local Open Scope io_scope.
Local Open Scope string_scope.
Local Open Scope list_scope.

(** *** Printing *)

Lemma print_accepted (env : Env) (s : string) :
  stdout env s = None -> print env s = (Ok tt, [s]).
Proof. intros H. unfold print. rewrite H. reflexivity. Qed.


Lemma fst_bind_print {B : Type} (env : Env) (s : string) (k : unit -> IO B) :
  stdout env s = None -> fst (bind (print env s) k) = fst (k tt).
Proof.
  intros H. rewrite (print_accepted env s H). unfold bind.
  destruct (k tt). reflexivity.
Qed.

Lemma snd_bind_print {B : Type} (env : Env) (s : string) (k : unit -> IO B) :
  stdout env s = None -> snd (bind (print env s) k) = s :: snd (k tt).
Proof.
  intros H. rewrite (print_accepted env s H). unfold bind.
  destruct (k tt). reflexivity.
Qed.

Lemma fst_bind_ok {A B : Type} (m : IO A) (k : A -> IO B) (a : A) :
  fst m = Ok a -> fst (bind m k) = fst (k a).
Proof.
  destruct m as [r out]. simpl. intros ->. unfold bind. destruct (k a). reflexivity.
Qed.

Lemma fst_bind_raised {A B : Type} (m : IO A) (k : A -> IO B) (e : exc) :
  fst m = Raised e -> fst (bind m k) = Raised e.
Proof. destruct m as [r out]. simpl. intros ->. reflexivity. Qed.


Lemma snd_bind_prefix {A B : Type} (m : IO A) (k : A -> IO B) :
  exists rest, snd (bind m k) = snd m ++ rest.
Proof.
  destruct m as [[a|e] out]; simpl.
  - destruct (k a) as [r out']. exists out'. reflexivity.
  - exists []. rewrite app_nil_r. reflexivity.
Qed.

Lemma snd_try_except_prefix {A : Type} (body : IO A) (handler : exc -> IO A) :
  exists rest, snd (try_except body handler) = snd body ++ rest.
Proof.
  destruct body as [[a|e] out]; simpl.
  - exists []. rewrite app_nil_r. reflexivity.
  - destruct (handler e) as [r out']. exists out'. reflexivity.
Qed.

(** A handler that cannot raise makes the whole [try] statement safe. *)
Lemma try_except_ok (body : IO unit) (handler : exc -> IO unit) :
  (forall e, fst (handler e) = Ok tt) -> fst (try_except body handler) = Ok tt.
Proof.
  intros H. destruct body as [[[]|e] out]; simpl; [reflexivity|].
  specialize (H e). destruct (handler e) as [r out']. exact H.
Qed.

Lemma for_each_ok {A : Type} (l : list A) (body : A -> IO unit) :
  (forall x, fst (body x) = Ok tt) -> fst (for_each l body) = Ok tt.
Proof.
  intros H. induction l as [|x l IH]; simpl; [reflexivity|].
  rewrite (fst_bind_ok _ _ tt (H x)). exact IH.
Qed.

(** *** read_csv_display.py *)


Lemma display_loaded_counts (env : Env) (file_path : string) (df : Table) :
  stdout env (nl +++ rep "=" 80) = None ->
  stdout env ("CSV FILE ANALYSIS: " +++ basename env file_path) = None ->
  stdout env (rep "=" 80) = None ->
  stdout env ("Number of rows: " +++ str (len df)) = None ->
  stdout env ("Number of columns: " +++ str (len_columns df)) = None ->
  exists after,
    snd (display_loaded env file_path df)
    = [ nl +++ rep "=" 80;
        "CSV FILE ANALYSIS: " +++ basename env file_path;
        rep "=" 80;
        "Number of rows: " +++ str (len df);
        "Number of columns: " +++ str (len_columns df) ] ++ after.
Proof.
  intros H1 H2 H3 H4 H5. unfold display_loaded.
  rewrite (snd_bind_print env _ _ H1). rewrite (snd_bind_print env _ _ H2).
  rewrite (snd_bind_print env _ _ H3). rewrite (snd_bind_print env _ _ H4).
  rewrite (snd_bind_print env _ _ H5).
  eexists. reflexivity.
Qed.

(** C7, as stated, fails: on a console that encodes ASCII only, a table that
    loads from a file whose name has an accented letter is never counted: the
    line with the file name raises [UnicodeEncodeError] inside the [try], the
    handler reports an error reading the file, and neither count is
    printed. *)
Lemma read_and_display_csv_counts_lost :
  ~ (forall (env : Env) (file_path : string) (df : Table),
        path_exists env file_path = true ->
        read_csv env file_path "," = inr df ->
        exists before after,
          snd (read_and_display_csv env file_path)
          = before
            ++ [ "Number of rows: " +++ str (len df);
                 "Number of columns: " +++ str (len_columns df) ]
            ++ after).
Proof.
  intros H.
  destruct (H Example.ascii_console "données.csv" Example.small_table
              eq_refl eq_refl) as (before & after & E).
  assert (Hin : In "Number of rows: 1"
                  (snd (read_and_display_csv Example.ascii_console
                          "données.csv"))).
  { rewrite E. apply in_or_app. right. left. reflexivity. }
  vm_compute in Hin.
  repeat (destruct Hin as [Hin|Hin]; [discriminate Hin|]).
  exact Hin.
Qed.

(** C7, amended.  When the file exists and loads, and the console accepts the
    lines printed up to and including the two counts, [read_and_display_csv]
    prints 'Number of rows: ' followed by [len(df)] and, on the next line,
    'Number of columns: ' followed by [len(df.columns)], after exactly the
    four lines that precede them, whatever happens afterwards. *)
Theorem read_and_display_csv_counts (env : Env) (file_path : string) (df : Table) :
  path_exists env file_path = true ->
  read_csv env file_path "," = inr df ->
  stdout env "Reading CSV file..." = None ->
  stdout env (nl +++ rep "=" 80) = None ->
  stdout env ("CSV FILE ANALYSIS: " +++ basename env file_path) = None ->
  stdout env (rep "=" 80) = None ->
  stdout env ("Number of rows: " +++ str (len df)) = None ->
  stdout env ("Number of columns: " +++ str (len_columns df)) = None ->
  exists after,
    snd (read_and_display_csv env file_path)
    = [ "Reading CSV file..."; nl +++ rep "=" 80;
        "CSV FILE ANALYSIS: " +++ basename env file_path; rep "=" 80 ]
      ++ [ "Number of rows: " +++ str (len df);
           "Number of columns: " +++ str (len_columns df) ]
      ++ after.
Proof.
  intros Hex Hread H0 H1 H2 H3 H4 H5. unfold read_and_display_csv.
  match goal with
  | |- context [try_except ?body ?handler] =>
      destruct (snd_try_except_prefix body handler) as (extra & E)
  end.
  rewrite E. rewrite Hex, Hread. cbn [negb of_sum].
  rewrite (snd_bind_print env _ _ H0).
  destruct (display_loaded_counts env file_path df H1 H2 H3 H4 H5)
    as (after & Ed).
  assert (Eb : snd (bind (pure df) (fun df0 => display_loaded env file_path df0))
               = snd (display_loaded env file_path df)).
  { unfold bind, pure. destruct (display_loaded env file_path df). reflexivity. }
  rewrite Eb, Ed.
  exists (after ++ extra).
  cbn [app]. reflexivity.
Qed.

Lemma read_and_display_csv_counts_witness :
  exists after,
    snd (read_and_display_csv Example.loading_env "data.csv")
    = [ "Reading CSV file..."; nl +++ rep "=" 80;
        "CSV FILE ANALYSIS: data.csv"; rep "=" 80 ]
      ++ [ "Number of rows: 1"; "Number of columns: 2" ] ++ after.
Proof.
  exact (read_and_display_csv_counts Example.loading_env "data.csv"
           Example.small_table eq_refl eq_refl eq_refl eq_refl eq_refl eq_refl
           eq_refl eq_refl).
Defined.





(** *** scripts/fix_csv_formatting.py *)





(** *** [main] of scripts/prisma_study_methodology.py *)










End ConsoleFacts.
Module MethodologyFacts.
Import Binary64 B64Facts Py PyFacts Methodology Kappa KappaFacts KappaError KappaAccuracy.
Local Open Scope py_scope.

Lemma bind_Raises {A B : Type} (e : exn) (k : A -> outcome B) :
  bind (Raises e) k = Raises e.
Proof. reflexivity. Qed.

Lemma bind_OutOfRange {A B : Type} (k : A -> outcome B) :
  bind OutOfRange k = OutOfRange.
Proof. reflexivity. Qed.

Lemma int_truediv_zero (x : Z) : int_truediv x 0 = Raises ZeroDivisionError.
Proof. reflexivity. Qed.

Lemma int_truediv_cases (x n : Z) :
  n <> 0%Z ->
  int_truediv x n = Returns (rnd (inject_Z x / inject_Z n))
  \/ int_truediv x n = Raises OverflowError.
Proof.
  intros Hn. unfold int_truediv.
  destruct (Z.eqb_spec n 0) as [E|_]; [contradiction|].
  cbv zeta. destruct (finite (rnd (inject_Z x / inject_Z n))); auto.
Qed.

Lemma fin_cases (x : Q) : fin x = Returns x \/ fin x = OutOfRange.
Proof. unfold fin. destruct (finite x); auto. Qed.

Lemma fmul_comm (x y : Q) : fmul x y = fmul y x.
Proof.
  unfold fmul. rewrite (rnd_comp (x * y) (y * x) (Qmult_comm x y)). reflexivity.
Qed.

Lemma fadd_comm (x y : Q) : fadd x y = fadd y x.
Proof.
  unfold fadd. rewrite (rnd_comp (x + y) (y + x) (Qplus_comm x y)). reflexivity.
Qed.

Lemma fmul_cases (x y : Q) :
  fmul x y = Returns (rnd (x * y)) \/ fmul x y = OutOfRange.
Proof. apply fin_cases. Qed.

Lemma kappa_value_sums (cm : ConfusionMatrix) :
  kappa_value cm
  = kappa_of_sums (include_include cm + exclude_exclude cm)
      (include_include cm + include_exclude cm)
      (exclude_include cm + exclude_exclude cm)
      (include_include cm + exclude_include cm)
      (include_exclude cm + exclude_exclude cm)
      (include_include cm + include_exclude cm + exclude_include cm
       + exclude_exclude cm).
Proof. reflexivity. Qed.

Ltac split_truediv x n Hn :=
  destruct (int_truediv_cases x n Hn) as [?E|?E]; rewrite ?E;
  rewrite ?bind_Returns, ?bind_Raises.

(** Exchanging the two rates of each reviewer pair leaves the result. *)
Lemma kappa_of_sums_raters (ad ab cd ac bd n : Z) :
  kappa_of_sums ad ac bd ab cd n = kappa_of_sums ad ab cd ac bd n.
Proof.
  unfold kappa_of_sums.
  destruct (Z.eq_dec n 0) as [->|Hn].
  { rewrite !int_truediv_zero, !bind_Raises. reflexivity. }
  destruct (int_truediv_cases ad n Hn) as [E0|E0]; rewrite E0;
    rewrite ?bind_Returns, ?bind_Raises; [|reflexivity].
  destruct (int_truediv_cases ab n Hn) as [E1|E1]; rewrite E1;
  destruct (int_truediv_cases cd n Hn) as [E2|E2]; rewrite E2;
  destruct (int_truediv_cases ac n Hn) as [E3|E3]; rewrite E3;
  destruct (int_truediv_cases bd n Hn) as [E4|E4]; rewrite E4;
    rewrite ?bind_Returns, ?bind_Raises; try reflexivity.
  rewrite (fmul_comm (rnd (inject_Z ac / inject_Z n))
             (rnd (inject_Z ab / inject_Z n))).
  rewrite (fmul_comm (rnd (inject_Z bd / inject_Z n))
             (rnd (inject_Z cd / inject_Z n))).
  reflexivity.
Qed.

Lemma kappa_of_sums_labels (ad ab cd ac bd n : Z) :
  kappa_of_sums ad cd ab bd ac n = kappa_of_sums ad ab cd ac bd n.
Proof.
  unfold kappa_of_sums.
  destruct (Z.eq_dec n 0) as [->|Hn].
  { rewrite !int_truediv_zero, !bind_Raises. reflexivity. }
  destruct (int_truediv_cases ad n Hn) as [E0|E0]; rewrite E0;
    rewrite ?bind_Returns, ?bind_Raises; [|reflexivity].
  destruct (int_truediv_cases ab n Hn) as [E1|E1]; rewrite E1;
  destruct (int_truediv_cases cd n Hn) as [E2|E2]; rewrite E2;
  destruct (int_truediv_cases ac n Hn) as [E3|E3]; rewrite E3;
  destruct (int_truediv_cases bd n Hn) as [E4|E4]; rewrite E4;
    rewrite ?bind_Returns, ?bind_Raises; try reflexivity.
  destruct (fmul_cases (rnd (inject_Z ab / inject_Z n))
              (rnd (inject_Z ac / inject_Z n))) as [F1|F1]; rewrite F1;
  destruct (fmul_cases (rnd (inject_Z cd / inject_Z n))
              (rnd (inject_Z bd / inject_Z n))) as [F2|F2]; rewrite F2;
    rewrite ?bind_Returns, ?bind_OutOfRange; try reflexivity.
  rewrite (fadd_comm (rnd (rnd (inject_Z cd / inject_Z n)
                           * rnd (inject_Z bd / inject_Z n)))).
  reflexivity.
Qed.


(** X1.  Cohen's kappa does not depend on which reviewer is called the first:
    exchanging the two off-diagonal cells gives the same result, whether a
    value or an exception, for every matrix. *)
Theorem calculate_cohens_kappa_swap_raters
  (self : PRISMAStudySelection) (cm : ConfusionMatrix) :
  calculate_cohens_kappa self (Some (swap_raters cm))
  = calculate_cohens_kappa self (Some cm).
Proof.
  unfold calculate_cohens_kappa. rewrite !kappa_value_sums.
  cbn [swap_raters include_include include_exclude exclude_include
       exclude_exclude].
  replace (include_include cm + exclude_include cm + include_exclude cm
           + exclude_exclude cm)%Z
    with (include_include cm + include_exclude cm + exclude_include cm
          + exclude_exclude cm)%Z by lia.
  rewrite kappa_of_sums_raters. reflexivity.
Qed.

(** X2.  Nor does it depend on which decision is called 'include': exchanging
    the two diagonal cells and the two off-diagonal cells gives the same
    result for every matrix. *)
Theorem calculate_cohens_kappa_swap_labels
  (self : PRISMAStudySelection) (cm : ConfusionMatrix) :
  calculate_cohens_kappa self (Some (swap_labels cm))
  = calculate_cohens_kappa self (Some cm).
Proof.
  unfold calculate_cohens_kappa. rewrite !kappa_value_sums.
  cbn [swap_labels include_include include_exclude exclude_include
       exclude_exclude].
  replace (exclude_exclude cm + exclude_include cm + include_exclude cm
           + include_include cm)%Z
    with (include_include cm + include_exclude cm + exclude_include cm
          + exclude_exclude cm)%Z by lia.
  rewrite (Z.add_comm (exclude_exclude cm) (include_include cm)).
  rewrite (Z.add_comm (exclude_exclude cm) (exclude_include cm)).
  rewrite (Z.add_comm (include_exclude cm) (include_include cm)).
  rewrite (Z.add_comm (exclude_exclude cm) (include_exclude cm)).
  rewrite (Z.add_comm (exclude_include cm) (include_include cm)).
  rewrite kappa_of_sums_labels. reflexivity.
Qed.

(** X4.  A matrix whose cells sum to zero makes [calculate_cohens_kappa] raise
    [ZeroDivisionError], at the division that computes [po]. *)
Theorem calculate_cohens_kappa_empty
  (self : PRISMAStudySelection) (cm : ConfusionMatrix) :
  total cm = 0%Z ->
  calculate_cohens_kappa self (Some cm) = Raises ZeroDivisionError.
Proof.
  intros H. unfold calculate_cohens_kappa. rewrite kappa_value_sums.
  unfold total in H. rewrite H. unfold kappa_of_sums.
  rewrite int_truediv_zero, !bind_Raises. reflexivity.
Qed.

Lemma calculate_cohens_kappa_empty_witness :
  calculate_cohens_kappa init
    (Some {| include_include := 0; include_exclude := 0;
             exclude_include := 0; exclude_exclude := 0 |})
  = Raises ZeroDivisionError.
Proof. apply calculate_cohens_kappa_empty. reflexivity. Defined.


Lemma rnd_one : rnd 1 = 1.
Proof. vm_compute. reflexivity. Qed.

Lemma self_quotient (x : Q) : ~ x == 0 -> x / x == 1.
Proof. intros H. field. exact H. Qed.

(** X3.  When the reviewers never disagree, the result is kappa [1.0] with
    'Almost perfect agreement', whatever the two diagonal cells. *)
Theorem calculate_cohens_kappa_perfect
  (self : PRISMAStudySelection) (cm : ConfusionMatrix) :
  nonneg cm -> (0 < total cm)%Z ->
  include_exclude cm = 0%Z -> exclude_include cm = 0%Z ->
  calculate_cohens_kappa self (Some cm)
  = Returns (1, "Almost perfect agreement"%string).
Proof.
  intros Hc Hn Hb Hd.
  rewrite (calculate_cohens_kappa_double self cm Hc Hn).
  assert (K : kappa_double cm = 1).
  { unfold kappa_double.
    match goal with |- context [Qeq_bool ?p 1] => set (PE := p) in * end.
    destruct (Qeq_bool PE 1) eqn:E; [reflexivity|].
    assert (Hne : ~ PE == 1).
    { intro Hc'. apply Qeq_bool_iff in Hc'. congruence. }
    pose proof (den_double_away cm Hc Hn Hne) as [H1 _]. fold PE in H1.
    assert (T : (include_include cm + exclude_exclude cm)%Z = total cm)
      by (unfold total; lia).
    rewrite T. rewrite (rnd_comp _ _ (quot_self (total cm) Hn)), rnd_one.
    set (D := rnd (1 - PE)) in *. clearbody D.
    assert (HD : ~ D == 0).
    { intro Hz. rewrite Hz in H1. change (Qabs 0) with 0 in H1.
      assert (0 < 2 ^ (-53)) by reflexivity. lra. }
    rewrite (rnd_comp _ _ (self_quotient D HD)). exact rnd_one. }
  rewrite K. vm_compute. reflexivity.
Qed.

Lemma calculate_cohens_kappa_perfect_witness :
  calculate_cohens_kappa init
    (Some {| include_include := 75; include_exclude := 0;
             exclude_include := 0; exclude_exclude := 370 |})
  = Returns (1, "Almost perfect agreement"%string).
Proof.
  apply calculate_cohens_kappa_perfect;
    [unfold nonneg; simpl; lia | reflexivity | reflexivity | reflexivity].
Defined.

(** X5.  For a matrix of nonnegative cells with a positive total of at most
    [2 ^ 36], the kappa that [calculate_cohens_kappa] returns lies between
    [-1.0] and [1.0]. *)
Theorem calculate_cohens_kappa_range
  (self : PRISMAStudySelection) (cm : ConfusionMatrix) :
  nonneg cm -> (0 < total cm <= 2 ^ 36)%Z ->
  exists kappa interpretation,
    calculate_cohens_kappa self (Some cm) = Returns (kappa, interpretation)
    /\ -1 <= kappa <= 1.
Proof.
  intros Hc [Hn Hb].
  assert (Hb' : (total cm <= 2 ^ 48)%Z).
  { apply Z.le_trans with (1 := Hb). vm_compute. discriminate. }
  rewrite (calculate_cohens_kappa_double self cm Hc Hn).
  eexists. eexists. split; [reflexivity|].
  destruct (kappa_double_accuracy cm Hc Hn Hb') as [_ H2].
  pose proof (kappa_exact_range cm Hc Hn) as Hr.
  assert (Hq : inject_Z (total cm) <= 68719476736).
  { change 68719476736 with (inject_Z (2 ^ 36)). rewrite <- Zle_Qle. exact Hb. }
  apply Qabs_Qle_condition in H2.
  set (K := kappa_double cm) in *. clearbody K.
  set (k := kappa_exact cm) in *. clearbody k.
  set (n := inject_Z (total cm)) in *. clearbody n.
  unfold round. change (inject_Z (10 ^ Z.of_nat 3)) with 1000.
  assert (Hm : (-1000 <= ZnearestE (K * 1000) <= 1000)%Z).
  { split.
    - assert (E : ZnearestE (- (4001 # 4)) = (-1000)%Z) by (vm_compute; reflexivity).
      pose proof (ZnearestE_le (- (4001 # 4)) (K * 1000) ltac:(lra)) as L.
      rewrite E in L. exact L.
    - assert (E : ZnearestE (4001 # 4) = 1000%Z) by (vm_compute; reflexivity).
      pose proof (ZnearestE_le (K * 1000) (4001 # 4) ltac:(lra)) as L.
      rewrite E in L. exact L. }
  set (m := ZnearestE (K * 1000)) in *. clearbody m.
  destruct Hm as [Hm1 Hm2]. rewrite Zle_Qle in Hm1, Hm2.
  change (inject_Z (-1000)) with (-1000) in Hm1.
  change (inject_Z 1000) with 1000 in Hm2.
  assert (E : inject_Z m / 1000 == inject_Z m * (1 # 1000))
    by (unfold Qdiv; reflexivity).
  split.
  - apply rnd_lower; [vm_compute; reflexivity | rewrite E; lra].
  - apply rnd_upper; [vm_compute; reflexivity | rewrite E; lra].
Qed.

Lemma calculate_cohens_kappa_range_witness :
  exists kappa interpretation,
    calculate_cohens_kappa init (Some default_matrix)
    = Returns (kappa, interpretation)
    /\ -1 <= kappa <= 1.
Proof.
  apply calculate_cohens_kappa_range;
    [unfold nonneg; simpl; lia | vm_compute; split; congruence].
Defined.

(** X6.  The interpretation is the band of the unrounded double, so it is not
    determined by the kappa that is returned, nor by the textbook kappa: the
    tables (3, 0, 1, 8) and (4, 0, 1, 5) both have textbook kappa 4/5 and both
    return [0.8], the first with 'Substantial agreement' and the second with
    'Almost perfect agreement'. *)
Theorem interpretation_not_determined_by_kappa :
  exists (cm1 cm2 : ConfusionMatrix) (kappa : Q) (s1 s2 : string),
    nonneg cm1 /\ nonneg cm2 /\ (0 < total cm1)%Z /\ (0 < total cm2)%Z /\
    kappa_exact cm1 == 8 # 10 /\ kappa_exact cm2 == 8 # 10 /\
    calculate_cohens_kappa init (Some cm1) = Returns (kappa, s1) /\
    calculate_cohens_kappa init (Some cm2) = Returns (kappa, s2) /\
    s1 = "Substantial agreement"%string /\
    s2 = "Almost perfect agreement"%string.
Proof.
  exists Example.borderline_low, Example.borderline_high, (lit (8 # 10)),
    "Substantial agreement"%string, "Almost perfect agreement"%string.
  split; [unfold nonneg; simpl; lia|].
  split; [unfold nonneg; simpl; lia|].
  split; [reflexivity|]. split; [reflexivity|].
  split; [vm_compute; reflexivity|]. split; [vm_compute; reflexivity|].
  split; [vm_compute; reflexivity|]. split; [vm_compute; reflexivity|].
  split; reflexivity.
Qed.

(** X7.  [generate_inter_rater_statistics] returns without an exception; the
    confusion matrix it reports is the one [calculate_cohens_kappa] uses by
    default, so the reported kappa and interpretation are those of the
    reported matrix, the total is the sum of its cells, and the threshold of
    0.60 is met with confidence 'High'. *)
Theorem generate_inter_rater_statistics_consistent (self : PRISMAStudySelection) :
  exists stats,
    generate_inter_rater_statistics self = Returns stats
    /\ confusion_matrix stats = default_matrix
    /\ calculate_cohens_kappa self (Some (confusion_matrix stats))
       = Returns (cohens_kappa stats, interpretation stats)
    /\ total_assessed stats = total (confusion_matrix stats)
    /\ meets_threshold (quality_assessment stats) = true
    /\ confidence_level (quality_assessment stats) = "High"%string.
Proof.
  eexists. split; [vm_compute; reflexivity|].
  repeat split; vm_compute; reflexivity.
Qed.


(** X8.  [round((count / self.initial_records) * 100, 2)], the percentage
    column of the exclusion breakdown: with no initial records the division
    raises [ZeroDivisionError]; for a count between zero and a positive number
    of initial records the result is a number of hundredths between 0 and
    100. *)
Theorem percentage_of_initial_of_spec (self : PRISMAStudySelection) (count : Z) :
  (initial_records self = 0%Z ->
   percentage_of_initial_of self count = Raises ZeroDivisionError) /\
  ((0 < initial_records self)%Z -> (0 <= count <= initial_records self)%Z ->
   exists p m,
     percentage_of_initial_of self count = Returns p /\
     (0 <= m <= 10000)%Z /\ p = rnd (inject_Z m / 100) /\ 0 <= p <= 100).
Proof.
  unfold percentage_of_initial_of. split.
  - intros ->. rewrite int_truediv_zero, bind_Raises. reflexivity.
  - intros Hn Hc.
    rewrite (int_truediv_unit count (initial_records self) Hc Hn).
    rewrite bind_Returns.
    pose proof (unit_quotient count (initial_records self) Hc Hn) as Hr.
    set (x := rnd (inject_Z count / inject_Z (initial_records self))) in *.
    clearbody x.
    assert (Hp : 0 <= rnd (x * 100) <= 100).
    { split; [apply rnd_nonneg; lra|].
      apply rnd_upper; [vm_compute; reflexivity | lra]. }
    unfold fmul.
    rewrite (fin_bounded (rnd (x * 100)) 100)
      by (try reflexivity; apply Qabs_Qle_condition; lra).
    rewrite bind_Returns.
    set (y := rnd (x * 100)) in *. clearbody y.
    unfold round. change (inject_Z (10 ^ Z.of_nat 2)) with 100.
    assert (Hm : (0 <= ZnearestE (y * 100) <= 10000)%Z).
    { split.
      - pose proof (ZnearestE_le 0 (y * 100) ltac:(lra)) as L. exact L.
      - pose proof (ZnearestE_le (y * 100) (inject_Z 10000)
                      ltac:(change (inject_Z 10000) with 10000; lra)) as L.
        rewrite ZnearestE_Z in L. exact L. }
    exists (rnd (inject_Z (ZnearestE (y * 100)) / 100)), (ZnearestE (y * 100)).
    split; [reflexivity|]. split; [exact Hm|]. split; [reflexivity|].
    set (m := ZnearestE (y * 100)) in *. clearbody m.
    destruct Hm as [Hm1 Hm2]. rewrite Zle_Qle in Hm1, Hm2.
    change (inject_Z 0) with 0 in Hm1.
    change (inject_Z 10000) with 10000 in Hm2.
    assert (E : inject_Z m / 100 == inject_Z m * (1 # 100))
      by (unfold Qdiv; reflexivity).
    split.
    + apply rnd_nonneg. rewrite E. lra.
    + apply rnd_upper; [vm_compute; reflexivity | rewrite E; lra].
Qed.

Lemma percentage_of_initial_of_spec_witness :
  exists p m,
    percentage_of_initial_of init 10 = Returns p /\
    (0 <= m <= 10000)%Z /\ p = rnd (inject_Z m / 100) /\ 0 <= p <= 100.
Proof.
  apply (proj2 (percentage_of_initial_of_spec init 10));
    [reflexivity | vm_compute; split; congruence].
Defined.

(** X9.  The numbers shipped with the scripts close the flow: in
    prisma_study_methodology.py the records after title/abstract screening are
    the initial records less the exclusions, the final number is the assessed
    articles less the full-text exclusions, and the full-text reasons sum to
    the full-text exclusions; the same holds for the target numbers and the
    full-text reasons of prisma_config.py and for its custom example. *)
Theorem shipped_numbers_close_the_flow :
  (after_title_abstract init
   = initial_records init - title_abstract_excluded init)%Z /\
  (full_text_assessed init - full_text_excluded init = final_included init)%Z /\
  Selection.values_sum (full_text_exclusions init) = full_text_excluded init /\
  (Config.initial_records Config.target_numbers
   - Config.title_abstract_excluded Config.target_numbers
   - Config.full_text_excluded Config.target_numbers
   = Config.final_included Config.target_numbers)%Z /\
  Selection.values_sum Config.full_text_exclusions
  = Config.full_text_excluded Config.target_numbers /\
  (Config.initial_records Config.custom_target_numbers
   - Config.title_abstract_excluded Config.custom_target_numbers
   - Config.full_text_excluded Config.custom_target_numbers
   = Config.final_included Config.custom_target_numbers)%Z.
Proof. repeat split. Qed.

End MethodologyFacts.
Module ScreeningFacts.
Import Binary64 B64Facts Py PyFacts Rng Selection SelectionFacts FlowFacts.
Local Open Scope sel_scope.
Local Open Scope Z_scope.

(** *** Dictionaries *)

Lemma dict_mem_iff (k : string) (d : Dict) :
  dict_mem k d = true <-> In k (keys d).
Proof.
  induction d as [|[k' v] d IH]; simpl.
  - split; [discriminate | tauto].
  - destruct (String.eqb_spec k k') as [->|Hne].
    + split; auto.
    + rewrite IH. split; [auto | intros [E|H]; [congruence | exact H]].
Qed.

Lemma dict_set_fresh (k : string) (v : Z) (d : Dict) :
  dict_mem k d = false -> dict_set k v d = (d ++ [(k, v)])%list.
Proof.
  induction d as [|[k' v'] d IH]; simpl; [reflexivity|].
  destruct (String.eqb k k'); [discriminate|].
  intros H. rewrite (IH H). reflexivity.
Qed.

Lemma values_sum_app (d1 d2 : Dict) :
  values_sum (d1 ++ d2) = values_sum d1 + values_sum d2.
Proof.
  unfold values_sum. induction d1 as [|kv d1 IH]; simpl; [reflexivity|].
  rewrite IH. lia.
Qed.

Lemma keys_dict_set (k : string) (v : Z) (d : Dict) :
  incl (keys (dict_set k v d)) (k :: keys d) /\ In k (keys (dict_set k v d)).
Proof.
  induction d as [|[k' v'] d [IH1 IH2]]; simpl.
  - split; [intros x Hx; exact Hx | auto].
  - destruct (String.eqb_spec k k') as [->|Hne]; simpl.
    + split; [intros x Hx; right; exact Hx | auto].
    + split; [|auto].
      intros x [E|Hx]; [right; left; exact E|].
      destruct (IH1 x Hx) as [E|H]; [left; exact E | right; right; exact H].
Qed.

Lemma dict_add_present (k : string) (n : Z) (d : Dict) :
  In k (keys d) ->
  values_sum (dict_add k n d) = values_sum d + n /\
  keys (dict_add k n d) = keys d.
Proof.
  unfold values_sum.
  induction d as [|[k' v'] d IH]; simpl; [tauto|].
  intros H. destruct (String.eqb_spec k k') as [->|Hne]; simpl.
  - split; [lia | reflexivity].
  - destruct H as [E|H]; [congruence|].
    destruct (IH H) as [I1 I2]. rewrite I1, I2. split; [lia | reflexivity].
Qed.

Lemma values_sum_dict_set_zero (k : string) (d : Dict) :
  dict_mem k d = false -> values_sum (dict_set k 0 d) = values_sum d.
Proof.
  intros H. rewrite (dict_set_fresh k 0 d H), values_sum_app.
  unfold values_sum. simpl. lia.
Qed.

(** [if k not in d: d[k] = 0; d[k] += n] adds [n] to the total and at most the
    key [k] to the keys. *)
Lemma dict_count_spec (k : string) (n : Z) (d : Dict) :
  values_sum (dict_count k n d) = values_sum d + n /\
  incl (keys (dict_count k n d)) (k :: keys d) /\
  In k (keys (dict_count k n d)).
Proof.
  unfold dict_count. destruct (dict_mem k d) eqn:E.
  - apply dict_mem_iff in E. destruct (dict_add_present k n d E) as [H1 H2].
    rewrite H1, H2. split; [reflexivity|]. split; [|exact E].
    intros x Hx. right. exact Hx.
  - destruct (keys_dict_set k 0 d) as [K1 K2].
    destruct (dict_add_present k n (dict_set k 0 d) K2) as [H1 H2].
    rewrite H1, H2, (values_sum_dict_set_zero k d E).
    split; [reflexivity|]. split; assumption.
Qed.

(** *** The exclusion criteria *)

Lemma exclusion_loop_counts (rows : DataFrame) :
  forall acc reasons,
    values_sum (snd (exclusion_loop rows acc reasons))
    = values_sum reasons + Z.of_nat (List.length (filter excluded_row rows)) /\
    incl (keys (snd (exclusion_loop rows acc reasons)))
         (keys reasons ++ reasons_of rows).
Proof.
  unfold excluded_row.
  induction rows as [|[idx study] rows IH]; intros acc reasons.
  - simpl. split; [lia|]. rewrite app_nil_r. intros x Hx. exact Hx.
  - simpl. destruct (exclude_reason study) as [reason|] eqn:E.
    + cbn [snd app].
      destruct (IH (acc ++ [idx])%list (dict_count reason 1 reasons)) as [I1 I2].
      destruct (dict_count_spec reason 1 reasons) as (C1 & C2 & _).
      rewrite I1, C1. split; [simpl List.length; lia|].
      intros x Hx. apply I2 in Hx. apply in_app_or in Hx.
      apply in_or_app. destruct Hx as [Hx|Hx].
      * apply C2 in Hx. destruct Hx as [<-|Hx]; [right; left; reflexivity|].
        left. exact Hx.
      * right. right. exact Hx.
    + cbn [snd app]. apply IH.
Qed.

Lemma survivors_length (df : DataFrame) :
  len df = len (survivors df) + Z.of_nat (List.length (filter excluded_row df)).
Proof.
  unfold len, survivors, excluded_row.
  induction df as [|r df IH]; simpl; [reflexivity|].
  destruct (exclude_reason (snd r)); simpl List.length; lia.
Qed.

Lemma apply_exclusion_criteria_full (df : DataFrame) (w : World) :
  NoDup (index df) ->
  apply_exclusion_criteria df w
  = Returns ((survivors df, snd (exclusion_loop df [] [])), w).
Proof.
  intros Hnd. destruct (apply_exclusion_criteria_spec df w Hnd) as (reasons & E).
  rewrite E. unfold apply_exclusion_criteria in E.
  destruct (exclusion_loop df [] []) as [ex rs] eqn:El.
  unfold bindM in E. destruct (drop df ex w) as [[a w1]| |]; try discriminate.
  unfold ret in E. injection E as _ E2 _. subst. reflexivity.
Qed.




(** *** Sampling and dropping, again *)

Lemma mem_label_app (l : Z) (a b : list Z) :
  mem_label l (a ++ b) = mem_label l a || mem_label l b.
Proof. unfold mem_label. apply existsb_app. Qed.

Lemma filter_twice {A : Type} (f g : A -> bool) (l : list A) :
  filter f (filter g l) = filter (fun x => g x && f x) l.
Proof.
  induction l as [|x l IH]; simpl; [reflexivity|].
  destruct (g x); simpl; [destruct (f x); simpl; rewrite IH; reflexivity|].
  exact IH.
Qed.

Lemma without_app (a b : list Z) (df : DataFrame) :
  without b (without a df) = without (a ++ b) df.
Proof.
  unfold without. rewrite filter_twice. apply filter_ext. intros r.
  rewrite mem_label_app, negb_orb. reflexivity.
Qed.

Lemma without_index (labels : list Z) (df : DataFrame) (l : Z) :
  In l (index (without labels df)) -> In l (index df) /\ ~ In l labels.
Proof.
  unfold index, without. intros H. apply in_map_iff in H.
  destruct H as (r & <- & Hr). apply filter_In in Hr. destruct Hr as [H1 H2].
  split; [apply in_map; exact H1|].
  intros Hc. apply mem_label_iff in Hc. rewrite Hc in H2. discriminate.
Qed.

Lemma without_incl (labels : list Z) (df : DataFrame) : incl (without labels df) df.
Proof. intros x Hx. apply filter_In in Hx. tauto. Qed.

Lemma values_sum_nonneg (d : Dict) :
  (forall kv, In kv d -> 0 <= snd kv) -> 0 <= values_sum d.
Proof.
  unfold values_sum. induction d as [|kv d IH]; simpl; [lia|].
  intros H. assert (0 <= snd kv) by (apply H; auto).
  assert (0 <= fold_right (fun kv s => snd kv + s) 0 d) by (apply IH; auto).
  lia.
Qed.

Lemma title_abstract_loop_spec (eligible : DataFrame) :
  NoDup (index eligible) ->
  forall (reasons : Dict) (excluded : list Z) (counts : Dict)
         (remaining : DataFrame) (w : World),
    NoDup (keys reasons) ->
    (forall k, In k (keys reasons) -> ~ In k (keys counts)) ->
    (forall kv, In kv reasons -> 0 <= snd kv) ->
    loop_state eligible excluded counts remaining ->
    exists ex cs rem w',
      title_abstract_loop reasons excluded counts remaining w
      = Returns ((ex, cs, rem), w') /\
      loop_state eligible ex cs rem /\
      values_sum cs <= values_sum counts + values_sum reasons /\
      (values_sum reasons <= len remaining -> cs = (counts ++ reasons)%list).
Proof.
  intros Hnd reasons.
  induction reasons as [|[reason count] reasons IH];
    intros excluded counts remaining w Hk Hfresh Hpos Hst.
  - exists excluded, counts, remaining, w. simpl.
    split; [reflexivity|]. split; [exact Hst|].
    split; [unfold values_sum; simpl; lia|].
    intros _. rewrite app_nil_r. reflexivity.
  - assert (Hc : 0 <= count) by (apply (Hpos (reason, count)); left; reflexivity).
    assert (Hrest : 0 <= values_sum reasons)
      by (apply values_sum_nonneg; intros kv Hkv; apply Hpos; right; exact Hkv).
    assert (Hsum : values_sum ((reason, count) :: reasons)
                   = count + values_sum reasons) by reflexivity.
    apply NoDup_cons_iff in Hk. destruct Hk as [Hk1 Hk2].
    cbn [title_abstract_loop].
    destruct (Z.leb_spec count (len remaining)) as [Hle|Hgt].
    + destruct Hst as (Hrem & Hex1 & Hex2 & Hex3).
      assert (Hndr : NoDup (index remaining))
        by (rewrite Hrem; apply filter_index_NoDup; exact Hnd).
      destruct (sample_spec remaining count w ltac:(lia))
        as (s & w1 & Es & Hl & Hincl & Hnds).
      specialize (Hnds Hndr).
      rewrite (bindM_returns _ _ _ _ _ Es).
      rewrite (bindM_returns _ _ _ _ _
                 (drop_spec remaining (index s) w1 (incl_index _ _ Hincl))).
      fold (without (index s) remaining).
      assert (Hmem : dict_mem reason counts = false).
      { destruct (dict_mem reason counts) eqn:E; [|reflexivity].
        apply dict_mem_iff in E. exfalso. apply (Hfresh reason); [left; reflexivity|].
        exact E. }
      rewrite (dict_set_fresh reason count counts Hmem).
      assert (Hst' : loop_state eligible (excluded ++ index s)
                       (counts ++ [(reason, count)])
                       (without (index s) remaining)).
      { split; [rewrite Hrem; apply without_app|].
        split.
        { apply NoDup_app; [exact Hex1 | exact Hnds|].
          intros l Hl1 Hl2. apply (incl_index _ _ Hincl) in Hl2.
          rewrite Hrem in Hl2. apply without_index in Hl2. tauto. }
        split.
        { intros l Hl'. apply in_app_or in Hl'. destruct Hl' as [Hl'|Hl'].
          - apply Hex2. exact Hl'.
          - apply (incl_index _ _ Hincl) in Hl'. rewrite Hrem in Hl'.
            apply without_index in Hl'. tauto. }
        rewrite length_app, Nat2Z.inj_add, Hex3, values_sum_app, length_index.
        unfold len in Hl. rewrite Hl. unfold values_sum. simpl. lia. }
      assert (Hlen : len (without (index s) remaining) = len remaining - count).
      { unfold without. rewrite drop_length;
          [|exact Hndr|exact Hnds|apply incl_index; exact Hincl].
        rewrite length_index. unfold len in Hl. lia. }
      destruct (IH (excluded ++ index s)%list (counts ++ [(reason, count)])%list
                  (without (index s) remaining) w1 Hk2)
        as (ex & cs & rem & w' & E & Hst'' & Hs1 & Hs2).
      { intros k Hk Hin. unfold keys in Hin. rewrite map_app in Hin.
        apply in_app_or in Hin. destruct Hin as [Hin|Hin].
        - apply (Hfresh k); [right; exact Hk | exact Hin].
        - simpl in Hin. destruct Hin as [<-|[]]. contradiction. }
      { intros kv Hkv. apply Hpos. right. exact Hkv. }
      { exact Hst'. }
      exists ex, cs, rem, w'. split; [exact E|]. split; [exact Hst''|].
      split.
      * rewrite values_sum_app in Hs1. unfold values_sum in Hs1 at 3.
        simpl in Hs1. lia.
      * intros Hall. rewrite Hs2 by lia. rewrite <- app_assoc. reflexivity.
    + destruct (IH excluded counts remaining w Hk2)
        as (ex & cs & rem & w' & E & Hst'' & Hs1 & Hs2).
      { intros k Hk. apply Hfresh. right. exact Hk. }
      { intros kv Hkv. apply Hpos. right. exact Hkv. }
      { exact Hst. }
      exists ex, cs, rem, w'. split; [exact E|]. split; [exact Hst''|].
      split; [lia|]. intros Hall. lia.
Qed.


Lemma loop_state_initial (eligible : DataFrame) :
  loop_state eligible [] [] eligible.
Proof.
  split.
  - unfold without. symmetry. apply forallb_filter_id.
    apply forallb_forall. intros x _. reflexivity.
  - split; [constructor|]. split; [intros x []|reflexivity].
Qed.

Lemma without_length (eligible : DataFrame) (excluded : list Z) :
  NoDup (index eligible) -> NoDup excluded -> incl excluded (index eligible) ->
  len (without excluded eligible)
  = len eligible - Z.of_nat (List.length excluded).
Proof. intros. unfold without. apply drop_length; assumption. Qed.

Lemma title_abstract_screening_state (self : PRISMAStudySelection) (w : World) :
  NoDup (index (studies_df self)) ->
  NoDup (keys (title_abstract_exclusions self)) ->
  (forall kv, In kv (title_abstract_exclusions self) -> 0 <= snd kv) ->
  exists ex counts w',
    title_abstract_screening self w
    = Returns ((without ex (apply_inclusion_criteria (studies_df self)), counts),
               w') /\
    NoDup ex /\
    incl ex (index (apply_inclusion_criteria (studies_df self))) /\
    Z.of_nat (List.length ex) = values_sum counts /\
    values_sum counts <= values_sum (title_abstract_exclusions self) /\
    (values_sum (title_abstract_exclusions self)
     <= len (apply_inclusion_criteria (studies_df self)) ->
     counts = title_abstract_exclusions self).
Proof.
  intros Hnd Hk Hpos.
  set (eligible := apply_inclusion_criteria (studies_df self)).
  assert (Hnde : NoDup (index eligible))
    by (apply filter_index_NoDup; exact Hnd).
  destruct (title_abstract_loop_spec eligible Hnde
              (title_abstract_exclusions self) [] [] eligible w Hk
              ltac:(intros k _ [])
              Hpos (loop_state_initial eligible))
    as (ex & cs & rem & w' & E & (Hrem & Hex1 & Hex2 & Hex3) & Hs1 & Hs2).
  exists ex, cs, w'. split.
  { unfold title_abstract_screening. fold eligible.
    rewrite (bindM_returns _ _ _ _ _ E).
    rewrite (bindM_returns _ _ _ _ _ (drop_spec eligible ex w' Hex2)).
    reflexivity. }
  split; [exact Hex1|]. split; [exact Hex2|]. split; [exact Hex3|].
  split; [unfold values_sum in Hs1 at 2; simpl in Hs1; lia|].
  intros Hall. exact (Hs2 Hall).
Qed.




Lemma full_text_screening_state (self : PRISMAStudySelection)
  (df : DataFrame) (w : World) :
  NoDup (index df) -> 0 <= final_included self ->
  exists inc reasons w',
    full_text_screening self df w = Returns ((inc, reasons), w') /\
    NoDup (index inc) /\ incl inc (survivors df) /\
    len inc <= final_included self /\
    values_sum reasons = len df - len inc /\
    incl (keys reasons) ("methodological_overlap"%string :: reasons_of df) /\
    (len (survivors df) <= final_included self -> inc = survivors df /\ w' = w).
Proof.
  intros Hnd Htarget.
  pose proof (apply_exclusion_criteria_full df w Hnd) as E.
  destruct (exclusion_loop_counts df [] []) as [Hsum' Hkeys].
  set (reasons := snd (exclusion_loop df [] [])) in *. clearbody reasons.
  assert (Hsum : values_sum reasons = len df - len (survivors df)).
  { rewrite Hsum', (survivors_length df). unfold values_sum. simpl. lia. }
  simpl in Hkeys.
  assert (Hs : NoDup (index (survivors df)))
    by (apply filter_index_NoDup; exact Hnd).
  unfold full_text_screening.
  rewrite (bindM_returns _ _ _ _ _ E). cbv beta iota zeta.
  destruct (Z.ltb_spec (final_included self) (len (survivors df))) as [Hlt|Hge].
  - destruct (sample_spec (survivors df)
                (len (survivors df) - final_included self) w ltac:(lia))
      as (s & w' & Es & Hl & Hincl & Hnds).
    rewrite (bindM_returns _ _ _ _ _ Es).
    rewrite (bindM_returns _ _ _ _ _
               (drop_spec (survivors df) (index s) w' (incl_index _ _ Hincl))).
    fold (without (index s) (survivors df)).
    destruct (dict_count_spec "methodological_overlap"
                (len (survivors df) - final_included self) reasons)
      as (C1 & C2 & _).
    assert (Hlen : len (without (index s) (survivors df))
                   = final_included self).
    { rewrite without_length;
        [|exact Hs|apply Hnds; exact Hs|apply incl_index; exact Hincl].
      rewrite length_index. unfold len in *. lia. }
    eexists _, _, _. split; [reflexivity|].
    split; [apply filter_index_NoDup; exact Hs|].
    split; [apply without_incl|].
    split; [lia|].
    split; [rewrite C1, Hsum, Hlen; lia|].
    split; [|intros Hc; lia].
    intros x Hx. apply C2 in Hx. destruct Hx as [<-|Hx]; [left; reflexivity|].
    right. apply Hkeys. exact Hx.
  - eexists _, _, _. split; [reflexivity|].
    split; [exact Hs|]. split; [intros x Hx; exact Hx|].
    split; [lia|]. split; [exact Hsum|].
    split; [intros x Hx; right; apply Hkeys; exact Hx|].
    intros _. split; reflexivity.
Qed.



(** *** Criteria that the flow applies twice *)

Lemma inclusion_mask_fields (s : Study) :
  inclusion_mask s = true ->
  (has_gnn s || has_rnn s || has_attention s) = true /\ cardiac_focus s = true.
Proof.
  unfold inclusion_mask. cbv zeta. intros H.
  repeat (apply andb_prop in H; destruct H as [H ?]).
  split; assumption.
Qed.

Lemma exclude_reason_included (s : Study) (reason : string) :
  inclusion_mask s = true -> exclude_reason s = Some reason ->
  reason <> "insufficient_deep_learning"%string /\
  reason <> "non_cardiac_tissue"%string.
Proof.
  intros Hm. destruct (inclusion_mask_fields s Hm) as [H1 H2].
  unfold exclude_reason. rewrite H1, H2. cbn [negb].
  destruct (existsb _ _); [intros [= <-]; split; discriminate|].
  destruct (negb (has_spatial_resolution s)); [intros [= <-]; split; discriminate|].
  destruct (String.eqb _ _); [intros [= <-]; split; discriminate|].
  destruct (negb (has_empirical_data s)); [intros [= <-]; split; discriminate|].
  destruct (_ <? _); [intros [= <-]; split; discriminate|].
  discriminate.
Qed.

Lemma reasons_of_included (df : DataFrame) (reason : string) :
  (forall r, In r df -> inclusion_mask (snd r) = true) ->
  In reason (reasons_of df) ->
  reason <> "insufficient_deep_learning"%string /\
  reason <> "non_cardiac_tissue"%string.
Proof.
  intros Hall H. unfold reasons_of in H. apply in_flat_map in H.
  destruct H as (r & Hr & Hin).
  destruct (exclude_reason (snd r)) as [x|] eqn:E; [|destruct Hin].
  destruct Hin as [<-|[]].
  exact (exclude_reason_included (snd r) x (Hall r Hr) E).
Qed.


(** *** The whole flow *)

Lemma generate_prisma_flow_data_steps (self : PRISMAStudySelection)
  (w w1 w2 w3 : World) (after fin : DataFrame) (te fe : Dict) (kappa : Q) :
  title_abstract_screening self w = Returns ((after, te), w1) ->
  full_text_screening self after w1 = Returns ((fin, fe), w2) ->
  calculate_inter_rater_agreement w2 = Returns (kappa, w3) ->
  generate_prisma_flow_data self w
  = Returns (flow_of self after te fin fe kappa, w3).
Proof.
  intros E1 E2 E3. unfold generate_prisma_flow_data.
  rewrite (bindM_returns _ _ _ _ _ E1). cbv beta iota.
  rewrite (bindM_returns _ _ _ _ _ E2). cbv beta iota.
  rewrite (bindM_returns _ _ _ _ _ E3). reflexivity.
Qed.

Lemma not_in_keys (k : string) (d : Dict) :
  ~ In k (keys d) -> dict_mem k d = false.
Proof.
  intros H. destruct (dict_mem k d) eqn:E; [|reflexivity].
  apply dict_mem_iff in E. contradiction.
Qed.

Lemma generate_prisma_flow_data_state (self : PRISMAStudySelection)
  (w : World) :
  NoDup (index (studies_df self)) ->
  NoDup (keys (title_abstract_exclusions self)) ->
  (forall kv, In kv (title_abstract_exclusions self) -> 0 <= snd kv) ->
  0 <= final_included self ->
  exists after te fin fe kappa w',
    generate_prisma_flow_data self w
    = Returns (flow_of self after te fin fe kappa, w') /\
    py_random w' = snd (next (py_random w)) /\
    incl after (apply_inclusion_criteria (studies_df self)) /\
    len after
    = len (apply_inclusion_criteria (studies_df self)) - values_sum te /\
    values_sum te <= values_sum (title_abstract_exclusions self) /\
    len fin <= final_included self /\
    values_sum fe = len after - len fin /\
    incl (keys fe) ("methodological_overlap"%string :: reasons_of after).
Proof.
  intros Hnd Hk Hpos Htarget.
  destruct (title_abstract_screening_state self w Hnd Hk Hpos)
    as (ex & te & w1 & E1 & Hex1 & Hex2 & Hex3 & S1 & _).
  set (eligible := apply_inclusion_criteria (studies_df self)) in *.
  assert (Hnde : NoDup (index eligible))
    by (apply filter_index_NoDup; exact Hnd).
  assert (N1 : NoDup (index (without ex eligible)))
    by (apply filter_index_NoDup; exact Hnde).
  pose proof (without_length eligible ex Hnde Hex1 Hex2) as L1.
  pose proof (preserves_py_title_abstract_screening self w _ w1 E1) as P1.
  destruct (full_text_screening_state self (without ex eligible) w1 N1 Htarget)
    as (fin & fe & w2 & E2 & N2 & I2 & L2 & S2 & K2 & _).
  pose proof (preserves_py_full_text_screening self _ w1 _ w2 E2) as P2.
  destruct (calculate_inter_rater_agreement_spec w2) as (kappa & _ & E3 & _).
  exists (without ex eligible), te, fin, fe, kappa. eexists.
  split; [exact (generate_prisma_flow_data_steps _ _ _ _ _ _ _ _ _ _ E1 E2 E3)|].
  cbn [py_random].
  split; [rewrite P2, P1; reflexivity|].
  split; [apply without_incl|].
  split; [lia|]. split; [exact S1|]. split; [exact L2|].
  split; [exact S2 | exact K2].
Qed.

(** X13.  [generate_prisma_flow_data] on an instance whose studies have
    distinct labels, whose exclusion table has distinct reasons and
    nonnegative counts and whose target is nonnegative: it returns a flow
    dictionary, having taken exactly one draw from the [random] generator (the
    kappa).  In that dictionary the records 'eligible for screening' are the
    studies that pass the inclusion criteria, the full-text reason counts sum
    to the full-text exclusions, the final synthesis does not exceed the
    target, and the reasons 'insufficient_deep_learning' and
    'non_cardiac_tissue' never occur at full text, because the inclusion
    criteria have already removed such studies. *)
Theorem generate_prisma_flow_data_total (self : PRISMAStudySelection)
  (w : World) :
  NoDup (index (studies_df self)) ->
  NoDup (keys (title_abstract_exclusions self)) ->
  (forall kv, In kv (title_abstract_exclusions self) -> 0 <= snd kv) ->
  0 <= final_included self ->
  exists d w',
    generate_prisma_flow_data self w = Returns (d, w') /\
    py_random w' = snd (next (py_random w)) /\
    id_initial_records (identification d) = initial_records self /\
    eligible_for_screening (title_abstract d)
    = len (apply_inclusion_criteria (studies_df self)) /\
    ta_excluded (title_abstract d)
    <= values_sum (title_abstract_exclusions self) /\
    values_sum (ft_exclusion_reasons (full_text_assessment d))
    = ft_excluded (full_text_assessment d) /\
    final_synthesis (inclusion d) <= final_included self /\
    dict_mem "insufficient_deep_learning"
      (ft_exclusion_reasons (full_text_assessment d)) = false /\
    dict_mem "non_cardiac_tissue"
      (ft_exclusion_reasons (full_text_assessment d)) = false.
Proof.
  intros Hnd Hk Hpos Htarget.
  destruct (generate_prisma_flow_data_state self w Hnd Hk Hpos Htarget)
    as (after & te & fin & fe & kappa & w' & E & P & I1 & L1 & S1 & L2 & S2 & K2).
  exists (flow_of self after te fin fe kappa), w'.
  split; [exact E|].
  cbn [flow_of identification title_abstract full_text_assessment
       inclusion id_initial_records eligible_for_screening ta_excluded
       ft_exclusion_reasons ft_excluded final_synthesis].
  split; [exact P|]. split; [reflexivity|].
  split; [lia|]. split; [exact S1|]. split; [exact S2|]. split; [exact L2|].
  assert (Hall : forall r, In r after -> inclusion_mask (snd r) = true).
  { intros r Hr. apply I1 in Hr. unfold apply_inclusion_criteria in Hr.
    apply filter_In in Hr. tauto. }
  split; apply not_in_keys; intros Hin; apply K2 in Hin;
    (destruct Hin as [Hin|Hin]; [discriminate Hin|]);
    destruct (reasons_of_included _ _ Hall Hin) as [A B]; congruence.
Qed.

Lemma generate_prisma_flow_data_total_witness :
  exists d w',
    generate_prisma_flow_data Example.small_instance Example.fresh
    = Returns (d, w') /\
    py_random w' = snd (next (py_random Example.fresh)) /\
    values_sum (ft_exclusion_reasons (full_text_assessment d))
    = ft_excluded (full_text_assessment d).
Proof.
  assert (Hnd : NoDup (index (studies_df Example.small_instance))).
  { vm_compute. repeat constructor; simpl; intuition discriminate. }
  assert (Hk : NoDup (keys (title_abstract_exclusions Example.small_instance))).
  { vm_compute. repeat constructor; simpl; intuition discriminate. }
  assert (Hpos : forall kv,
             In kv (title_abstract_exclusions Example.small_instance) ->
             0 <= snd kv).
  { intros kv H. vm_compute in H.
    repeat (destruct H as [<-|H]; [vm_compute; discriminate|]). destruct H. }
  destruct (generate_prisma_flow_data_total Example.small_instance
              Example.fresh Hnd Hk Hpos ltac:(vm_compute; discriminate))
    as (d & w' & H1 & H2 & _ & _ & _ & H6 & _).
  exists d, w'. repeat split; assumption.
Defined.

End ScreeningFacts.
Module GenerationFacts.
Import Binary64 B64Facts Py PyFacts Rng Selection SelectionFacts FlowFacts
  ScreeningFacts.
Local Open Scope sel_scope.
Local Open Scope Z_scope.

Lemma drawn_drawn (a b : nat) (w : World) :
  drawn a (drawn b w) = drawn (a + b) w.
Proof.
  unfold drawn, advance. cbn [py_random np_random draws cursor].
  rewrite Nat.add_assoc. reflexivity.
Qed.

Lemma drawn_zero (w : World) : drawn 0 w = w.
Proof. destruct w as [[d c] n]. reflexivity. Qed.

Lemma draw_decode {A B : Type} (f : Z -> A) (k : A -> M B) (w : World) :
  bindM (bindM py_draw (fun z => ret (f z))) k w
  = k (f (draws (py_random w) (cursor (py_random w)))) (drawn 1 w).
Proof. reflexivity. Qed.

Lemma pick_eq {A : Type} (hq : bool) (pop : list A) (weights : list Q)
  (default : A) :
  pick hq pop weights default
  = bindM py_draw (fun z => ret (pick_decode hq pop weights default z)).
Proof. destruct hq; reflexivity. Qed.

Lemma decode_randint_range (a b z : Z) :
  a <= b -> a <= decode_randint a b z <= b.
Proof.
  intros H. unfold decode_randint.
  pose proof (Z.mod_pos_bound z (b - a + 1) ltac:(lia)). lia.
Qed.

Lemma decode_choice_In {A : Type} (seq : list A) (default : A) (z : Z) :
  seq <> [] -> In (decode_choice seq default z) seq.
Proof.
  intros H. unfold decode_choice. apply nth_In.
  assert (0 < List.length seq)%nat by (destruct seq; [congruence | simpl; lia]).
  pose proof (Z.mod_pos_bound z (Z.of_nat (List.length seq)) ltac:(lia)). lia.
Qed.

Lemma bisect_le (a : list Q) (x : Q) (hi : nat) : (bisect a x hi <= hi)%nat.
Proof.
  revert a. induction hi as [|hi IH]; intros a.
  - destruct a; simpl; lia.
  - destruct a as [|y ys]; simpl; [lia|].
    destruct (Qlt_bool x y); [lia|]. specialize (IH ys). lia.
Qed.

Lemma decode_choices_In {A : Type} (pop : list A) (weights : list Q)
  (default : A) (z : Z) :
  pop <> [] -> In (decode_choices pop weights default z) pop.
Proof.
  intros H. unfold decode_choices. cbv zeta. apply nth_In.
  assert (0 < List.length pop)%nat by (destruct pop; [congruence | simpl; lia]).
  match goal with |- (bisect ?a ?x ?hi < _)%nat =>
    pose proof (bisect_le a x hi) end.
  lia.
Qed.

Lemma pick_decode_In {A : Type} (hq : bool) (pop : list A) (weights : list Q)
  (default : A) (z : Z) :
  pop <> [] -> In (pick_decode hq pop weights default z) pop.
Proof.
  intros H. unfold pick_decode.
  destruct (negb hq); [apply decode_choice_In | apply decode_choices_In]; exact H.
Qed.

Lemma generate_study_spec (target_qualified i : Z) (w : World) :
  exists study,
    generate_study target_qualified i w = Returns (study, drawn 15 w) /\
    generated_row (i, study).
Proof.
  unfold generate_study. cbv beta zeta.
  unfold randint, choice. rewrite !pick_eq.
  do 15 rewrite draw_decode.
  rewrite !drawn_drawn. cbn [Nat.add].
  eexists. split; [reflexivity|].
  unfold generated_row.
  cbn [fst snd study_no year journal language publication_type
       methodology_detail sample_size].
  split; [reflexivity|].
  split; [apply decode_randint_range; lia|].
  split; [apply decode_choice_In; discriminate|].
  split; [apply pick_decode_In; discriminate|].
  split; [apply pick_decode_In; discriminate|].
  split; [apply pick_decode_In; discriminate|].
  apply decode_randint_range; lia.
Qed.

Lemma labels_from_In (l : Z) (k : nat) :
  forall i, In l (labels_from i k) <-> i <= l < i + Z.of_nat k.
Proof.
  induction k as [|k IH]; intros i; simpl labels_from.
  - simpl. lia.
  - simpl In. rewrite IH. lia.
Qed.

Lemma labels_from_NoDup (k : nat) : forall i, NoDup (labels_from i k).
Proof.
  induction k as [|k IH]; intros i; simpl; constructor.
  - rewrite labels_from_In. lia.
  - apply IH.
Qed.

Lemma labels_from_length (k : nat) :
  forall i, List.length (labels_from i k) = k.
Proof. induction k as [|k IH]; intros i; simpl; [reflexivity|]. rewrite IH. reflexivity. Qed.

Lemma generate_from_spec (target_qualified : Z) (k : nat) :
  forall (i : Z) (w : World),
    exists df,
      generate_from target_qualified i k w = Returns (df, drawn (15 * k) w) /\
      index df = labels_from i k /\
      Forall generated_row df.
Proof.
  induction k as [|k IH]; intros i w.
  - exists []. cbn [generate_from]. unfold ret.
    rewrite Nat.mul_0_r, drawn_zero. repeat split. constructor.
  - destruct (generate_study_spec target_qualified i w) as (study & Es & Hs).
    destruct (IH (i + 1) (drawn 15 w)) as (rest & Er & Hi & Hf).
    exists ((i, study) :: rest). cbn [generate_from].
    rewrite (bindM_returns _ _ _ _ _ Es).
    rewrite (bindM_returns _ _ _ _ _ Er).
    unfold ret. rewrite drawn_drawn.
    replace (15 * k + 15)%nat with (15 * S k)%nat by lia.
    split; [reflexivity|]. split.
    + unfold index in *. simpl. rewrite Hi. reflexivity.
    + constructor; assumption.
Qed.

(** X14.  [_generate_synthetic_studies] never raises and returns one row for
    each of the [initial_records], labelled [0, 1, ...] in order (so the
    labels are distinct), having taken fifteen draws per row from the
    [random] generator and none from numpy.  In every row the study number is
    the label plus one, the year is between 2019 and 2025, the sample size
    between 10 and 1000, and the journal, language, publication type and
    methodology detail are among the values listed in the code. *)
Theorem generate_synthetic_studies_spec (initial_records final_included : Z)
  (w : World) :
  exists df,
    _generate_synthetic_studies initial_records final_included w
    = Returns (df, drawn (15 * Z.to_nat initial_records) w) /\
    len df = Z.max 0 initial_records /\
    index df = labels_from 0 (Z.to_nat initial_records) /\
    NoDup (index df) /\
    Forall generated_row df.
Proof.
  unfold _generate_synthetic_studies. cbv zeta.
  destruct (generate_from_spec (final_included + 50)
              (Z.to_nat initial_records) 0 w) as (df & E & Hi & Hf).
  exists df. split; [exact E|].
  split.
  { unfold len. rewrite <- (length_index df), Hi, labels_from_length. lia. }
  split; [exact Hi|]. split; [rewrite Hi; apply labels_from_NoDup | exact Hf].
Qed.






End GenerationFacts.
Module CrossScriptFacts.
Import Binary64 B64Facts Py PyFacts Rng Selection SelectionFacts FlowFacts
  ScreeningFacts GenerationFacts.
Local Open Scope Z_scope.

Lemma literal_08 : lit (8 # 10) = lit (80 # 100).
Proof. vm_compute. reflexivity. Qed.

(** X16.  The two scripts never give the same name to a simulated kappa.  For
    the kappa of a flow dictionary, always between 0.75 and 0.95,
    prisma_study_selection.py says 'Moderate agreement' up to 0.8 and
    'Substantial agreement' above, where the Landis and Koch bands of
    [calculate_cohens_kappa] in prisma_study_methodology.py say 'Substantial
    agreement' below 0.8 and 'Almost perfect agreement' from 0.8 on. *)
Theorem flow_interpretation_differs (self : PRISMAStudySelection)
  (w w' : World) (d : PrismaData) :
  generate_prisma_flow_data self w = Returns (d, w') ->
  interpretation (inter_rater_agreement d)
  <> Methodology.interpret (cohens_kappa (inter_rater_agreement d)) /\
  ((cohens_kappa (inter_rater_agreement d) < lit (80 # 100) /\
    interpretation (inter_rater_agreement d) = "Moderate agreement"%string /\
    Methodology.interpret (cohens_kappa (inter_rater_agreement d))
    = "Substantial agreement"%string) \/
   (cohens_kappa (inter_rater_agreement d) == lit (80 # 100) /\
    interpretation (inter_rater_agreement d) = "Moderate agreement"%string /\
    Methodology.interpret (cohens_kappa (inter_rater_agreement d))
    = "Almost perfect agreement"%string) \/
   (lit (80 # 100) < cohens_kappa (inter_rater_agreement d) /\
    interpretation (inter_rater_agreement d) = "Substantial agreement"%string /\
    Methodology.interpret (cohens_kappa (inter_rater_agreement d))
    = "Almost perfect agreement"%string))%Q.
Proof.
  intros H. apply generate_prisma_flow_data_inv in H.
  destruct H as (after & te & w1 & fin & fe & w2 & kappa & _ & _ & H3 & ->).
  destruct (calculate_inter_rater_agreement_spec w2) as (k & _ & Ec & (Hr & _)).
  rewrite Ec in H3. injection H3 as <- _.
  cbn [flow_of inter_rater_agreement interpretation cohens_kappa].
  rewrite literal_08.
  destruct (KappaAccuracy.interpret_bands k) as (_ & _ & _ & _ & B8 & B9).
  destruct KappaAccuracy.band_literals as (_ & _ & _ & L6 & L8).
  set (t6 := lit (60 # 100)) in *. set (t8 := lit (80 # 100)) in *.
  clearbody t6 t8.
  assert (D : (k < t8 \/ k == t8 \/ t8 < k)%Q).
  { destruct (Qlt_le_dec k t8) as [A|A]; [left; exact A|].
    destruct (Qlt_le_dec t8 k) as [A'|A']; [right; right; exact A'|].
    right; left. lra. }
  destruct D as [D|[D|D]].
  - rewrite (KappaAccuracy.Qlt_bool_false t8 k) by lra.
    rewrite B8 by lra. split; [discriminate|]. left. repeat split. exact D.
  - rewrite (KappaAccuracy.Qlt_bool_false t8 k) by lra.
    rewrite B9 by lra. split; [discriminate|]. right; left. repeat split. exact D.
  - rewrite (KappaAccuracy.Qlt_bool_true t8 k) by lra.
    rewrite B9 by lra. split; [discriminate|]. right; right. repeat split. exact D.
Qed.

Lemma flow_interpretation_differs_witness :
  exists d w',
    generate_prisma_flow_data Example.small_instance Example.fresh
    = Returns (d, w') /\
    interpretation (inter_rater_agreement d)
    <> Methodology.interpret (cohens_kappa (inter_rater_agreement d)).
Proof.
  destruct (returns_elim (generate_prisma_flow_data Example.small_instance
                            Example.fresh)) as ([d w'] & E);
    [vm_compute; exact I|].
  exists d, w'. split; [exact E|].
  exact (proj1 (flow_interpretation_differs Example.small_instance
                  Example.fresh w' d E)).
Defined.

(** *** scripts/prisma_runner.py *)



End CrossScriptFacts.
Module ScriptFacts.
Import Console ConsoleFacts.
Local Open Scope io_scope.
Local Open Scope string_scope.
Local Open Scope list_scope.

Lemma fst_bind_written {B : Type} (x : option exc) (k : unit -> IO B) :
  x = None -> fst (bind (of_option x) k) = fst (k tt).
Proof. intros ->. apply (fst_bind_ok (of_option None) k tt). reflexivity. Qed.

Lemma fst_bind_loaded {A B : Type} (x : exc + A) (a : A) (k : A -> IO B) :
  x = inr a -> fst (bind (of_sum x) k) = fst (k a).
Proof. intros ->. apply (fst_bind_ok (of_sum (inr a)) k a). reflexivity. Qed.

Lemma fst_try_except_import_other {A : Type} (e : exc) (out : list string)
  (handler : IO A) :
  cls e <> ImportError ->
  fst (try_except_import (Raised e, out) handler) = Raised e.
Proof.
  intros H. destruct e as [c msg]. simpl in H.
  destruct c; try reflexivity. contradiction.
Qed.

Lemma fst_try_except_import_caught {A : Type} (e : exc) (out : list string)
  (handler : IO A) :
  cls e = ImportError ->
  fst (try_except_import (Raised e, out) handler) = fst handler.
Proof.
  intros H. destruct e as [c msg]. simpl in H. subst c.
  unfold try_except_import. destruct handler. reflexivity.
Qed.

(** The export up to the Excel file, on a console that accepts every line. *)
Lemma create_up_to_excel (env : Env) (df : Table) :
  accepts_all env ->
  read_csv env original_file "," = inr df ->
  write_file env output_file_1 = None ->
  write_file env output_file_2 = None ->
  exists rest : unit -> IO string,
    fst (create_properly_formatted_csv env)
    = fst (bind (try_except_import
                   (bind (of_option (to_excel env 0 output_file_3))
                      (fun _ => print env excel_created))
                   (bind (print env "⚠ Excel export requires openpyxl. Installing...")
                      (fun _ => bind (of_option (pip_install env))
                      (fun _ => bind (of_option (to_excel env 1 output_file_3))
                      (fun _ => print env excel_created)))))
            rest).
Proof.
  intros Hall Hread H1 H2. unfold create_properly_formatted_csv.
  rewrite fst_bind_print by apply Hall.
  rewrite (fst_bind_loaded _ df _ Hread).
  do 3 rewrite fst_bind_print by apply Hall.
  rewrite (fst_bind_written _ _ H1).
  rewrite fst_bind_print by apply Hall.
  rewrite (fst_bind_written _ _ H2).
  rewrite fst_bind_print by apply Hall.
  eexists. reflexivity.
Qed.

(** X18.  The Excel export of [create_properly_formatted_csv] falls back on
    installing openpyxl only for an [ImportError]: any other exception of the
    first [to_excel] leaves the function, and after an [ImportError] so does a
    failure of the installation or of the second [to_excel]. *)
Theorem excel_export_fallback (env : Env) (df : Table) (e e' : exc) :
  accepts_all env ->
  read_csv env original_file "," = inr df ->
  write_file env output_file_1 = None ->
  write_file env output_file_2 = None ->
  to_excel env 0 output_file_3 = Some e ->
  (cls e <> ImportError -> fst (create_properly_formatted_csv env) = Raised e) /\
  (cls e = ImportError -> pip_install env = Some e' ->
   fst (create_properly_formatted_csv env) = Raised e') /\
  (cls e = ImportError -> pip_install env = None ->
   to_excel env 1 output_file_3 = Some e' ->
   fst (create_properly_formatted_csv env) = Raised e').
Proof.
  intros Hall Hread H1 H2 Hx.
  destruct (create_up_to_excel env df Hall Hread H1 H2) as (rest & E).
  rewrite E. rewrite Hx.
  assert (B : bind (of_option (Some e)) (fun _ => print env excel_created)
              = (Raised e, [])) by reflexivity.
  rewrite B.
  split; [|split].
  - intros Hc. apply fst_bind_raised.
    apply fst_try_except_import_other. exact Hc.
  - intros Hc Hp. apply fst_bind_raised.
    rewrite (fst_try_except_import_caught e _ _ Hc).
    rewrite fst_bind_print by apply Hall.
    rewrite Hp. reflexivity.
  - intros Hc Hp Hx'. apply fst_bind_raised.
    rewrite (fst_try_except_import_caught e _ _ Hc).
    rewrite fst_bind_print by apply Hall.
    rewrite (fst_bind_written _ _ Hp).
    rewrite Hx'. reflexivity.
Qed.

Lemma excel_export_fallback_witness :
  fst (create_properly_formatted_csv Example.no_excel) = Raised Example.read_only.
Proof.
  refine (proj1 (excel_export_fallback Example.no_excel Example.small_table
                   Example.read_only Example.read_only _ eq_refl eq_refl
                   eq_refl eq_refl) _).
  - intros s. reflexivity.
  - discriminate.
Defined.

(** *** The verification never aborts the export *)

Lemma check_file_ok (env : Env) (file_name : string) :
  accepts_all env -> fst (check_file env file_name) = Ok tt.
Proof.
  intros Hall. unfold check_file.
  rewrite fst_bind_print by apply Hall.
  apply try_except_ok. intros e.
  rewrite (print_accepted env _ (Hall _)). reflexivity.
Qed.

Lemma display_csv_structure_ok (env : Env) (filename : string) :
  accepts_all env -> fst (display_csv_structure env filename) = Ok tt.
Proof.
  intros Hall. unfold display_csv_structure.
  do 3 rewrite fst_bind_print by apply Hall.
  apply try_except_ok. intros e.
  rewrite (print_accepted env _ (Hall _)). reflexivity.
Qed.

Lemma create_properly_formatted_csv_ok (env : Env) (df : Table) :
  accepts_all env ->
  read_csv env original_file "," = inr df ->
  write_file env output_file_1 = None ->
  write_file env output_file_2 = None ->
  to_excel env 0 output_file_3 = None ->
  write_file env output_file_4 = None ->
  write_file env output_file_5 = None ->
  fst (create_properly_formatted_csv env) = Ok output_file_1.
Proof.
  intros Hall Hread H1 H2 Hx H4 H5. unfold create_properly_formatted_csv.
  rewrite fst_bind_print by apply Hall.
  rewrite (fst_bind_loaded _ df _ Hread).
  do 3 rewrite fst_bind_print by apply Hall.
  rewrite (fst_bind_written _ _ H1).
  rewrite fst_bind_print by apply Hall.
  rewrite (fst_bind_written _ _ H2).
  rewrite fst_bind_print by apply Hall.
  rewrite Hx.
  assert (B : forall h : IO unit,
             fst (try_except_import
                    (bind (of_option None) (fun _ => print env excel_created)) h)
             = Ok tt).
  { intros h. cbn [of_option pure bind].
    rewrite (print_accepted env _ (Hall _)). reflexivity. }
  rewrite (fst_bind_ok _ _ tt (B _)).
  rewrite fst_bind_print by apply Hall.
  rewrite (fst_bind_written _ _ H4).
  rewrite fst_bind_print by apply Hall.
  rewrite (fst_bind_written _ _ H5).
  do 3 rewrite fst_bind_print by apply Hall.
  rewrite (fst_bind_ok _ _ tt
             (for_each_ok _ _ (fun f => check_file_ok env f Hall))).
  repeat rewrite fst_bind_print by apply Hall.
  reflexivity.
Qed.

(** X19.  Once the original file is read and the five exports are written, on
    a console that accepts every line, [main] of fix_csv_formatting.py
    completes normally, whatever happens when the written files are read
    back: the handlers of the verification loop and of
    [display_csv_structure] catch every failure of those reads. *)
Theorem fix_csv_formatting_main_completes (env : Env) (df : Table) :
  accepts_all env ->
  read_csv env original_file "," = inr df ->
  write_file env output_file_1 = None ->
  write_file env output_file_2 = None ->
  to_excel env 0 output_file_3 = None ->
  write_file env output_file_4 = None ->
  write_file env output_file_5 = None ->
  fst (create_properly_formatted_csv env) = Ok output_file_1 /\
  (forall file_name, fst (check_file env file_name) = Ok tt) /\
  fst (display_csv_structure env output_file_1) = Ok tt /\
  fst (fix_csv_formatting_main env) = Ok tt.
Proof.
  intros Hall Hread H1 H2 Hx H4 H5.
  pose proof (create_properly_formatted_csv_ok env df Hall Hread H1 H2 Hx H4 H5)
    as Hc.
  split; [exact Hc|].
  split; [intros f; apply check_file_ok; exact Hall|].
  split; [apply display_csv_structure_ok; exact Hall|].
  unfold fix_csv_formatting_main.
  do 2 rewrite fst_bind_print by apply Hall.
  rewrite (fst_bind_ok _ _ output_file_1 Hc).
  rewrite (fst_bind_ok _ _ tt (display_csv_structure_ok env _ Hall)).
  repeat rewrite fst_bind_print by apply Hall.
  rewrite (print_accepted env _ (Hall _)). reflexivity.
Qed.

Lemma fix_csv_formatting_main_completes_witness :
  fst (fix_csv_formatting_main Example.loading_env) = Ok tt.
Proof.
  refine (proj2 (proj2 (proj2
            (fix_csv_formatting_main_completes Example.loading_env
               Example.small_table _ eq_refl eq_refl eq_refl eq_refl eq_refl
               eq_refl)))).
  intros s. reflexivity.
Defined.

(** *** A table without rows *)

Lemma snd_bind_ok {A B : Type} (m : IO A) (k : A -> IO B) (a : A) :
  fst m = Ok a -> snd (bind m k) = snd m ++ snd (k a).
Proof.
  destruct m as [r out]. simpl. intros ->. unfold bind. destruct (k a). reflexivity.
Qed.

Lemma snd_bind_raised {A B : Type} (m : IO A) (k : A -> IO B) (e : exc) :
  fst m = Raised e -> snd (bind m k) = snd m.
Proof. destruct m as [r out]. simpl. intros ->. reflexivity. Qed.

Lemma try_except_raised {A : Type} (body : IO A) (handler : exc -> IO A) (e : exc) :
  fst body = Raised e ->
  try_except body handler = (fst (handler e), snd body ++ snd (handler e)).
Proof.
  destruct body as [r out]. simpl. intros ->. unfold try_except.
  destruct (handler e). reflexivity.
Qed.

Lemma for_each_prints {A : Type} (env : Env) (f : A -> string) (l : list A) :
  accepts_all env ->
  for_each l (fun x => print env (f x)) = (Ok tt, map f l).
Proof.
  intros Hall. induction l as [|x l IH]; [reflexivity|].
  cbn [for_each map]. rewrite (print_accepted env _ (Hall _)).
  rewrite IH. reflexivity.
Qed.

(** X20.  [display_csv_structure] on a file that loads as a table without
    data rows: [df.iloc[0]] raises [IndexError], the handler catches it, and
    on a console that accepts every line the function returns normally, its
    last lines being the heading 'First row data:' and 'Error analyzing
    <file>: single positional indexer is out-of-bounds'; the raw file content
    is never shown. *)
Theorem display_csv_structure_empty (env : Env) (filename : string) (df : Table) :
  accepts_all env ->
  read_csv env filename "," = inr df ->
  rows df = [] ->
  exists before,
    display_csv_structure env filename
    = (Ok tt,
       before ++ [ nl +++ "First row data:";
                   "Error analyzing " +++ filename
                   +++ ": single positional indexer is out-of-bounds" ]).
Proof.
  intros Hall Hread Hrows.
  pose (lines := fun col => "    " +++ col +++ ": " +++ str (missing_count df col)).
  assert (Hloop : for_each (columns df) (fun col => print env (lines col))
                  = (Ok tt, map lines (columns df)))
    by (apply for_each_prints; exact Hall).
  assert (Hidx : fst (iloc0 df)
                 = Raised {| cls := IndexError;
                             message := "single positional indexer is out-of-bounds" |})
    by (unfold iloc0; rewrite Hrows; reflexivity).
  assert (Hidx' : snd (iloc0 df) = [])
    by (unfold iloc0; rewrite Hrows; reflexivity).
  rewrite (surjective_pairing (display_csv_structure env filename)).
  unfold display_csv_structure.
  do 3 rewrite fst_bind_print by apply Hall.
  do 3 rewrite snd_bind_print by apply Hall.
  rewrite Hread.
  match goal with
  | |- context [try_except ?b ?h] =>
      assert (Hf : fst b = Raised {| cls := IndexError;
                     message := "single positional indexer is out-of-bounds" |});
      [| assert (Hs : exists pre, snd b = pre ++ [nl +++ "First row data:"]) ]
  end.
  - rewrite (fst_bind_ok (of_sum (inr df)) _ df eq_refl).
    do 6 rewrite fst_bind_print by apply Hall.
    fold lines. rewrite (fst_bind_ok _ _ tt (f_equal fst Hloop)).
    rewrite fst_bind_print by apply Hall.
    apply fst_bind_raised. exact Hidx.
  - rewrite (snd_bind_ok (of_sum (inr df)) _ df eq_refl).
    do 6 rewrite snd_bind_print by apply Hall.
    fold lines. rewrite (snd_bind_ok _ _ tt (f_equal fst Hloop)).
    rewrite snd_bind_print by apply Hall.
    rewrite (snd_bind_raised _ _ _ Hidx), Hidx'.
    rewrite Hloop. cbn [of_sum pure snd app].
    eexists (_ :: _ :: _ :: _ :: _ :: _ :: map lines (columns df)).
    cbn [app]. reflexivity.
  - destruct Hs as (pre & Hs).
    rewrite (try_except_raised _ _ _ Hf), Hs.
    rewrite (print_accepted env _ (Hall _)). cbn [fst snd message].
    exists ((nl +++ rep "=" 80) :: ("DETAILED STRUCTURE ANALYSIS: " +++ filename)
            :: rep "=" 80 :: pre).
    cbn [app]. rewrite <- app_assoc. reflexivity.
Qed.

Lemma display_csv_structure_empty_witness :
  exists before,
    display_csv_structure Example.header_only_env "data.csv"
    = (Ok tt,
       before ++ [ nl +++ "First row data:";
                   "Error analyzing " +++ "data.csv"
                   +++ ": single positional indexer is out-of-bounds" ]).
Proof.
  apply (display_csv_structure_empty Example.header_only_env "data.csv"
           Example.header_only).
  - intros s. reflexivity.
  - reflexivity.
  - reflexivity.
Defined.

End ScriptFacts.
